(** * Project Chimera: the orchestration engine and the agent-to-agent contract

    A shallow embedding of the TypeScript sources of the orchestrator
    (registry, planner, executor, the [/register], [/agents] and
    [/plan-and-run] handlers), of the log-analyzer agent (the [/analyze]
    handler with its nested call to the sanitizer) and of the sanitizer
    agent (the [/sanitize] handler with its six patterns), followed by the
    properties the specification states about them and by further
    properties of the same code.

    Conventions of the embedding.
    - A JavaScript string is a [string]: a sequence of code units, here the
      code units below 256.  All the vocabulary of the planner and of the
      analyzer is ASCII, and under the [i] flag (without [u]) a code unit
      of 128 or more never matches an ASCII letter.
    - A parsed JSON value is a [Json]; a JavaScript value that may be
      [undefined] is an [option Json].  Numbers are written as integers:
      one stands for the double nearest to it and is printed as that
      double is; fractions are not modelled.
    - A plain object or a [Map] keyed by strings is an association list in
      insertion order, updated in place when the key is present.  Keys are
      agent names: property names inherited from [Object.prototype], and
      keys that read as array indices (which an object lists first), are
      not modelled.  The agents of the endpoint table are neither, and what
      depends on it is stated for the plans over these agents ([served]).
    - An [axios.post] of the deployment is given up after 5000 ms: a call
      takes its time, and the answer that is not there in time is a
      rejection.
    - A process is a program over its module-level state: it reads and
      writes that state, writes console lines, awaits [axios.post] and may
      throw.  Programs are trees ([Prog]); [run] interprets one against a
      network.  One request is handled at a time.
    - The handler of the sanitizer keeps no state and awaits nothing: it is
      a function from the body of the request to the answer and the
      console lines. *)

From Stdlib Require Import String Ascii List Bool Arith ZArith NArith Lia.
From Stdlib Require Import DecimalString.
Import ListNotations.

#[local] Set Warnings "-register-all".

Local Open Scope list_scope.
Local Open Scope string_scope.

(** ** JavaScript values *)

Module Js.

Inductive Json : Type :=
| JNull
| JBool (b : bool)
| JNum (z : Z)
| JStr (s : string)
| JArr (items : list Json)
| JObj (fields : list (string * Json)).

(** [ToBoolean]: [undefined], [null], [false], [0] and the empty string are
    falsy. *)
Definition truthy (v : option Json) : bool :=
  match v with
  | None => false
  | Some JNull => false
  | Some (JBool b) => b
  | Some (JNum z) => negb (Z.eqb z 0)
  | Some (JStr s) => negb (String.eqb s "")
  | Some (JArr _) => true
  | Some (JObj _) => true
  end.

(** [a || b] *)
Definition or_else (a b : option Json) : option Json :=
  if truthy a then a else b.

(** Association lists in insertion order: [obj[k]], [obj[k] = v],
    [map.get(k)], [map.set(k, v)]. *)
Fixpoint lookup {V : Type} (k : string) (m : list (string * V)) : option V :=
  match m with
  | [] => None
  | (k', v) :: rest => if String.eqb k k' then Some v else lookup k rest
  end.

Fixpoint assign {V : Type} (k : string) (v : V) (m : list (string * V))
  : list (string * V) :=
  match m with
  | [] => [(k, v)]
  | (k', v') :: rest =>
      if String.eqb k k' then (k, v) :: rest else (k', v') :: assign k v rest
  end.

(** Property read [v.k] on a value that is neither [null] nor [undefined]:
    only objects carry the properties read in these sources. *)
Definition prop (v : Json) (k : string) : option Json :=
  match v with
  | JObj fields => lookup k fields
  | _ => None
  end.

(** Optional chaining [v?.k]. *)
Definition prop_opt (v : option Json) (k : string) : option Json :=
  match v with
  | Some JNull | None => None
  | Some o => prop o k
  end.

(** Follows a path of property names. *)
Fixpoint path (ks : list string) (v : Json) : option Json :=
  match ks with
  | [] => Some v
  | k :: rest => match prop v k with
                 | Some w => path rest w
                 | None => None
                 end
  end.

(** An object literal: a property whose value is [undefined] is dropped
    when the object is serialised. *)
Definition field (k : string) (v : option Json) : list (string * Json) :=
  match v with
  | Some w => [(k, w)]
  | None => []
  end.

Definition string_of_nat (n : nat) : string :=
  NilZero.string_of_uint (Nat.to_uint n).

Definition string_of_Z (z : Z) : string :=
  NilZero.string_of_int (Z.to_int z).

(** *** Numbers

    An integer below 2^53 in size is a double.  A larger one stands for
    the double nearest to it, as [JSON.parse] reads its digits.
    [to_double a], for [a] of 2^53 or more, is that double: ties go to the
    even significand, and [None] is the infinity beyond the doubles. *)
Definition to_double (a : Z) : option Z :=
  let e := (Z.log2 a - 52)%Z in
  let q := Z.shiftr a e in
  let r := (a - Z.shiftl q e)%Z in
  let half := Z.shiftl 1 (e - 1) in
  let q' := if (half <? r)%Z || ((r =? half)%Z && Z.odd q) then (q + 1)%Z
            else q in
  if (Z.shiftl q' e <? 2 ^ 1024)%Z then Some (Z.shiftl q' e) else None.

(** [Number::toString]: the shortest digits that read back as the double,
    the nearest to it when several do; followed by zeros up to 21 digits,
    in the exponent form beyond. *)
Definition reads_as (x c : Z) : bool :=
  match to_double c with
  | Some y => (y =? x)%Z
  | None => false
  end.

Fixpoint shortest (x : Z) (n k fuel : nat) : Z :=
  match fuel with
  | O => x
  | S fuel' =>
      let m := (10 ^ Z.of_nat (n - k))%Z in
      let lo := (x / m * m)%Z in
      let hi := (lo + m)%Z in
      match reads_as x lo, reads_as x hi with
      | true, true =>
          if (x - lo <? hi - x)%Z then lo
          else if (hi - x <? x - lo)%Z then hi
          else if Z.even (x / m) then lo else hi
      | true, false => lo
      | false, true => hi
      | false, false => shortest x n (S k) fuel'
      end
  end.

Fixpoint significant (digits : string) : string :=
  match digits with
  | EmptyString => ""
  | String c rest =>
      match significant rest with
      | EmptyString => if Ascii.eqb c "0" then "" else String c ""
      | kept => String c kept
      end
  end.

Definition print_double (x : Z) : string :=
  let digits := string_of_Z x in
  let n := String.length digits in
  let printed := string_of_Z (shortest x n 1 n) in
  if Nat.leb (String.length printed) 21 then printed
  else match significant printed with
       | String c EmptyString =>
           String c ("e+" ++ string_of_nat (String.length printed - 1))
       | String c rest =>
           String c ("." ++ rest ++ "e+"
                     ++ string_of_nat (String.length printed - 1))
       | EmptyString => printed
       end.

Definition number_to_string (z : Z) : string :=
  if (Z.abs z <? 2 ^ 53)%Z then string_of_Z z
  else match to_double (Z.abs z) with
       | Some x => (if (z <? 0)%Z then "-" else "") ++ print_double x
       | None => if (z <? 0)%Z then "-Infinity" else "Infinity"
       end.

(** [JSON.stringify] writes an infinity as [null]. *)
Definition number_to_json (z : Z) : string :=
  if (Z.abs z <? 2 ^ 53)%Z then string_of_Z z
  else match to_double (Z.abs z) with
       | Some x => (if (z <? 0)%Z then "-" else "") ++ print_double x
       | None => "null"
       end.

Definition join (sep : string) (parts : list string) : string :=
  match parts with
  | [] => ""
  | p :: rest => fold_left (fun acc q => acc ++ sep ++ q) rest p
  end.

(** [String(v)], as used by a template literal. *)
Fixpoint to_string (v : Json) : string :=
  match v with
  | JNull => "null"
  | JBool true => "true"
  | JBool false => "false"
  | JNum z => number_to_string z
  | JStr s => s
  | JArr items =>
      join "," (map (fun x => match x with
                              | JNull => ""
                              | _ => to_string x
                              end) items)
  | JObj _ => "[object Object]"
  end.

Definition to_string_opt (v : option Json) : string :=
  match v with
  | Some w => to_string w
  | None => "undefined"
  end.

(** *** [JSON.stringify] *)

Definition hex_digit (n : N) : ascii :=
  if (n <? 10)%N then ascii_of_N (48 + n) else ascii_of_N (87 + n).

Definition dquote : ascii := ascii_of_N 34.

Definition quote_unit (c : ascii) : string :=
  let n := N_of_ascii c in
  if (n =? 34)%N then String "\"%char (String dquote "")
  else if (n =? 92)%N then "\\"
  else if (n =? 8)%N then "\b"
  else if (n =? 12)%N then "\f"
  else if (n =? 10)%N then "\n"
  else if (n =? 13)%N then "\r"
  else if (n =? 9)%N then "\t"
  else if (n <? 32)%N then
    "\u00" ++ String (hex_digit (n / 16)) (String (hex_digit (n mod 16)) "")
  else String c "".

Fixpoint quote_units (s : string) : string :=
  match s with
  | EmptyString => ""
  | String c rest => quote_unit c ++ quote_units rest
  end.

Definition quote (s : string) : string :=
  String dquote (quote_units s ++ String dquote "").

Fixpoint stringify (v : Json) : string :=
  match v with
  | JNull => "null"
  | JBool true => "true"
  | JBool false => "false"
  | JNum z => number_to_json z
  | JStr s => quote s
  | JArr items => "[" ++ join "," (map stringify items) ++ "]"
  | JObj fields =>
      "{" ++ join "," (map (fun kv => quote (fst kv) ++ ":" ++ stringify (snd kv))
                           fields) ++ "}"
  end.

(** [JSON.stringify(v)] inside a template literal. *)
Definition to_stringified (v : option Json) : string :=
  match v with
  | Some w => stringify w
  | None => "undefined"
  end.

(** *** Strings *)

Definition newline : ascii := ascii_of_N 10.

Definition unit_in (lo hi : N) (c : ascii) : bool :=
  ((lo <=? N_of_ascii c) && (N_of_ascii c <=? hi))%N.

(** [String.prototype.toLowerCase] on code units below 256: the letters
    [A]-[Z] and the Latin-1 capitals 192-222 (but the sign 215). *)
Definition lower_unit (c : ascii) : ascii :=
  if unit_in 65 90 c
     || (unit_in 192 222 c && negb (N.eqb (N_of_ascii c) 215))
  then ascii_of_N (N_of_ascii c + 32)
  else c.

Fixpoint toLowerCase (s : string) : string :=
  match s with
  | EmptyString => EmptyString
  | String c rest => String (lower_unit c) (toLowerCase rest)
  end.

(** [s.split(sep)] for a separator of one code unit. *)
Fixpoint split (sep : ascii) (s : string) : list string :=
  match s with
  | EmptyString => [EmptyString]
  | String c rest =>
      if Ascii.eqb c sep then EmptyString :: split sep rest
      else match split sep rest with
           | piece :: pieces => String c piece :: pieces
           | [] => [String c EmptyString]
           end
  end.


(** *** Regular expressions

    The fragment of the pattern language the sources use: literals,
    concatenation, alternation, the optional quantifier and the word
    boundary.  Matching is the backtracking of the language definition:
    the left alternative first, the optional part first with, then
    without. *)

Inductive Regex : Type :=
| Lit (p : string)
| Cat (a b : Regex)
| Alt (a b : Regex)
| Opt (a : Regex)
| WordBoundary.

(** [Canonicalize] without the [u] flag: a code unit of 128 or more never
    becomes an ASCII one. *)
Definition upper_unit (c : ascii) : ascii :=
  if unit_in 97 122 c
     || (unit_in 224 254 c && negb (N.eqb (N_of_ascii c) 247))
  then ascii_of_N (N_of_ascii c - 32)
  else c.

Definition canonicalize (ignoreCase : bool) (c : ascii) : ascii :=
  if ignoreCase then upper_unit c else c.

(** [\w] *)
Definition is_word_char (c : ascii) : bool :=
  unit_in 97 122 c || unit_in 65 90 c || unit_in 48 57 c
  || N.eqb (N_of_ascii c) 95.

Definition word_at (s : string) (i : nat) : bool :=
  match String.get i s with
  | Some c => is_word_char c
  | None => false
  end.

Definition word_before (s : string) (i : nat) : bool :=
  match i with
  | O => false
  | S j => word_at s j
  end.

Fixpoint lit_at (ic : bool) (p s : string) (i : nat) : option nat :=
  match p with
  | EmptyString => Some i
  | String c rest =>
      match String.get i s with
      | Some d =>
          if Ascii.eqb (canonicalize ic d) (canonicalize ic c)
          then lit_at ic rest s (S i)
          else None
      | None => None
      end
  end.

(** [matcher ic r s i k]: match [r] in [s] at index [i] and continue with
    [k] at the end index; the result is the end index of the whole match. *)
Fixpoint matcher (ic : bool) (r : Regex) (s : string) (i : nat)
  (k : nat -> option nat) : option nat :=
  match r with
  | Lit p => match lit_at ic p s i with
             | Some j => k j
             | None => None
             end
  | Cat a b => matcher ic a s i (fun j => matcher ic b s j k)
  | Alt a b => match matcher ic a s i k with
               | Some e => Some e
               | None => matcher ic b s i k
               end
  | Opt a => match matcher ic a s i k with
             | Some e => Some e
             | None => k i
             end
  | WordBoundary => if xorb (word_before s i) (word_at s i) then k i else None
  end.

(** The search loop of [RegExpBuiltinExec]: try index [i], then the
    following [fuel] indices. *)
Fixpoint scan (ic : bool) (r : Regex) (s : string) (i fuel : nat)
  : option nat :=
  match matcher ic r s i Some with
  | Some e => Some e
  | None => match fuel with
            | O => None
            | S f => scan ic r s (S i) f
            end
  end.

(** A [RegExp] object. *)
Record RegExp : Type := mkRegExp {
  source : Regex;
  ignoreCase : bool;
  global : bool;
  lastIndex : nat
}.

Definition setLastIndex (R : RegExp) (i : nat) : RegExp :=
  if global R
  then {| source := source R; ignoreCase := ignoreCase R;
          global := global R; lastIndex := i |}
  else R.

(** [R.test(s)]: with the [g] flag the search starts at [R.lastIndex], a
    match leaves [lastIndex] at its end and a failure resets it to 0. *)
Definition test (R : RegExp) (s : string) : bool * RegExp :=
  let start := if global R then lastIndex R else 0 in
  if Nat.ltb (String.length s) start then (false, setLastIndex R 0)
  else match scan (ignoreCase R) (source R) s start (String.length s - start) with
       | Some e => (true, setLastIndex R e)
       | None => (false, setLastIndex R 0)
       end.

(** Whether [s] holds a match of the pattern at all. *)
Definition matches (R : RegExp) (s : string) : bool :=
  match scan (ignoreCase R) (source R) s 0 (String.length s) with
  | Some _ => true
  | None => false
  end.

End Js.

Import Js.

(** ** The shared types of the orchestrator ([types.ts]) *)

Record Tool : Type := mkTool {
  tool_name : string;
  description : string;
  input : string
}.

Record AgentInfo : Type := mkAgentInfo {
  name : string;
  url : string;
  tools : list Tool
}.

Record PlanStep : Type := mkPlanStep {
  agent : string;
  task : string;
  inputFrom : string;
  dependsOn : option string
}.

Record PlanAndRunRequest : Type := mkPlanAndRunRequest {
  request : option string;
  data : option Json
}.

Record HttpResponse : Type := mkHttpResponse {
  status : nat;
  body : Json
}.

(** [res.json(b)] and [res.status(n).json(b)] *)
Definition json (b : Json) : HttpResponse := {| status := 200; body := b |}.
Definition status_json (n : nat) (b : Json) : HttpResponse :=
  {| status := n; body := b |}.

(** ** Processes *)

Module Process.

(** What [await axios.post(...)] gives: a response with a status in the
    2xx range and its parsed body, or an error with its [message] and, when
    the peer answered at all, the parsed body of its answer
    ([error.response.data]). *)
Inductive AxiosResult : Type :=
| Resolved (response_data : Json)
| Rejected (error_response_data : option Json) (message : string).

(** The console calls of the sources, one constructor per call site, with
    the values the line interpolates.  Banner lines are left out. *)
Inductive ConsoleLine : Type :=
| LogAgentRegistered (name url : string)
| LogPlanning (needsSanitizer needsLogAnalyst needsReport : bool)
| LogReceivedRequest (request : string)
| LogGeneratedPlan (plan : list PlanStep)
| LogExecutingPlan
| LogStep (number : nat) (agent task : string)
| ErrAgentNotFound (error : string)
| LogCalling (url : string)
| LogStepSuccess
| ErrStep (errorMsg : string)
| LogExecutionComplete
| ErrExecution (message : string)
| LogAnalyzing (characters : option nat)
| LogCallingSanitizer (url : string)
| LogSanitizationComplete (count : option Json)
| WarnSanitizerUnavailable (message : string)
| LogAnalyzingPatterns
| LogAnalysisComplete (critical errors warnings info : nat)
| ErrAnalysis (message : string).

(** A program of a process whose module-level state has type [S]. *)
Inductive Prog (S A : Type) : Type :=
| Ret (a : A)
| Throw (message : string)
| Log (line : ConsoleLine) (next : Prog S A)
| Get (k : S -> Prog S A)
| Put (s : S) (next : Prog S A)
| Post (url : string) (body : Json) (k : AxiosResult -> Prog S A).

Arguments Ret {S A} a.
Arguments Throw {S A} message.
Arguments Log {S A} line next.
Arguments Get {S A} k.
Arguments Put {S A} s next.
Arguments Post {S A} url body k.

Fixpoint bind {S A B : Type} (p : Prog S A) (f : A -> Prog S B) : Prog S B :=
  match p with
  | Ret a => f a
  | Throw m => Throw m
  | Log l next => Log l (bind next f)
  | Get k => Get (fun s => bind (k s) f)
  | Put s next => Put s (bind next f)
  | Post u b k => Post u b (fun r => bind (k r) f)
  end.

(** [try { p } catch (error) { handler(error.message) }] *)
Fixpoint catch {S A : Type} (p : Prog S A) (handler : string -> Prog S A)
  : Prog S A :=
  match p with
  | Ret a => Ret a
  | Throw m => handler m
  | Log l next => Log l (catch next handler)
  | Get k => Get (fun s => catch (k s) handler)
  | Put s next => Put s (catch next handler)
  | Post u b k => Post u b (fun r => catch (k r) handler)
  end.

Declare Scope prog_scope.
Delimit Scope prog_scope with prog.
Notation "x <- p ;; q" := (bind p (fun x => q))
  (at level 100, p at next level, right associativity) : prog_scope.

(** What a run of a program leaves behind. *)
Record Outcome (S A W : Type) : Type := mkOutcome {
  result : A + string;
  state : S;
  world : W;
  console : list ConsoleLine;
  calls : list (string * Json)
}.

Arguments mkOutcome {S A W} result state world console calls.
Arguments result {S A W} o.
Arguments state {S A W} o.
Arguments world {S A W} o.
Arguments console {S A W} o.
Arguments calls {S A W} o.

Section Run.
Context {S A W : Type}.

(** The network: how the world outside the process answers a call. *)
Variable net : W -> string -> Json -> AxiosResult * W.

Definition logged (l : ConsoleLine) (o : Outcome S A W) : Outcome S A W :=
  mkOutcome (result o) (state o) (world o) (l :: console o) (calls o).

Definition called (c : string * Json) (o : Outcome S A W) : Outcome S A W :=
  mkOutcome (result o) (state o) (world o) (console o) (c :: calls o).

Fixpoint run (p : Prog S A) (s : S) (w : W) : Outcome S A W :=
  match p with
  | Ret a => mkOutcome (inl a) s w [] []
  | Throw m => mkOutcome (inr m) s w [] []
  | Log l next => logged l (run next s w)
  | Get k => run (k s) s w
  | Put s' next => run next s' w
  | Post u b k => called (u, b) (run (k (fst (net w u b))) s (snd (net w u b)))
  end.
End Run.

(** The outcome of [o1] followed by [o2], and the outcome of a failure
    that nothing catches. *)
Definition followed_by {S A B W : Type} (o1 : Outcome S A W)
  (o2 : Outcome S B W) : Outcome S B W :=
  mkOutcome (result o2) (state o2) (world o2)
            (console o1 ++ console o2)%list (calls o1 ++ calls o2)%list.

Definition failed_with {S A B W : Type} (o1 : Outcome S A W)
  (message : string) : Outcome S B W :=
  mkOutcome (inr message) (state o1) (world o1) (console o1) (calls o1).

End Process.

Import Process.
Local Open Scope prog_scope.

(** ** The orchestrator *)

Module Orchestrator.

(** *** [registry.ts]

    The state of the orchestrator process is the one [agentRegistry]: its
    private [Map] from agent name to descriptor. *)

Definition AgentRegistry : Type := list (string * AgentInfo).

Definition register (agentInfo : AgentInfo) : Prog AgentRegistry unit :=
  Get (fun agents =>
  Put (assign (name agentInfo) agentInfo agents)
  (Log (LogAgentRegistered (name agentInfo) (url agentInfo))
  (Ret tt))).

Definition get (name : string) : Prog AgentRegistry (option AgentInfo) :=
  Get (fun agents => Ret (lookup name agents)).

Definition getAll : Prog AgentRegistry (list AgentInfo) :=
  Get (fun agents => Ret (map snd agents)).

Definition has (name : string) : Prog AgentRegistry bool :=
  Get (fun agents => Ret (match lookup name agents with
                          | Some _ => true
                          | None => false
                          end)).

Definition clear : Prog AgentRegistry unit :=
  Put [] (Ret tt).

(** *** [planner.ts] *)

Definition sanitizer_keywords : RegExp :=
  {| source := Alt (Lit "sanitize") (Alt (Lit "sensitive")
                 (Alt (Lit "pii") (Lit "personal")));
     ignoreCase := true; global := false; lastIndex := 0 |}.

Definition log_analyst_keywords : RegExp :=
  {| source := Alt (Cat (Lit "log") (Opt (Lit "s"))) (Alt (Lit "analyze")
                 (Alt (Cat (Lit "error") (Opt (Lit "s")))
                      (Cat (Lit "warning") (Opt (Lit "s")))));
     ignoreCase := true; global := false; lastIndex := 0 |}.

Definition report_keywords : RegExp :=
  {| source := Alt (Lit "summary") (Alt (Lit "report") (Alt (Lit "visual")
                 (Alt (Lit "brief") (Lit "chart"))));
     ignoreCase := true; global := false; lastIndex := 0 |}.

(** The three keyword predicates of [generatePlan]; each regular expression
    literal is a fresh object at every call. *)
Definition needsSanitizer (request : string) : bool :=
  fst (test sanitizer_keywords (toLowerCase request)).

Definition needsLogAnalyst (request : string) : bool :=
  fst (test log_analyst_keywords (toLowerCase request)).

Definition needsReport (request : string) : bool :=
  fst (test report_keywords (toLowerCase request)).

Definition generatePlan {S : Type} (request : string)
  : Prog S (list PlanStep) :=
  let plan := [] in
  Log (LogPlanning (needsSanitizer request) (needsLogAnalyst request)
                   (needsReport request))
  (let plan :=
     if needsLogAnalyst request
     then plan ++ [ {| agent := "log-analyzer"; task := "analyze";
                       inputFrom := "user"; dependsOn := None |} ]
     else plan in
   let plan :=
     if needsReport request && needsLogAnalyst request
     then plan ++ [ {| agent := "report-generator"; task := "generate";
                       inputFrom := "log-analyzer";
                       dependsOn := Some "log-analyzer" |} ]
     else if needsReport request
     then plan ++ [ {| agent := "report-generator"; task := "generate";
                       inputFrom := "user"; dependsOn := None |} ]
     else plan in
   let plan :=
     if needsSanitizer request && negb (needsLogAnalyst request)
        && negb (needsReport request)
     then plan ++ [ {| agent := "sanitizer"; task := "sanitize";
                       inputFrom := "user"; dependsOn := None |} ]
     else plan in
   Ret plan)%list.

(** *** [executor.ts] *)

Record ExecutionResult : Type := mkExecutionResult {
  success : bool;
  results : list (string * Json);
  executionTrace : list string
}.

Definition getEndpointForTask (agent task : string) : string :=
  let endpointMap := [ ("sanitizer", "/sanitize");
                       ("log-analyzer", "/analyze");
                       ("report-generator", "/generate-report") ] in
  match lookup agent endpointMap with
  | Some endpoint => endpoint
  | None => "/" ++ task
  end.

Definition agent_not_found (agent : string) : string :=
  "Agent " ++ agent ++ " not found in registry".

Definition dependency_not_met (inputFrom : string) : string :=
  "Dependency not met: " ++ inputFrom ++ " has no results".

Definition failed_to_execute (agent errorMsg : string) : string :=
  "Failed to execute " ++ agent ++ ": " ++ errorMsg.

(** The message of the [TypeError] that reading [summary] off a [null]
    response body raises. *)
Definition null_summary : string :=
  "Cannot read properties of null (reading 'summary')".

(** The body of the [for] loop, from step [i] on.  [results] and
    [executionTrace] are the loop's two accumulators. *)
Fixpoint executeSteps (initialData : option Json) (steps : list PlanStep)
  (i : nat) (results : list (string * Json)) (executionTrace : list string)
  : Prog AgentRegistry ExecutionResult :=
  match steps with
  | [] => Ret {| success := true; results := results;
                 executionTrace := executionTrace |}
  | step :: rest =>
      Log (LogStep (i + 1) (agent step) (task step))
      (found <- get (agent step) ;;
       match found with
       | None =>
           Log (ErrAgentNotFound (agent_not_found (agent step)))
           (Throw (agent_not_found (agent step)))
       | Some agentInfo =>
           let input :=
             if String.eqb (inputFrom step) "user" then initialData
             else lookup (inputFrom step) results in
           if negb (String.eqb (inputFrom step) "user") && negb (truthy input)
           then Throw (dependency_not_met (inputFrom step))
           else
             let endpoint := getEndpointForTask (agent step) (task step) in
             let url := url agentInfo ++ endpoint in
             Log (LogCalling url)
             (Post url (JObj (field "data" input)) (fun response =>
                match response with
                | Resolved JNull =>
                    Log (ErrStep null_summary)
                    (Throw (failed_to_execute (agent step) null_summary))
                | Resolved response_data =>
                    let line :=
                      agent step ++ ": " ++
                      to_stringified
                        (or_else (or_else (prop response_data "summary")
                                          (prop response_data "message"))
                                 (Some (JStr "completed"))) in
                    Log LogStepSuccess
                    (executeSteps initialData rest (S i)
                       (assign (agent step) response_data results)
                       (executionTrace ++ [line])%list)
                | Rejected error_response_data message =>
                    let errorMsg :=
                      to_string_opt
                        (or_else (prop_opt error_response_data "error")
                                 (Some (JStr message))) in
                    Log (ErrStep errorMsg)
                    (Throw (failed_to_execute (agent step) errorMsg))
                end))
       end)
  end.

Definition executePlan (plan : list PlanStep) (initialData : option Json)
  : Prog AgentRegistry ExecutionResult :=
  Log LogExecutingPlan (executeSteps initialData plan 0 [] []).

(** *** [index.ts]: [POST /plan-and-run] *)

Definition step_json (step : PlanStep) : Json :=
  JObj ([ ("agent", JStr (agent step)); ("task", JStr (task step));
          ("inputFrom", JStr (inputFrom step)) ]
        ++ field "dependsOn" (option_map JStr (dependsOn step)))%list.

Definition plan_json (plan : list PlanStep) : Json :=
  JArr (map step_json plan).

Definition missing_request : HttpResponse :=
  status_json 400 (JObj [ ("error", JStr "Missing required field: request") ]).

Definition no_agents_matched : HttpResponse :=
  json (JObj [ ("message", JStr "No agents matched the request");
               ("plan", JArr []);
               ("results", JObj []) ]).

(** [NODE_ENV] is taken not to be [development]: the [stack] property of
    the error answer is [undefined] and is dropped. *)
Definition planAndRun (body : PlanAndRunRequest)
  : Prog AgentRegistry HttpResponse :=
  catch
    (match request body with
     | None => Ret missing_request
     | Some request =>
         if String.eqb request "" then Ret missing_request
         else
           Log (LogReceivedRequest request)
           (plan <- generatePlan request ;;
            if Nat.eqb (List.length plan) 0 then Ret no_agents_matched
            else
              Log (LogGeneratedPlan plan)
              (executionResult <-
                 executePlan plan (or_else (data body) (Some (JStr request))) ;;
               Log LogExecutionComplete
               (Ret (json (JObj
                  [ ("request", JStr request);
                    ("plan", plan_json plan);
                    ("success", JBool (success executionResult));
                    ("results", JObj (results executionResult));
                    ("executionTrace",
                     JArr (map JStr (executionTrace executionResult))) ])))))
     end)
    (fun message =>
       Log (ErrExecution message)
       (Ret (status_json 500 (JObj [ ("error", JStr message) ])))).

(** *** [index.ts]: [POST /register] and [GET /agents]

    The body of [/register] carries [name], [url] and [tools]; each may be
    missing.  Nothing in the [try] block of the handler throws: the
    console line of its [catch] clause is left out. *)

Record RegisterRequest : Type := mkRegisterRequest {
  register_name : option string;
  register_url : option string;
  register_tools : option (list Tool)
}.

Definition tool_json (t : Tool) : Json :=
  JObj [ ("name", JStr (tool_name t));
         ("description", JStr (description t));
         ("input", JStr (input t)) ].

Definition agent_json (a : AgentInfo) : Json :=
  JObj [ ("name", JStr (name a));
         ("url", JStr (url a));
         ("tools", JArr (map tool_json (tools a))) ].

Definition missing_fields : HttpResponse :=
  status_json 400
    (JObj [ ("error", JStr "Missing required fields: name, url, tools") ]).

Definition registerRoute (body : RegisterRequest)
  : Prog AgentRegistry HttpResponse :=
  catch
    (match register_name body, register_url body, register_tools body with
     | Some name, Some url, Some tools =>
         if String.eqb name "" || String.eqb url "" then Ret missing_fields
         else
           _ <- register {| name := name; url := url; tools := tools |} ;;
           Ret (json (JObj
             [ ("success", JBool true);
               ("message",
                JStr ("Agent " ++ name ++ " registered successfully"));
               ("agent",
                agent_json {| name := name; url := url; tools := tools |}) ]))
     | _, _, _ => Ret missing_fields
     end)
    (fun message =>
       Ret (status_json 500 (JObj [ ("error", JStr message) ]))).

Definition agentsRoute : Prog AgentRegistry HttpResponse :=
  agents <- getAll ;;
  Ret (json (JObj [ ("count", JNum (Z.of_nat (List.length agents)));
                    ("agents", JArr (map agent_json agents)) ])).

End Orchestrator.

(** ** The log-analyzer agent *)

Module LogAnalyzer.

(** The four patterns are module-level objects with the [g] flag: their
    [lastIndex] is the state of the process. *)
Record ErrorPatterns : Type := mkErrorPatterns {
  critical : RegExp;
  error : RegExp;
  warning : RegExp;
  info : RegExp
}.

Definition word (alternatives : Regex) : Regex :=
  Cat WordBoundary (Cat alternatives WordBoundary).

Definition ERROR_PATTERNS : ErrorPatterns :=
  {| critical :=
       {| source := word (Alt (Lit "fatal") (Alt (Lit "critical")
                      (Alt (Lit "panic") (Alt (Lit "crash") (Lit "emergency")))));
          ignoreCase := true; global := true; lastIndex := 0 |};
     error :=
       {| source := word (Alt (Lit "error") (Alt (Lit "failed")
                      (Alt (Lit "failure") (Lit "exception"))));
          ignoreCase := true; global := true; lastIndex := 0 |};
     warning :=
       {| source := word (Alt (Lit "warning") (Alt (Lit "warn")
                      (Alt (Lit "deprecated") (Lit "caution"))));
          ignoreCase := true; global := true; lastIndex := 0 |};
     info :=
       {| source := word (Alt (Lit "info") (Alt (Lit "notice") (Lit "debug")));
          ignoreCase := true; global := true; lastIndex := 0 |} |}.

Record Finding : Type := mkFinding {
  line : nat;
  text : string
}.

(** The variables the [forEach] callback updates. *)
Record Tally : Type := mkTally {
  patterns : ErrorPatterns;
  criticalCount : nat;
  errorCount : nat;
  warningCount : nat;
  infoCount : nat;
  findings_critical : list Finding;
  findings_errors : list Finding;
  findings_warnings : list Finding
}.

Definition start (patterns : ErrorPatterns) : Tally :=
  mkTally patterns 0 0 0 0 [] [] [].

(** One call of the [forEach] callback. *)
Definition visit (t : Tally) (line : string) (index : nat) : Tally :=
  let p := patterns t in
  let finding := {| line := index + 1; text := substring 0 100 line |} in
  let c := test (critical p) line in
  if fst c then
    mkTally (mkErrorPatterns (snd c) (error p) (warning p) (info p))
            (S (criticalCount t)) (errorCount t) (warningCount t) (infoCount t)
            (findings_critical t ++ [finding])%list
            (findings_errors t) (findings_warnings t)
  else
    let e := test (error p) line in
    if fst e then
      mkTally (mkErrorPatterns (snd c) (snd e) (warning p) (info p))
              (criticalCount t) (S (errorCount t)) (warningCount t)
              (infoCount t) (findings_critical t)
              (findings_errors t ++ [finding])%list (findings_warnings t)
    else
      let w := test (warning p) line in
      if fst w then
        mkTally (mkErrorPatterns (snd c) (snd e) (snd w) (info p))
                (criticalCount t) (errorCount t) (S (warningCount t))
                (infoCount t) (findings_critical t) (findings_errors t)
                (findings_warnings t ++ [finding])%list
      else
        let i := test (info p) line in
        mkTally (mkErrorPatterns (snd c) (snd e) (snd w) (snd i))
                (criticalCount t) (errorCount t) (warningCount t)
                (if fst i then S (infoCount t) else infoCount t)
                (findings_critical t) (findings_errors t)
                (findings_warnings t).

Fixpoint forEach (lines : list string) (index : nat) (t : Tally) : Tally :=
  match lines with
  | [] => t
  | line :: rest => forEach rest (S index) (visit t line index)
  end.

Definition finding_json (f : Finding) : Json :=
  JObj [ ("line", JNum (Z.of_nat (line f))); ("text", JStr (text f)) ].

Definition count_json (n : nat) : Json := JNum (Z.of_nat n).

(** [v.length] *)
Definition length_of (v : Json) : option nat :=
  match v with
  | JStr s => Some (String.length s)
  | JArr items => Some (List.length items)
  | _ => None
  end.

Definition missing_data : HttpResponse :=
  status_json 400 (JObj [ ("error", JStr "Missing required field: data") ]).

(** The message of the [TypeError] that [sanitizedData.split] raises when
    [sanitizedData] is not a string. *)
Definition split_type_error (sanitizedData : option Json) : string :=
  match sanitizedData with
  | None => "Cannot read properties of undefined (reading 'split')"
  | Some JNull => "Cannot read properties of null (reading 'split')"
  | Some _ => "sanitizedData.split is not a function"
  end.

Definition null_sanitized : string :=
  "Cannot read properties of null (reading 'sanitized')".

Section Analyze.
(** [process.env.SANITIZER_URL || 'http://localhost:5001'] *)
Variable SANITIZER_URL : string.

(** The answer of [/analyze] once [lines] have been counted. *)
Definition analysis_response (lines : list string) (t : Tally)
  (sanitizationInfo : option Json) : HttpResponse :=
  json (JObj
    [ ("success", JBool true);
      ("analysis", JObj
         [ ("totalLines", count_json (List.length lines));
           ("critical", count_json (criticalCount t));
           ("errors", count_json (errorCount t));
           ("warnings", count_json (warningCount t));
           ("info", count_json (infoCount t));
           ("findings", JObj
              [ ("critical",
                 JArr (map finding_json (firstn 5 (findings_critical t))));
                ("errors",
                 JArr (map finding_json (firstn 5 (findings_errors t))));
                ("warnings",
                 JArr (map finding_json (firstn 5 (findings_warnings t)))) ]) ]);
      ("sanitization", match sanitizationInfo with
                       | Some i => i
                       | None => JNull
                       end);
      ("agentToAgentCall", JObj
         [ ("called", JStr "sanitizer");
           ("url", JStr SANITIZER_URL);
           ("success", JBool (match sanitizationInfo with
                              | Some _ => true
                              | None => false
                              end)) ]);
      ("summary", JStr ("Analyzed " ++ string_of_nat (List.length lines)
                        ++ " log lines: " ++ string_of_nat (criticalCount t)
                        ++ " critical, " ++ string_of_nat (errorCount t)
                        ++ " errors, " ++ string_of_nat (warningCount t)
                        ++ " warnings"));
      ("message", JStr "Log analysis complete with sanitization") ]).

(** [POST /analyze].  [data] is declared a string; the handler is
    embedded on whatever JSON value the body carries. *)
Definition analyze (data : option Json) : Prog ErrorPatterns HttpResponse :=
  catch
    (if negb (truthy data) then Ret missing_data
     else
       Log (LogAnalyzing (match data with
                          | Some d => length_of d
                          | None => None
                          end))
       (Log (LogCallingSanitizer (SANITIZER_URL ++ "/sanitize"))
       (Post (SANITIZER_URL ++ "/sanitize") (JObj (field "data" data))
          (fun sanitizeResponse =>
             (* the inner try and its catch *)
             let '(sanitizedData, sanitizationInfo, said) :=
               match sanitizeResponse with
               | Resolved JNull =>
                   (data, None, WarnSanitizerUnavailable null_sanitized)
               | Resolved response_data =>
                   (prop response_data "sanitized",
                    Some (JObj (field "count" (prop response_data "count")
                                ++ field "message"
                                     (prop response_data "message"))%list),
                    LogSanitizationComplete (prop response_data "count"))
               | Rejected _ message =>
                   (data, None, WarnSanitizerUnavailable message)
               end in
             Log said
             (Log LogAnalyzingPatterns
             match sanitizedData with
             | Some (JStr sanitized) =>
                 let lines := split newline sanitized in
                 Get (fun patterns =>
                 let t := forEach lines 0 (start patterns) in
                 Put (LogAnalyzer.patterns t)
                 (Log (LogAnalysisComplete (criticalCount t) (errorCount t)
                                           (warningCount t) (infoCount t))
                 (Ret (analysis_response lines t sanitizationInfo))))
             | _ => Throw (split_type_error sanitizedData)
             end)))))
    (fun message =>
       Log (ErrAnalysis message)
       (Ret (status_json 500 (JObj [ ("error", JStr message) ])))).
End Analyze.

End LogAnalyzer.

(** ** The sanitizer agent *)

Module Sanitizer.

(** The pattern language of the sanitizer's expressions: literals, character
    classes given by their ranges of code units, concatenation, alternation,
    greedy repetition between [min] and [max] times ([None]: unbounded) and
    the word boundary.  The groups of the expressions capture nothing that
    is read, and are left out. *)
Inductive Pattern : Type :=
| Chars (p : string)
| Class (ranges : list (N * N))
| Seq (a b : Pattern)
| Or (a b : Pattern)
| Repeat (a : Pattern) (min : nat) (max : option nat)
| Boundary.

Definition in_ranges (ranges : list (N * N)) (c : ascii) : bool :=
  existsb (fun r => unit_in (fst r) (snd r) c) ranges.

(** [CharacterSetMatcher]: with the [i] flag a code unit is in the class
    when some member of the class has the same canonical form. *)
Definition class_has (ic : bool) (ranges : list (N * N)) (c : ascii) : bool :=
  if ic
  then in_ranges ranges (upper_unit c)
       || in_ranges ranges (lower_unit (upper_unit c))
  else in_ranges ranges c.

Definition below (max : option nat) (count : nat) : bool :=
  match max with
  | Some m => Nat.ltb count m
  | None => true
  end.

(** [matcher ic r s i k]: match [r] in [s] at index [i] and continue with
    [k] at the end index.  A repetition takes as many rounds as it can and
    gives them back one by one; once [min] rounds are done, a round that
    matches the empty string is not taken.  Its fuel bounds the rounds:
    each one past [min] consumes a code unit. *)
Fixpoint matcher (ic : bool) (r : Pattern) (s : string) (i : nat)
  (k : nat -> option nat) : option nat :=
  match r with
  | Chars p => match lit_at ic p s i with
               | Some j => k j
               | None => None
               end
  | Class ranges =>
      match String.get i s with
      | Some c => if class_has ic ranges c then k (S i) else None
      | None => None
      end
  | Seq a b => matcher ic a s i (fun j => matcher ic b s j k)
  | Or a b => match matcher ic a s i k with
              | Some e => Some e
              | None => matcher ic b s i k
              end
  | Repeat a min max =>
      (fix rounds (fuel count i : nat) : option nat :=
         let stop := if Nat.leb min count then k i else None in
         match fuel with
         | O => stop
         | S f =>
             if below max count
             then match matcher ic a s i
                          (fun j => if Nat.leb min count && Nat.eqb j i
                                    then None
                                    else rounds f (S count) j) with
                  | Some e => Some e
                  | None => stop
                  end
             else stop
         end) (String.length s + min + 1) 0 i
  | Boundary => if xorb (word_before s i) (word_at s i) then k i else None
  end.

(** The search loop of [RegExpBuiltinExec]: the first index from [i] on, up
    to [i + fuel], at which the pattern matches, and the end of the match. *)
Fixpoint scan (ic : bool) (r : Pattern) (s : string) (i fuel : nat)
  : option (nat * nat) :=
  match matcher ic r s i Some with
  | Some e => Some (i, e)
  | None => match fuel with
            | O => None
            | S f => scan ic r s (S i) f
            end
  end.

(** A regular expression with the [g] flag.  [match] and [replace] set
    [lastIndex] to 0 before they search and leave it at 0: the pattern
    objects of the sanitizer carry no state from one call to the next. *)
Record RegExp : Type := mkRegExp {
  source : Pattern;
  ignoreCase : bool
}.

(** The loop that [match] and [replace] share for a global expression:
    the matches from [lastIndex] on, as spans of indices.  After an empty
    match the search goes on one index further. *)
Fixpoint spans (R : RegExp) (s : string) (lastIndex fuel : nat)
  : list (nat * nat) :=
  match fuel with
  | O => []
  | S f =>
      if Nat.ltb (String.length s) lastIndex then []
      else match scan (ignoreCase R) (source R) s lastIndex
                      (String.length s - lastIndex) with
           | None => []
           | Some (b, e) =>
               (b, e) :: spans R s (if Nat.eqb e b then S e else e) f
           end
  end.

Definition all_spans (R : RegExp) (s : string) : list (nat * nat) :=
  spans R s 0 (String.length s + 2).

(** [s.match(R)]: the matched substrings; the empty list stands for
    [null]. *)
Definition match_all (R : RegExp) (s : string) : list string :=
  map (fun span => substring (fst span) (snd span - fst span) s)
      (all_spans R s).

(** The result of [replace]: the text between the matches, with the
    replacement for each match, from position [next] on. *)
Fixpoint rebuild (s : string) (found : list (nat * nat)) (next : nat)
  (replacement : string) : string :=
  match found with
  | [] => substring next (String.length s - next) s
  | (b, e) :: rest =>
      if Nat.leb next b
      then substring next (b - next) s ++ replacement
           ++ rebuild s rest e replacement
      else rebuild s rest next replacement
  end.

(** [s.replace(R, replacement)] for a replacement without [$]. *)
Definition replace (R : RegExp) (s replacement : string) : string :=
  rebuild s (all_spans R s) 0 replacement.

(** [toUpperCase] on the names of the patterns, which are ASCII. *)
Definition upper_ascii (c : ascii) : ascii :=
  if unit_in 97 122 c then ascii_of_N (N_of_ascii c - 32) else c.

Fixpoint toUpperCase (s : string) : string :=
  match s with
  | EmptyString => EmptyString
  | String c rest => String (upper_ascii c) (toUpperCase rest)
  end.

(** The classes of the expressions. *)
Definition digit : Pattern := Class [ (48, 57) ]%N.
Definition letters : list (N * N) := [ (65, 90); (97, 122) ]%N.
Definition alphanumerics : list (N * N) := (letters ++ [ (48, 57) ])%list%N.
Definition one (c : string) : list (N * N) :=
  match c with
  | String a _ => [ (N_of_ascii a, N_of_ascii a) ]
  | EmptyString => []
  end.
(** [\s] below 256: tab to carriage return, space, no-break space. *)
Definition whitespace : list (N * N) := [ (9, 13); (32, 32); (160, 160) ]%N.

Definition times (n : nat) (a : Pattern) : Pattern := Repeat a n (Some n).
Definition some (a : Pattern) : Pattern := Repeat a 1 None.
Definition maybe (a : Pattern) : Pattern := Repeat a 0 (Some 1).

Fixpoint seq (parts : list Pattern) : Pattern :=
  match parts with
  | [] => Chars ""
  | [a] => a
  | a :: rest => Seq a (seq rest)
  end.

(** [PATTERNS], in the order of its keys. *)
Definition email : RegExp :=
  {| source :=
       seq [ Boundary;
             some (Class (alphanumerics ++ one "." ++ one "_" ++ one "%"
                          ++ one "+" ++ one "-")%list);
             Chars "@";
             some (Class (alphanumerics ++ one "." ++ one "-")%list);
             Chars ".";
             Repeat (Class ([ (65, 90) ]%N ++ one "|" ++ [ (97, 122) ]%N)%list)
                    2 None;
             Boundary ];
     ignoreCase := false |}.

Definition ipv4 : RegExp :=
  {| source :=
       seq [ Boundary;
             times 3 (Seq (Repeat digit 1 (Some 3)) (Chars "."));
             Repeat digit 1 (Some 3);
             Boundary ];
     ignoreCase := false |}.

Definition ssn : RegExp :=
  {| source :=
       seq [ Boundary; times 3 digit; Chars "-"; times 2 digit; Chars "-";
             times 4 digit; Boundary ];
     ignoreCase := false |}.

Definition phone : RegExp :=
  {| source :=
       seq [ Boundary; times 3 digit; Chars "-"; times 3 digit; Chars "-";
             times 4 digit; Boundary ];
     ignoreCase := false |}.

Definition creditCard : RegExp :=
  {| source :=
       seq [ Boundary;
             times 4 digit; maybe (Class (one "-" ++ one " ")%list);
             times 4 digit; maybe (Class (one "-" ++ one " ")%list);
             times 4 digit; maybe (Class (one "-" ++ one " ")%list);
             times 4 digit; Boundary ];
     ignoreCase := false |}.

Definition apiKey : RegExp :=
  {| source :=
       Or (Seq (Or (Chars "sk_live_")
                (Or (Chars "pk_live_")
                (Or (Chars "sk_test_")
                (Or (Chars "pk_test_")
                    (seq [ Chars "api";
                           maybe (Class (one "_" ++ one "-")%list);
                           Chars "key";
                           some (Class (one ":" ++ whitespace)%list) ])))))
               (some (Class (letters ++ [ (48, 57) ]%N ++ one "_"
                             ++ one "-")%list)))
          (Repeat (Class alphanumerics) 32 None);
     ignoreCase := true |}.

Definition PATTERNS : list (string * RegExp) :=
  [ ("email", email); ("ipv4", ipv4); ("ssn", ssn); ("phone", phone);
    ("creditCard", creditCard); ("apiKey", apiKey) ].

(** The console calls of the handler. *)
Inductive SanitizerLine : Type :=
| LogSanitizing (characters : option Json)
| LogRemoved (count : nat) (type : string)
| LogSanitized (totalCount : nat)
| ErrSanitization (message : string).

(** The variables the loop over the patterns updates, and what it has
    written to the console. *)
Record Pass : Type := mkPass {
  sanitized : string;
  removed : list string;
  totalCount : nat;
  said : list SanitizerLine
}.

(** One round of the loop over [Object.entries(PATTERNS)]. *)
Definition redact (acc : Pass) (entry : string * RegExp) : Pass :=
  let type := fst entry in
  let pattern := snd entry in
  let matches := match_all pattern (sanitized acc) in
  match matches with
  | [] => acc
  | _ :: _ =>
      {| sanitized :=
           replace pattern (sanitized acc)
                   ("[REDACTED_" ++ toUpperCase type ++ "]");
         removed :=
           (removed acc
            ++ map (fun m => (type ++ ": " ++ substring 0 10 m ++ "...")%string)
                   matches)%list;
         totalCount := totalCount acc + List.length matches;
         said := (said acc ++ [ LogRemoved (List.length matches) type ])%list |}
  end.

Definition missing_data : HttpResponse :=
  status_json 400 (JObj [ ("error", JStr "Missing required field: data") ]).

(** [data.length] *)
Definition length_of (data : Json) : option Json :=
  match data with
  | JStr s => Some (JNum (Z.of_nat (String.length s)))
  | JArr items => Some (JNum (Z.of_nat (List.length items)))
  | JObj fields => lookup "length" fields
  | _ => None
  end.

(** The message of the [TypeError] that [sanitized.match] raises when the
    data is not a string. *)
Definition match_type_error : string := "sanitized.match is not a function".

(** [POST /sanitize]: the answer and the lines written to the console.
    [data] is declared a string; the handler is embedded on whatever JSON
    value the body carries. *)
Definition sanitize (data : option Json) : HttpResponse * list SanitizerLine :=
  if negb (truthy data) then (missing_data, [])
  else
    match data with
    | Some (JStr text) =>
        let done :=
          fold_left redact PATTERNS
                    {| sanitized := text; removed := []; totalCount := 0;
                       said := [ LogSanitizing (length_of (JStr text)) ] |} in
        (json (JObj
           [ ("success", JBool true);
             ("sanitized", JStr (sanitized done));
             ("removed", JArr (map JStr (firstn 10 (removed done))));
             ("count", JNum (Z.of_nat (totalCount done)));
             ("message", JStr ("Sanitized " ++ string_of_nat (totalCount done)
                               ++ " sensitive items")) ]),
         (said done ++ [ LogSanitized (totalCount done) ])%list)
    | Some other =>
        (status_json 500 (JObj [ ("error", JStr match_type_error) ]),
         [ LogSanitizing (length_of other);
           ErrSanitization match_type_error ])
    | None => (missing_data, [])
    end.

(** The body [registerWithOrchestrator] posts to [/register] of the
    orchestrator, [PORT] being [process.env.PORT || 5001]. *)
Definition AGENT_NAME : string := "sanitizer".

Definition AGENT_URL (PORT : string) : string := "http://localhost:" ++ PORT.

Definition registration (PORT : string) : Orchestrator.RegisterRequest :=
  {| Orchestrator.register_name := Some AGENT_NAME;
     Orchestrator.register_url := Some (AGENT_URL PORT);
     Orchestrator.register_tools :=
       Some [ {| tool_name := "sanitize";
                 description :=
                   "Removes PII and sensitive information from text "
                   ++ "(emails, IPs, SSNs, phone numbers, etc.)";
                 input := "{ data: string }" |} ] |}.

End Sanitizer.

(** ** The deployment: the orchestrator in front of the log-analyzer *)

Module System.

(** How [axios] sees an HTTP answer: a status in the 2xx range resolves,
    any other rejects with the body as [error.response.data]. *)
Definition axios_of (r : HttpResponse) : AxiosResult :=
  if Nat.leb 200 (status r) && Nat.ltb (status r) 300
  then Resolved (body r)
  else Rejected (Some (body r))
         ("Request failed with status code " ++ string_of_nat (status r)).

(** A peer that does not answer. *)
Definition unreachable {W : Type} (w : W) (_ : string) (_ : Json)
  : AxiosResult * W :=
  (Rejected None "connect ECONNREFUSED", w).

(** A sanitizer that finds nothing to redact in the text it is sent. *)
Definition nothing_to_redact {W : Type} (w : W) (_ : string) (body : Json)
  : AxiosResult * W :=
  (Resolved (JObj ([ ("success", JBool true) ]
                   ++ field "sanitized" (prop body "data")
                   ++ [ ("removed", JArr []);
                        ("count", JNum 0);
                        ("message", JStr "Sanitized 0 sensitive items") ])%list),
   w).

(** A peer that gives one fixed answer. *)
Definition answering {W : Type} (r : AxiosResult) (w : W) (_ : string)
  (_ : Json) : AxiosResult * W :=
  (r, w).

(** The calls of the executor and of the analyzer carry [timeout: 5000]:
    [axios] rejects a call whose outcome takes 5000 ms or more. *)
Definition TIMEOUT : nat := 5000.

Definition timeout_exceeded : string := "timeout of 5000ms exceeded".

Definition within_timeout (ms : nat) (r : AxiosResult) : AxiosResult :=
  if Nat.ltb ms TIMEOUT then r else Rejected None timeout_exceeded.

(** A peer whose outcome is there at once, and one that stays silent. *)
Definition at_once {W : Type} (_ : W) (_ : string) (_ : Json) : nat := 0.

Definition silent {W : Type} (_ : W) (_ : string) (_ : Json) : nat := TIMEOUT.

Section Deployment.
Context {W : Type}.

(** Where the analyzer looks for the sanitizer, where the analyzer
    listens, what the sanitizer does with the analyzer's nested call and
    the milliseconds that takes, and the milliseconds a request to the
    analyzer takes besides: on its way, in the handler and back. *)
Variable SANITIZER_URL : string.
Variable ANALYZER_URL : string.
Variable sanitizer : W -> string -> Json -> AxiosResult * W.
Variable took : W -> string -> Json -> nat.
Variable overhead : nat.

(** The nested call as the analyzer's [axios] settles it. *)
Definition nested (w : W) (url : string) (body : Json) : AxiosResult * W :=
  (within_timeout (took w url body) (fst (sanitizer w url body)),
   snd (sanitizer w url body)).

(** The milliseconds the analyzer waits for its nested call, of which it
    sends at most one. *)
Definition waited (w : W) (sent : list (string * Json)) : nat :=
  match sent with
  | [] => 0
  | (url, body) :: _ => Nat.min TIMEOUT (took w url body)
  end.

(** The network as the orchestrator sees it: the log-analyzer process,
    with its patterns, answers [/analyze]; no other agent is running.
    The executor's timer runs while the analyzer waits: when the nested
    call times out, the executor's call has timed out as well, although
    the analyzer goes on to count. *)
Definition network (w : LogAnalyzer.ErrorPatterns * W) (url : string)
  (body : Json) : AxiosResult * (LogAnalyzer.ErrorPatterns * W) :=
  if String.eqb url (ANALYZER_URL ++ "/analyze") then
    let o := run nested
                 (LogAnalyzer.analyze SANITIZER_URL (prop body "data"))
                 (fst w) (snd w) in
    (within_timeout (overhead + waited (snd w) (calls o))
       match result o with
       | inl response => axios_of response
       | inr message => Rejected None message
       end,
     (state o, world o))
  else unreachable w url body.
End Deployment.

End System.

(** ** The deployment: the log-analyzer in front of the sanitizer *)

(** The network as the log-analyzer sees it: the sanitizer process answers
    [/sanitize] at its address; nothing else is running. *)
Definition sanitizer_agent {W : Type} (SANITIZER_URL : string) (w : W)
  (url : string) (body : Json) : AxiosResult * W :=
  if String.eqb url (SANITIZER_URL ++ "/sanitize")
  then (System.axios_of (fst (Sanitizer.sanitize (prop body "data"))), w)
  else System.unreachable w url body.

Import Orchestrator LogAnalyzer.

(** ** Vocabulary of the properties *)

(** The four steps the planner can emit. *)
Definition log_analyzer_step : PlanStep :=
  {| agent := "log-analyzer"; task := "analyze";
     inputFrom := "user"; dependsOn := None |}.

Definition dependent_report_step : PlanStep :=
  {| agent := "report-generator"; task := "generate";
     inputFrom := "log-analyzer"; dependsOn := Some "log-analyzer" |}.

Definition standalone_report_step : PlanStep :=
  {| agent := "report-generator"; task := "generate";
     inputFrom := "user"; dependsOn := None |}.

Definition sanitizer_step : PlanStep :=
  {| agent := "sanitizer"; task := "sanitize";
     inputFrom := "user"; dependsOn := None |}.

(** The plan [generatePlan] returns. *)
Definition planned (request : string) : list PlanStep :=
  match @generatePlan unit request with
  | Log _ (Ret plan) => plan
  | _ => []
  end.

(** The invariant of the registry: one entry per key, and every descriptor
    is stored under its own name. *)
Definition well_formed (agents : AgentRegistry) : Prop :=
  NoDup (map fst agents) /\
  Forall (fun entry => fst entry = name (snd entry)) agents.

(** The calls that change the registry, and a history of them. *)
Inductive RegistryCall : Type :=
| CallRegister (agentInfo : AgentInfo)
| CallClear.

Definition perform (c : RegistryCall) : Prog AgentRegistry unit :=
  match c with
  | CallRegister agentInfo => register agentInfo
  | CallClear => clear
  end.

Fixpoint replay (history : list RegistryCall) : Prog AgentRegistry unit :=
  match history with
  | [] => Ret tt
  | c :: rest => _ <- perform c ;; replay rest
  end.

(** Registries and payloads of the examples. *)
Definition analyzer_only : AgentRegistry :=
  [ ("log-analyzer", mkAgentInfo "log-analyzer" "http://localhost:5002" []) ].


Definition sanitizer_only : AgentRegistry :=
  [ ("sanitizer", mkAgentInfo "sanitizer" "http://localhost:5001" []) ].

Definition some_logs : option Json := Some (JStr "ERROR: Connection failed").

(** A [RegExp] object with its [lastIndex] set. *)
Definition at_index (R : RegExp) (n : nat) : RegExp :=
  {| source := source R; ignoreCase := ignoreCase R; global := global R;
     lastIndex := n |}.

(** The patterns of the analyzer with their four [lastIndex] values. *)
Definition with_indices (lc le lw li : nat) : ErrorPatterns :=
  {| critical := at_index (critical ERROR_PATTERNS) lc;
     error := at_index (error ERROR_PATTERNS) le;
     warning := at_index (warning ERROR_PATTERNS) lw;
     info := at_index (info ERROR_PATTERNS) li |}.

(** How many of the lines hold a match of the pattern. *)
Definition count_matching (R : RegExp) (lines : list string) : nat :=
  List.length (filter (matches R) lines).

(** How many of the lines the pattern object hits when [test] is called on
    each of them in turn. *)
Fixpoint hits (R : RegExp) (lines : list string) : nat :=
  match lines with
  | [] => 0
  | line :: rest =>
      (if fst (test R line) then 1 else 0) + hits (snd (test R line)) rest
  end.

(** The sanitizer did not change the text: the call was rejected, or its
    answer carries the text as [sanitized]. *)
Definition keeps_text (text : string) (r : AxiosResult) : Prop :=
  match r with
  | Rejected _ _ => True
  | Resolved response_data => prop response_data "sanitized" = Some (JStr text)
  end.

(** The value an answer carries at a path, when there is an answer. *)
Definition answered_at {S W : Type} (ks : list string)
  (o : Outcome S HttpResponse W) : option Json :=
  match result o with
  | inl answer => path ks (body answer)
  | inr _ => None
  end.

(** A text of several lines. *)
Definition text_of (lines : list string) : string :=
  join (String newline "") lines.

(** The input a step sends, and whether it has one: its source is the
    user, or an agent whose stored result is truthy. *)
Definition input_for (initialData : option Json)
  (results : list (string * Json)) (step : PlanStep) : option Json :=
  if String.eqb (inputFrom step) "user" then initialData
  else lookup (inputFrom step) results.

Definition has_input (results : list (string * Json)) (step : PlanStep)
  : bool :=
  String.eqb (inputFrom step) "user"
  || truthy (lookup (inputFrom step) results).

(** A plan is well ordered when every step takes its input from the user,
    from an agent in [known] or from the agent of an earlier step. *)
Fixpoint well_ordered (known : list string) (steps : list PlanStep) : Prop :=
  match steps with
  | [] => True
  | step :: rest =>
      (inputFrom step = "user" \/ In (inputFrom step) known) /\
      well_ordered (agent step :: known) rest
  end.

(** The line the trace gets for the answer of a step: the agent and the
    [summary] of the answer, else its [message], else "completed". *)
Definition trace_line (step : PlanStep) (response_data : Json) : string :=
  agent step ++ ": " ++
  to_stringified (or_else (or_else (prop response_data "summary")
                                   (prop response_data "message"))
                          (Some (JStr "completed"))).

(** The agents of the endpoint table of the executor, and the plans over
    them: every step runs one of these agents and takes its input from the
    user or from one of them.  The planner builds no other plan. *)
Definition endpoint_agents : list string :=
  [ "sanitizer"; "log-analyzer"; "report-generator" ].

Definition served (plan : list PlanStep) : Prop :=
  Forall (fun step =>
            In (agent step) endpoint_agents /\
            (inputFrom step = "user" \/ In (inputFrom step) endpoint_agents))
         plan.

(** The address and the body of the call the executor sends for a step. *)
Definition call_for (agentInfo : AgentInfo) (step : PlanStep)
  (input : option Json) : string * Json :=
  (url agentInfo ++ getEndpointForTask (agent step) (task step),
   JObj (field "data" input)).

(** A network whose every answer is a success with a truthy body. *)
Definition answers_truthy {W : Type}
  (net : W -> string -> Json -> AxiosResult * W) : Prop :=
  forall w u b, exists response_data,
    fst (net w u b) = Resolved response_data /\
    truthy (Some response_data) = true.

(** A registry with the analyzer and the report generator, and answers
    of the examples. *)
Definition analyzer_and_reporter : AgentRegistry :=
  [ ("log-analyzer", mkAgentInfo "log-analyzer" "http://localhost:5002" []);
    ("report-generator",
     mkAgentInfo "report-generator" "http://localhost:5003" []) ].

Definition a_summary : Json := JObj [ ("summary", JStr "done") ].

(** A line that holds none of the analyzer's keywords. *)
Definition quiet (line : string) : bool :=
  negb (matches (critical ERROR_PATTERNS) line)
  && negb (matches (error ERROR_PATTERNS) line)
  && negb (matches (warning ERROR_PATTERNS) line)
  && negb (matches (info ERROR_PATTERNS) line).

(** A finding points at a line of the text, by its number from 1, that
    holds a match of the pattern, and quotes its first 100 code units. *)
Definition points_at (R : RegExp) (lines : list string) (f : Finding)
  : Prop :=
  exists l, 1 <= line f /\ nth_error lines (line f - 1) = Some l /\
            text f = substring 0 100 l /\ matches R l = true.

(** What holds of the tally after the lines [seen]. *)
Record tallied (seen : list string) (t : Tally) : Prop := mkTallied {
  tallied_patterns :
    exists lc le lw li, patterns t = with_indices lc le lw li;
  tallied_total :
    criticalCount t + errorCount t + warningCount t + infoCount t
      <= List.length seen;
  tallied_critical : List.length (findings_critical t) = criticalCount t;
  tallied_errors : List.length (findings_errors t) = errorCount t;
  tallied_warnings : List.length (findings_warnings t) = warningCount t;
  tallied_critical_le :
    criticalCount t <= count_matching (critical ERROR_PATTERNS) seen;
  tallied_errors_le :
    errorCount t <= count_matching (error ERROR_PATTERNS) seen;
  tallied_warnings_le :
    warningCount t <= count_matching (warning ERROR_PATTERNS) seen;
  tallied_info_le :
    infoCount t <= count_matching (info ERROR_PATTERNS) seen;
  tallied_critical_at :
    Forall (points_at (critical ERROR_PATTERNS) seen) (findings_critical t);
  tallied_errors_at :
    Forall (points_at (error ERROR_PATTERNS) seen) (findings_errors t);
  tallied_warnings_at :
    Forall (points_at (warning ERROR_PATTERNS) seen) (findings_warnings t)
}.


Definition empty_answer : Json := JObj [ ("success", JBool true) ].

(** The text made of the pieces with a filler after each piece but the
    last. *)
Fixpoint weave (pieces fillers : list string) : string :=
  match pieces, fillers with
  | piece :: pieces', filler :: fillers' =>
      piece ++ filler ++ weave pieces' fillers'
  | piece :: _, [] => piece
  | [], _ => ""
  end.

(** The token the sanitizer puts in the place of a match. *)
Definition token (type : string) : string :=
  "[REDACTED_" ++ Sanitizer.toUpperCase type ++ "]".

(** The text holds nothing the sanitizer looks for. *)
Definition clean (text : string) : Prop :=
  Forall (fun entry => Sanitizer.match_all (snd entry) text = [])
         Sanitizer.PATTERNS.

(** The state of the sanitizer's loop before its first round. *)
Definition unsanitized (text : string) : Sanitizer.Pass :=
  {| Sanitizer.sanitized := text; Sanitizer.removed := [];
     Sanitizer.totalCount := 0;
     Sanitizer.said :=
       [ Sanitizer.LogSanitizing (Sanitizer.length_of (JStr text)) ] |}.

(** What [/plan-and-run] makes of the outcome of the executor's loop over
    the plan of a request: the answer, and the console lines around those
    of the loop. *)
Definition relayed {W : Type} (text : string)
  (o : Outcome AgentRegistry ExecutionResult W)
  : Outcome AgentRegistry HttpResponse W :=
  match result o with
  | inl done =>
      mkOutcome
        (inl (json (JObj
           [ ("request", JStr text);
             ("plan", plan_json (planned text));
             ("success", JBool (success done));
             ("results", JObj (results done));
             ("executionTrace", JArr (map JStr (executionTrace done))) ])))
        (state o) (world o)
        ([ LogReceivedRequest text;
           LogPlanning (needsSanitizer text) (needsLogAnalyst text)
                       (needsReport text);
           LogGeneratedPlan (planned text); LogExecutingPlan ]
         ++ console o ++ [ LogExecutionComplete ])%list
        (calls o)
  | inr message =>
      mkOutcome
        (inl (status_json 500 (JObj [ ("error", JStr message) ])))
        (state o) (world o)
        ([ LogReceivedRequest text;
           LogPlanning (needsSanitizer text) (needsLogAnalyst text)
                       (needsReport text);
           LogGeneratedPlan (planned text); LogExecutingPlan ]
         ++ console o ++ [ ErrExecution message ])%list
        (calls o)
  end.

(** Spans of a text in order from an index on: each within the text, and
    none starting before the one before it ends. *)
Fixpoint in_order (s : string) (next : nat) (found : list (nat * nat))
  : Prop :=
  match found with
  | [] => True
  | (b, e) :: rest =>
      next <= b /\ b <= e /\ e <= String.length s /\ in_order s e rest
  end.

(** A text with an address and an IP number. *)
Definition contact_line : string := "Contact: john@example.com, IP: 10.0.0.1".

(** * Properties *)

(** ** Association lists *)

Section Assoc.
Context {V : Type}.
Implicit Types (m : list (string * V)) (k : string) (v : V).

Lemma lookup_assign_same m k v : lookup k (assign k v m) = Some v.
Proof.
  induction m as [| [k' v'] m IH]; simpl.
  - now rewrite String.eqb_refl.
  - destruct (String.eqb k k') eqn:E; simpl.
    + now rewrite String.eqb_refl.
    + now rewrite E.
Qed.

Lemma lookup_assign_other m k k' v :
  k' <> k -> lookup k' (assign k v m) = lookup k' m.
Proof.
  intros Hne. induction m as [| [k0 v0] m IH]; simpl.
  - apply String.eqb_neq in Hne. now rewrite Hne.
  - destruct (String.eqb k k0) eqn:E; simpl.
    + apply String.eqb_eq in E. subst k0.
      apply String.eqb_neq in Hne. now rewrite Hne.
    + now rewrite IH.
Qed.

Lemma assign_assign m k v v' : assign k v' (assign k v m) = assign k v' m.
Proof.
  induction m as [| [k' v0] m IH]; simpl.
  - now rewrite String.eqb_refl.
  - destruct (String.eqb k k') eqn:E; simpl.
    + now rewrite String.eqb_refl.
    + now rewrite E, IH.
Qed.

Lemma lookup_None_not_key m k : lookup k m = None -> ~ In k (map fst m).
Proof.
  induction m as [| [k' v'] m IH]; simpl; [tauto |].
  destruct (String.eqb k k') eqn:E; [discriminate |].
  apply String.eqb_neq in E. intros H [H1 | H1]; [congruence | now apply IH].
Qed.

Lemma lookup_Some_key m k v : lookup k m = Some v -> In k (map fst m).
Proof.
  induction m as [| [k' v'] m IH]; simpl; [discriminate |].
  destruct (String.eqb k k') eqn:E.
  - apply String.eqb_eq in E. now left.
  - intros H. right. now apply IH.
Qed.

(** Assigning keeps the keys when the key is there, and adds it at the
    end when it is not. *)
Lemma keys_assign m k v :
  map fst (assign k v m) =
    match lookup k m with
    | Some _ => map fst m
    | None => (map fst m ++ [k])%list
    end.
Proof.
  induction m as [| [k' v'] m IH]; simpl; [reflexivity |].
  destruct (String.eqb k k') eqn:E; simpl.
  - apply String.eqb_eq in E. now subst.
  - rewrite IH. now destruct (lookup k m).
Qed.

Lemma NoDup_keys_assign m k v :
  NoDup (map fst m) -> NoDup (map fst (assign k v m)).
Proof.
  intros H. rewrite keys_assign. destruct (lookup k m) eqn:E; [exact H |].
  apply lookup_None_not_key in E.
  apply NoDup_rev in H. rewrite <- (rev_involutive (_ ++ _)%list).
  apply NoDup_rev. rewrite rev_app_distr. simpl. constructor; [| exact H].
  now rewrite <- in_rev.
Qed.
End Assoc.

(** ** Running programs *)

Section RunFacts.
Context {S W : Type}.
Variable net : W -> string -> Json -> AxiosResult * W.

Lemma run_bind {A B : Type} (p : Prog S A) (f : A -> Prog S B) s w :
  run net (bind p f) s w =
    match result (run net p s w) with
    | inl a => followed_by (run net p s w)
                 (run net (f a) (state (run net p s w)) (world (run net p s w)))
    | inr m => failed_with (run net p s w) m
    end.
Proof.
  revert s w. induction p as [a | m | l p IH | k IH | s' p IH | u b k IH];
    intros s w; simpl.
  - now destruct (run net (f a) s w).
  - reflexivity.
  - rewrite IH. now destruct (result (run net p s w)).
  - apply IH.
  - apply IH.
  - rewrite IH. now destruct (result (run net (k _) s _)).
Qed.

Lemma run_catch {A : Type} (p : Prog S A) (h : string -> Prog S A) s w :
  run net (catch p h) s w =
    match result (run net p s w) with
    | inl a => run net p s w
    | inr m => followed_by (run net p s w)
                 (run net (h m) (state (run net p s w)) (world (run net p s w)))
    end.
Proof.
  revert s w. induction p as [a | m | l p IH | k IH | s' p IH | u b k IH];
    intros s w; simpl.
  - reflexivity.
  - now destruct (run net (h m) s w).
  - rewrite IH. now destruct (result (run net p s w)).
  - apply IH.
  - apply IH.
  - rewrite IH. now destruct (result (run net (k _) s _)).
Qed.
End RunFacts.

(** ** The planner and the [/plan-and-run] boundary *)

Lemma generatePlan_planned (S : Type) (request : string) :
  @generatePlan S request =
    Log (LogPlanning (needsSanitizer request) (needsLogAnalyst request)
                     (needsReport request))
        (Ret (planned request)).
Proof. reflexivity. Qed.

Lemma planned_cases (request : string) :
  planned request =
    if needsLogAnalyst request then
      if needsReport request
      then [log_analyzer_step; dependent_report_step]
      else [log_analyzer_step]
    else if needsReport request then [standalone_report_step]
    else if needsSanitizer request then [sanitizer_step]
    else [].
Proof.
  unfold planned, generatePlan.
  now destruct (needsLogAnalyst request), (needsReport request),
    (needsSanitizer request).
Qed.

(** C2: when the analysis and the report predicates both match, the plan
    is the log-analyzer step (task analyze, input from the user) followed
    by the report-generator step that takes its input from, and depends
    on, log-analyzer; when the report predicate matches without the
    analysis one, the plan is the report-generator step alone, with input
    from the user and no dependency. *)
Theorem generatePlan_analysis_then_report :
  forall request : string,
    needsReport request = true ->
    (needsLogAnalyst request = true ->
     @generatePlan AgentRegistry request =
       Log (LogPlanning (needsSanitizer request) true true)
           (Ret [ {| agent := "log-analyzer"; task := "analyze";
                     inputFrom := "user"; dependsOn := None |};
                  {| agent := "report-generator"; task := "generate";
                     inputFrom := "log-analyzer";
                     dependsOn := Some "log-analyzer" |} ])) /\
    (needsLogAnalyst request = false ->
     @generatePlan AgentRegistry request =
       Log (LogPlanning (needsSanitizer request) false true)
           (Ret [ {| agent := "report-generator"; task := "generate";
                     inputFrom := "user"; dependsOn := None |} ])).
Proof.
  intros request Hreport.
  split; intros Hanalysis; rewrite generatePlan_planned, planned_cases;
    now rewrite Hreport, Hanalysis.
Qed.

Lemma generatePlan_analysis_then_report_witness :
  @generatePlan AgentRegistry "Analyze the logs and write a report" =
    Log (LogPlanning false true true)
        (Ret [log_analyzer_step; dependent_report_step]) /\
  @generatePlan AgentRegistry "Create a report with visual" =
    Log (LogPlanning false false true) (Ret [standalone_report_step]).
Proof.
  split.
  - apply (proj1 (generatePlan_analysis_then_report
                    "Analyze the logs and write a report" eq_refl)).
    reflexivity.
  - apply (proj2 (generatePlan_analysis_then_report
                    "Create a report with visual" eq_refl)).
    reflexivity.
Defined.

(** C8: the plan is a function of the request alone.  Run in any two
    registry states and against any two networks, [generatePlan] returns
    the same plan and writes the same console lines; it always returns,
    sends nothing and leaves the registry as it found it; and two
    invocations in a row return the same plan.  (Its patterns are fresh
    objects without the [g] flag: no [lastIndex] is carried from one
    invocation to the next.) *)
Theorem generatePlan_deterministic_registry_independent :
  forall (request : string) (W1 W2 : Type)
         (net1 : W1 -> string -> Json -> AxiosResult * W1)
         (net2 : W2 -> string -> Json -> AxiosResult * W2)
         (registry1 registry2 : AgentRegistry) (w1 : W1) (w2 : W2),
    result (run net1 (generatePlan request) registry1 w1) =
      result (run net2 (generatePlan request) registry2 w2) /\
    console (run net1 (generatePlan request) registry1 w1) =
      console (run net2 (generatePlan request) registry2 w2) /\
    result (run net1 (generatePlan request) registry1 w1) =
      inl (planned request) /\
    calls (run net1 (generatePlan request) registry1 w1) = [] /\
    state (run net1 (generatePlan request) registry1 w1) = registry1 /\
    world (run net1 (generatePlan request) registry1 w1) = w1 /\
    result (run net1 (once <- generatePlan request ;;
                      again <- generatePlan request ;;
                      Ret (once, again)) registry1 w1) =
      inl (planned request, planned request).
Proof.
  intros. rewrite !generatePlan_planned. simpl. repeat split.
Qed.

(** A plan may name an agent that no registry holds. *)
Example plan_for_unregistered_agent :
  result (run System.unreachable (generatePlan "Analyze these logs")
              ([] : AgentRegistry) tt) = inl [log_analyzer_step].
Proof. reflexivity. Qed.

(** C10: a request field that is the empty string is answered with the 400
    client error; the handler ends there, before the planner writes its
    console lines and before anything is sent, and the answer is not the
    200 answer for an empty plan. *)
Theorem empty_request_rejected :
  forall (data : option Json) (W : Type)
         (net : W -> string -> Json -> AxiosResult * W)
         (registry : AgentRegistry) (w : W),
    run net (planAndRun {| request := Some ""; data := data |}) registry w =
      mkOutcome
        (inl (status_json 400
                (JObj [ ("error", JStr "Missing required field: request") ])))
        registry w [] [] /\
    planAndRun {| request := Some ""; data := data |} = Ret missing_request /\
    missing_request <> no_agents_matched.
Proof.
  intros. repeat split. discriminate.
Qed.

(** C4, as amended: when none of the three predicates matches, the planner
    returns the empty plan; and when moreover the request is not the empty
    string, [/plan-and-run] answers 200 with the "No agents matched the
    request" message, an empty plan and empty results, having written only
    the request and the planner's lines to the console: the executor is
    not entered and nothing is sent. *)
Theorem unmatched_request_gets_empty_plan :
  forall request : string,
    needsLogAnalyst request = false ->
    needsReport request = false ->
    needsSanitizer request = false ->
    @generatePlan AgentRegistry request =
      Log (LogPlanning false false false) (Ret []) /\
    (request <> "" ->
     forall (data : option Json) (W : Type)
            (net : W -> string -> Json -> AxiosResult * W)
            (registry : AgentRegistry) (w : W),
       run net (planAndRun {| request := Some request; data := data |})
           registry w =
         mkOutcome
           (inl (json (JObj [ ("message", JStr "No agents matched the request");
                              ("plan", JArr []);
                              ("results", JObj []) ])))
           registry w
           [LogReceivedRequest request; LogPlanning false false false] []).
Proof.
  intros text Ha Hr Hs.
  assert (Hplan : planned text = []).
  { rewrite planned_cases. now rewrite Ha, Hr, Hs. }
  split.
  - rewrite generatePlan_planned. now rewrite Ha, Hr, Hs, Hplan.
  - intros Hne payload W net registry w.
    apply String.eqb_neq in Hne.
    unfold planAndRun. cbn [request]. rewrite Hne.
    rewrite generatePlan_planned, Ha, Hr, Hs, Hplan. reflexivity.
Qed.

Lemma unmatched_request_gets_empty_plan_witness :
  @generatePlan AgentRegistry "Hello there" =
    Log (LogPlanning false false false) (Ret []) /\
  run System.unreachable
      (planAndRun {| request := Some "Hello there"; data := None |})
      [] tt =
    mkOutcome (inl no_agents_matched) [] tt
      [LogReceivedRequest "Hello there"; LogPlanning false false false] [].
Proof.
  split.
  - apply (proj1 (unmatched_request_gets_empty_plan "Hello there"
                    eq_refl eq_refl eq_refl)).
  - apply (proj2 (unmatched_request_gets_empty_plan "Hello there"
                    eq_refl eq_refl eq_refl)).
    discriminate.
Defined.

(** C4 as stated fails at the empty request: none of the predicates
    matches it and the planner gives it the empty plan, yet the boundary
    answers 400, not "No agents matched the request". *)
Lemma empty_request_is_not_unmatched :
  needsLogAnalyst "" = false /\
  needsReport "" = false /\
  needsSanitizer "" = false /\
  planned "" = [] /\
  result (run System.unreachable
              (planAndRun {| request := Some ""; data := None |})
              ([] : AgentRegistry) tt) = inl missing_request /\
  status missing_request = 400 /\
  missing_request <> no_agents_matched.
Proof.
  repeat split. discriminate.
Qed.

(** ** The registry *)

Lemma well_formed_new : well_formed [].
Proof. split; constructor. Qed.

Lemma well_formed_register (agents : AgentRegistry) (agentInfo : AgentInfo) :
  well_formed agents ->
  well_formed (assign (name agentInfo) agentInfo agents).
Proof.
  intros [Hkeys Hnames]. split; [now apply NoDup_keys_assign |].
  induction Hnames as [| [k v] rest Hk Hrest IH]; simpl.
  - now repeat constructor.
  - inversion Hkeys; subst.
    destruct (String.eqb (name agentInfo) k); constructor; auto.
Qed.

(** Every registry reached from a new one by [register] and [clear] is
    well formed; replaying a history returns, sends nothing and leaves the
    world as it was. *)
Lemma run_replay (W : Type) (net : W -> string -> Json -> AxiosResult * W)
  (w : W) (history : list RegistryCall) (agents : AgentRegistry) :
  well_formed agents ->
  exists agents' lines,
    run net (replay history) agents w = mkOutcome (inl tt) agents' w lines [] /\
    well_formed agents'.
Proof.
  revert agents. induction history as [| c rest IH]; intros agents Hwf.
  - exists agents, []. now split.
  - destruct c as [agentInfo |]; simpl.
    + destruct (IH (assign (name agentInfo) agentInfo agents)
                   (well_formed_register agents agentInfo Hwf))
        as (agents' & lines & Hrun & Hwf').
      exists agents', (LogAgentRegistered (name agentInfo) (url agentInfo) :: lines).
      split; [| exact Hwf']. now rewrite Hrun.
    + destruct (IH [] well_formed_new) as (agents' & lines & Hrun & Hwf').
      exists agents', lines. split; [| exact Hwf']. exact Hrun.
Qed.

Lemma names_are_keys (agents : AgentRegistry) :
  Forall (fun entry => fst entry = name (snd entry)) agents ->
  map name (map snd agents) = map fst agents.
Proof.
  induction 1 as [| [k v] rest Hk Hrest IH]; simpl; [reflexivity |].
  simpl in Hk. now rewrite IH, Hk.
Qed.

Lemma entries_named (agents : AgentRegistry) (k : string) (v : AgentInfo) :
  well_formed agents ->
  lookup k agents = Some v ->
  filter (fun a => String.eqb (name a) k) (map snd agents) = [v].
Proof.
  intros [Hkeys Hnames]. revert Hkeys.
  induction Hnames as [| [k' v'] rest Hk Hrest IH]; simpl; [discriminate |].
  intros Hkeys Hlook. inversion Hkeys as [| ? ? Hnotin Hkeys']; subst.
  simpl in Hk. rewrite <- Hk, (String.eqb_sym k' k).
  destruct (String.eqb k k') eqn:E.
  - apply String.eqb_eq in E. subst k'. injection Hlook as ->. f_equal.
    clear IH Hkeys Hkeys'.
    induction Hrest as [| [k0 v0] rest0 Hk0 Hrest0 IH0]; simpl; [reflexivity |].
    simpl in Hk0, Hnotin. rewrite <- Hk0.
    destruct (String.eqb k0 k) eqn:E0.
    + apply String.eqb_eq in E0. exfalso. apply Hnotin. left. congruence.
    + apply IH0. intros Hin. apply Hnotin. now right.
  - now apply IH.
Qed.

Lemma register_twice (agents : AgentRegistry) (first second : AgentInfo) :
  well_formed agents ->
  name first = name second ->
  lookup (name second)
    (assign (name second) second (assign (name first) first agents))
    = Some second /\
  filter (fun a => String.eqb (name a) (name second))
    (map snd (assign (name second) second (assign (name first) first agents)))
    = [second] /\
  NoDup (map name
           (map snd (assign (name second) second
                       (assign (name first) first agents)))) /\
  List.length (map snd (assign (name second) second
                          (assign (name first) first agents)))
    = List.length (map snd (assign (name first) first agents)).
Proof.
  intros Hwf Hname.
  assert (Hwf2 : well_formed
                   (assign (name second) second
                      (assign (name first) first agents))).
  { now apply well_formed_register, well_formed_register. }
  assert (Hfound : lookup (name second)
                     (assign (name second) second
                        (assign (name first) first agents)) = Some second).
  { rewrite Hname, assign_assign. apply lookup_assign_same. }
  split; [exact Hfound |]. split; [| split].
  - now apply entries_named.
  - destruct Hwf2 as [Hkeys Hnames]. now rewrite names_are_keys.
  - rewrite !length_map, <- !(length_map fst), !keys_assign.
    now rewrite Hname, lookup_assign_same.
Qed.

(** C5: whatever registrations and clearings came before, two
    registrations under one name leave one entry for the name, the second
    descriptor: [get] returns it, it is the only descriptor of that name
    in [getAll], no two descriptors of [getAll] share a name, and [getAll]
    is as long as after the first registration alone.  Registering a
    descriptor twice leaves the registry as registering it once does. *)
Theorem register_twice_keeps_latest :
  forall (history : list RegistryCall) (first second : AgentInfo) (W : Type)
         (net : W -> string -> Json -> AxiosResult * W) (w : W),
    name first = name second ->
    result (run net (_ <- replay history ;; _ <- register first ;;
                     _ <- register second ;; get (name second)) [] w)
      = inl (Some second) /\
    (exists all once : list AgentInfo,
        result (run net (_ <- replay history ;; _ <- register first ;;
                         _ <- register second ;; getAll) [] w) = inl all /\
        result (run net (_ <- replay history ;; _ <- register first ;;
                         getAll) [] w) = inl once /\
        filter (fun a => String.eqb (name a) (name second)) all = [second] /\
        NoDup (map name all) /\
        List.length all = List.length once) /\
    state (run net (_ <- replay history ;; _ <- register second ;;
                    register second) [] w) =
      state (run net (_ <- replay history ;; register second) [] w).
Proof.
  intros history first second W net w Hname.
  destruct (run_replay W net w history [] well_formed_new)
    as (agents & lines & Hrun & Hwf).
  destruct (register_twice agents first second Hwf Hname)
    as (Hfound & Honly & Hnodup & Hlength).
  rewrite !run_bind, Hrun. simpl.
  split; [| split].
  - now rewrite Hfound.
  - eexists _, _. split; [reflexivity |]. split; [reflexivity |].
    now repeat split.
  - apply assign_assign.
Qed.

Lemma register_twice_keeps_latest_witness :
  result (run System.unreachable
              (_ <- replay [ CallRegister
                               (mkAgentInfo "sanitizer" "http://localhost:5001" []) ] ;;
               _ <- register (mkAgentInfo "log-analyzer" "http://localhost:5002" []) ;;
               _ <- register (mkAgentInfo "log-analyzer" "http://localhost:6002" []) ;;
               get "log-analyzer") [] tt) =
    inl (Some (mkAgentInfo "log-analyzer" "http://localhost:6002" [])) /\
  result (run System.unreachable
              (_ <- replay [ CallRegister
                               (mkAgentInfo "sanitizer" "http://localhost:5001" []) ] ;;
               _ <- register (mkAgentInfo "log-analyzer" "http://localhost:5002" []) ;;
               _ <- register (mkAgentInfo "log-analyzer" "http://localhost:6002" []) ;;
               getAll) [] tt) =
    inl [ mkAgentInfo "sanitizer" "http://localhost:5001" [];
          mkAgentInfo "log-analyzer" "http://localhost:6002" [] ].
Proof.
  split.
  - exact (proj1 (register_twice_keeps_latest
                    [ CallRegister
                        (mkAgentInfo "sanitizer" "http://localhost:5001" []) ]
                    (mkAgentInfo "log-analyzer" "http://localhost:5002" [])
                    (mkAgentInfo "log-analyzer" "http://localhost:6002" [])
                    unit System.unreachable tt eq_refl)).
  - reflexivity.
Defined.

(** ** The executor *)

Local Arguments getEndpointForTask : simpl never.
Local Arguments to_stringified : simpl never.
Local Arguments to_string_opt : simpl never.
Local Arguments or_else : simpl never.
Local Arguments truthy : simpl never.
Local Arguments field : simpl never.

Section ExecutorFacts.
Context {W : Type}.
Variable net : W -> string -> Json -> AxiosResult * W.
Variable registry : AgentRegistry.
Variable initialData : option Json.

Lemma state_executeSteps steps i results executionTrace w :
  state (run net (executeSteps initialData steps i results executionTrace)
             registry w) = registry.
Proof.
  revert i results executionTrace w.
  induction steps as [| step rest IH]; intros i rs tr w; simpl; [reflexivity |].
  destruct (lookup (agent step) registry) as [agentInfo |]; simpl;
    [| reflexivity].
  destruct (negb (inputFrom step =? "user") && negb (truthy _)); simpl;
    [reflexivity |].
  destruct (fst (net w _ _)) as [response_data | response message]; simpl;
    [| reflexivity].
  destruct response_data; simpl; auto.
Qed.

Lemma calls_executeSteps steps i results executionTrace w n call :
  nth_error
    (calls (run net (executeSteps initialData steps i results executionTrace)
                registry w)) n = Some call ->
  exists step agentInfo,
    nth_error steps n = Some step /\
    lookup (agent step) registry = Some agentInfo /\
    fst call = url agentInfo ++ getEndpointForTask (agent step) (task step) /\
    (inputFrom step = "user" -> snd call = JObj (field "data" initialData)).
Proof.
  revert i results executionTrace w n.
  induction steps as [| step rest IH]; intros i rs tr w n; simpl.
  - destruct n; discriminate.
  - destruct (lookup (agent step) registry) as [agentInfo |] eqn:Hfound; simpl;
      [| destruct n; discriminate].
    destruct (negb (inputFrom step =? "user") && negb (truthy _)); simpl;
      [destruct n; discriminate |].
    destruct n as [| n]; simpl.
    + intros [= <-]. exists step, agentInfo. repeat split; auto.
      simpl. intros ->. reflexivity.
    + destruct (fst (net w _ _)) as [response_data | response message]; simpl;
        [| destruct n; discriminate].
      destruct response_data; simpl;
        try (destruct n; discriminate); apply IH.
Qed.

Lemma success_executeSteps steps i results executionTrace w r :
  result (run net (executeSteps initialData steps i results executionTrace)
              registry w) = inl r ->
  List.length
    (calls (run net (executeSteps initialData steps i results executionTrace)
                registry w)) = List.length steps.
Proof.
  revert i results executionTrace w.
  induction steps as [| step rest IH]; intros i rs tr w; simpl; [reflexivity |].
  destruct (lookup (agent step) registry) as [agentInfo |]; simpl;
    [| discriminate].
  destruct (negb (inputFrom step =? "user") && negb (truthy _)); simpl;
    [discriminate |].
  destruct (fst (net w _ _)) as [response_data | response message]; simpl;
    [| discriminate].
  destruct response_data; simpl; try discriminate;
    intros H; f_equal; eapply IH; exact H.
Qed.




End ExecutorFacts.







(** ** The initial payload *)

Section CallsOfHandlers.
Context {S W : Type}.
Variable net : W -> string -> Json -> AxiosResult * W.

Lemma calls_bind_quiet {A B : Type} (p : Prog S A) (f : A -> Prog S B) s w :
  (forall a s' w', calls (run net (f a) s' w') = []) ->
  calls (run net (bind p f) s w) = calls (run net p s w).
Proof.
  intros Hquiet. rewrite run_bind.
  destruct (result (run net p s w)); simpl; [| reflexivity].
  now rewrite Hquiet, app_nil_r.
Qed.

Lemma calls_catch_quiet {A : Type} (p : Prog S A) (h : string -> Prog S A) s w :
  (forall m s' w', calls (run net (h m) s' w') = []) ->
  calls (run net (catch p h) s w) = calls (run net p s w).
Proof.
  intros Hquiet. rewrite run_catch.
  destruct (result (run net p s w)); simpl; [reflexivity |].
  now rewrite Hquiet, app_nil_r.
Qed.
End CallsOfHandlers.

(** The calls of [/plan-and-run] are those of the executor's loop over the
    plan, started on [data || request]. *)
Lemma calls_planAndRun (text : string) (payload : option Json)
  (W : Type) (net : W -> string -> Json -> AxiosResult * W)
  (registry : AgentRegistry) (w : W) :
  text <> "" ->
  calls (run net (planAndRun {| request := Some text; data := payload |})
             registry w) =
    calls (run net (executeSteps (or_else payload (Some (JStr text)))
                      (planned text) 0 [] []) registry w).
Proof.
  intros Hne. apply String.eqb_neq in Hne.
  unfold planAndRun. cbn [request data]. rewrite Hne.
  rewrite calls_catch_quiet by reflexivity.
  rewrite generatePlan_planned. simpl.
  destruct (planned text) as [| step rest]; [reflexivity |].
  cbn [List.length Nat.eqb]. simpl.
  now rewrite calls_bind_quiet by reflexivity.
Qed.

(** C9: when the body carries no [data], or a falsy one, the handler
    proceeds exactly as for the same request with the request text as
    [data]; and every call sent for a step of the plan whose input source
    is "user" carries the request text as its [data]. *)
Theorem request_text_is_default_payload :
  forall (text : string) (payload : option Json),
    truthy payload = false ->
    planAndRun {| request := Some text; data := payload |} =
      planAndRun {| request := Some text; data := Some (JStr text) |} /\
    (forall (W : Type) (net : W -> string -> Json -> AxiosResult * W)
            (registry : AgentRegistry) (w : W) (n : nat)
            (step : PlanStep) (call : string * Json),
        nth_error (planned text) n = Some step ->
        inputFrom step = "user" ->
        nth_error
          (calls (run net
                      (planAndRun {| request := Some text; data := payload |})
                      registry w)) n = Some call ->
        snd call = JObj [ ("data", JStr text) ]).
Proof.
  intros text payload Hfalsy.
  assert (Hdefault : or_else payload (Some (JStr text)) = Some (JStr text)).
  { unfold or_else. now rewrite Hfalsy. }
  assert (Hsame : or_else (Some (JStr text)) (Some (JStr text))
                  = Some (JStr text)).
  { unfold or_else. now destruct (truthy (Some (JStr text))). }
  split.
  - unfold planAndRun. cbn [request data]. now rewrite Hdefault, Hsame.
  - intros W net registry w n step call Hstep Huser Hcall.
    destruct (String.eqb text "") eqn:Hempty.
    + apply String.eqb_eq in Hempty. subst text.
      destruct n; discriminate Hcall.
    + apply String.eqb_neq in Hempty.
      rewrite calls_planAndRun, Hdefault in Hcall by exact Hempty.
      apply calls_executeSteps in Hcall.
      destruct Hcall as (step' & agentInfo & Hnth & _ & _ & Hdata).
      rewrite Hstep in Hnth. injection Hnth as <-.
      now apply Hdata.
Qed.

Lemma request_text_is_default_payload_witness :
  planAndRun {| request := Some "Analyze these logs"; data := None |} =
    planAndRun {| request := Some "Analyze these logs";
                  data := Some (JStr "Analyze these logs") |} /\
  calls (run System.unreachable
             (planAndRun {| request := Some "Analyze these logs";
                            data := Some (JStr "") |})
             analyzer_only tt) =
    [ ("http://localhost:5002/analyze",
       JObj [ ("data", JStr "Analyze these logs") ]) ].
Proof.
  split.
  - exact (proj1 (request_text_is_default_payload
                    "Analyze these logs" None eq_refl)).
  - reflexivity.
Defined.

(** ** Pattern objects with the [g] flag *)

Section RegExpFacts.
Variable R : RegExp.
Hypothesis R_global : global R = true.

Lemma scan_found ic r s i fuel e :
  scan ic r s i fuel = Some e ->
  exists j e', i <= j <= i + fuel /\ matcher ic r s j Some = Some e'.
Proof.
  revert i. induction fuel as [| fuel IH]; intros i; simpl.
  - destruct (matcher ic r s i Some) as [e0 |] eqn:Hm; [| discriminate].
    intros _. exists i, e0. split; [lia | exact Hm].
  - destruct (matcher ic r s i Some) as [e0 |] eqn:Hm.
    + intros _. exists i, e0. split; [lia | exact Hm].
    + intros H. apply IH in H. destruct H as (j & e' & Hj & Hm').
      exists j, e'. split; [lia | exact Hm'].
Qed.

Lemma scan_finds ic r s i fuel j e :
  i <= j <= i + fuel ->
  matcher ic r s j Some = Some e ->
  exists e', scan ic r s i fuel = Some e'.
Proof.
  revert i. induction fuel as [| fuel IH]; intros i Hj Hm; simpl.
  - assert (j = i) by lia. subst j. rewrite Hm. now exists e.
  - destruct (matcher ic r s i Some) as [e0 |] eqn:Hi; [now exists e0 |].
    apply IH; [| exact Hm].
    assert (j <> i) by congruence. lia.
Qed.

(** A search that starts anywhere finds nothing in a string that holds no
    match. *)
Lemma scan_misses s i fuel :
  matches R s = false ->
  i + fuel <= String.length s ->
  scan (ignoreCase R) (source R) s i fuel = None.
Proof.
  unfold matches. intros Hnone Hle.
  destruct (scan (ignoreCase R) (source R) s i fuel) as [e |] eqn:Hscan;
    [| reflexivity].
  apply scan_found in Hscan. destruct Hscan as (j & e' & Hj & Hm).
  destruct (scan_finds (ignoreCase R) (source R) s 0 (String.length s) j e')
    as [e'' He'']; [lia | exact Hm |].
  now rewrite He'' in Hnone.
Qed.

Lemma test_miss s n :
  matches R s = false ->
  test (at_index R n) s = (false, at_index R 0).
Proof.
  intros Hnone. unfold test, setLastIndex, at_index. simpl. rewrite R_global.
  destruct (Nat.ltb (String.length s) n) eqn:Hlt; [reflexivity |].
  apply Nat.ltb_ge in Hlt.
  rewrite scan_misses; [reflexivity | exact Hnone | lia].
Qed.

Lemma test_fresh s :
  fst (test (at_index R 0) s) = matches R s.
Proof.
  unfold test, matches, setLastIndex, at_index. simpl. rewrite R_global.
  rewrite Nat.sub_0_r.
  now destruct (scan (ignoreCase R) (source R) s 0 (String.length s)).
Qed.

Lemma test_keeps_pattern s n :
  exists n', snd (test (at_index R n) s) = at_index R n'.
Proof.
  unfold test, setLastIndex, at_index. simpl. rewrite R_global.
  destruct (Nat.ltb (String.length s) n); [now exists 0 |].
  destruct (scan _ _ s n _) as [e |]; [now exists e | now exists 0].
Qed.

Lemma test_hit_matches s n :
  fst (test (at_index R n) s) = true -> matches R s = true.
Proof.
  destruct (matches R s) eqn:Hm; [reflexivity |].
  now rewrite test_miss.
Qed.

Lemma count_matching_cons line lines :
  count_matching R (line :: lines) =
    (if matches R line then 1 else 0) + count_matching R lines.
Proof.
  unfold count_matching. simpl. now destruct (matches R line).
Qed.

Lemma count_matching_none lines :
  count_matching R lines = 0 ->
  forall line, In line lines -> matches R line = false.
Proof.
  induction lines as [| l rest IH]; [now intros |].
  rewrite count_matching_cons. intros H line [-> | Hin].
  - destruct (matches R line); [discriminate | reflexivity].
  - apply IH; [| exact Hin]. destruct (matches R l); [discriminate | exact H].
Qed.

Lemma hits_none lines n :
  (forall line, In line lines -> matches R line = false) ->
  hits (at_index R n) lines = 0.
Proof.
  revert n. induction lines as [| line rest IH]; intros n Hnone; simpl;
    [reflexivity |].
  rewrite test_miss by (apply Hnone; now left). simpl.
  apply IH. intros l Hin. apply Hnone. now right.
Qed.

(** Called on lines of which exactly one holds a match, a pattern object
    that starts at index 0 hits exactly once. *)
Lemma hits_one lines :
  count_matching R lines = 1 ->
  hits (at_index R 0) lines = 1.
Proof.
  induction lines as [| line rest IH]; [discriminate |].
  rewrite count_matching_cons. simpl. intros Hcount.
  destruct (matches R line) eqn:Hm.
  - rewrite test_fresh, Hm.
    destruct (test_keeps_pattern line 0) as [n' ->].
    rewrite hits_none; [reflexivity |].
    apply count_matching_none. simpl in Hcount. congruence.
  - rewrite test_miss by exact Hm. simpl. now apply IH.
Qed.
End RegExpFacts.

(** ** The counts of the analyzer *)

Lemma visit_critical t line index :
  critical (patterns (visit t line index)) =
    snd (test (critical (patterns t)) line) /\
  criticalCount (visit t line index) =
    criticalCount t + (if fst (test (critical (patterns t)) line) then 1 else 0).
Proof.
  unfold visit.
  destruct (fst (test (critical (patterns t)) line)); simpl; [split; [reflexivity | lia] |].
  destruct (fst (test (error (patterns t)) line)); simpl; [split; [reflexivity | lia] |].
  destruct (fst (test (warning (patterns t)) line)); simpl; split;
    reflexivity || lia.
Qed.

Lemma criticalCount_forEach lines index t :
  criticalCount (forEach lines index t) =
    criticalCount t + hits (critical (patterns t)) lines.
Proof.
  revert index t. induction lines as [| line rest IH]; intros index t; simpl.
  - lia.
  - rewrite IH. destruct (visit_critical t line index) as [-> ->]. lia.
Qed.

Section Counting.
Variables C E Wn : RegExp.
Hypothesis C_global : global C = true.
Hypothesis E_global : global E = true.
Hypothesis Wn_global : global Wn = true.

(** A line without a warning word leaves the warning count alone, and the
    warning pattern where it was or at index 0. *)
Lemma visit_no_warning t line index lw :
  warning (patterns t) = at_index Wn lw ->
  matches Wn line = false ->
  warningCount (visit t line index) = warningCount t /\
  (warning (patterns (visit t line index)) = at_index Wn lw \/
   warning (patterns (visit t line index)) = at_index Wn 0).
Proof.
  intros Hw Hnone. unfold visit.
  destruct (fst (test (critical (patterns t)) line)); simpl; [now auto |].
  destruct (fst (test (error (patterns t)) line)); simpl; [now auto |].
  rewrite Hw, (test_miss Wn Wn_global line lw Hnone). simpl.
  destruct (fst (test (info (patterns t)) line)); simpl; auto.
Qed.

(** The line with the warning word, when it holds no critical and no error
    word and the warning pattern is at index 0, is counted. *)
Lemma visit_warning t line index lc le :
  critical (patterns t) = at_index C lc ->
  error (patterns t) = at_index E le ->
  warning (patterns t) = at_index Wn 0 ->
  matches C line = false ->
  matches E line = false ->
  matches Wn line = true ->
  warningCount (visit t line index) = S (warningCount t) /\
  exists lw, warning (patterns (visit t line index)) = at_index Wn lw.
Proof.
  intros Hc He Hw HnoC HnoE Hyes. unfold visit.
  rewrite Hc, (test_miss C C_global line lc HnoC). simpl.
  rewrite He, (test_miss E E_global line le HnoE). simpl.
  rewrite Hw.
  pose proof (test_fresh Wn Wn_global line) as Hfresh. rewrite Hyes in Hfresh.
  rewrite Hfresh. simpl. split; [reflexivity |].
  apply (test_keeps_pattern Wn Wn_global).
Qed.

Lemma visit_keeps_patterns t line index lc le :
  critical (patterns t) = at_index C lc ->
  error (patterns t) = at_index E le ->
  exists lc' le',
    critical (patterns (visit t line index)) = at_index C lc' /\
    error (patterns (visit t line index)) = at_index E le'.
Proof.
  intros Hc He.
  destruct (test_keeps_pattern C C_global line lc) as [lc' Hlc'].
  destruct (test_keeps_pattern E E_global line le) as [le' Hle'].
  unfold visit. rewrite Hc, He, Hlc', Hle'.
  destruct (fst (test (at_index C lc) line)); simpl; [now exists lc', le |].
  destruct (fst (test (at_index E le) line)); simpl; [now exists lc', le' |].
  destruct (fst (test (warning (patterns t)) line)); simpl;
    now exists lc', le'.
Qed.

Lemma forEach_no_warning lines index t lw :
  warning (patterns t) = at_index Wn lw ->
  (forall line, In line lines -> matches Wn line = false) ->
  warningCount (forEach lines index t) = warningCount t.
Proof.
  revert index t lw. induction lines as [| line rest IH];
    intros index t lw Hw Hnone; simpl; [reflexivity |].
  destruct (visit_no_warning t line index lw Hw) as [Hcount Hpat];
    [apply Hnone; now left |].
  rewrite <- Hcount.
  destruct Hpat as [Hpat | Hpat]; eapply IH; try exact Hpat;
    intros l Hin; apply Hnone; now right.
Qed.

(** Of lines of which exactly one holds a warning word, and that one no
    critical and no error word, exactly one is counted as a warning when
    the warning pattern starts at index 0. *)
Lemma forEach_one_warning lines index t lc le :
  critical (patterns t) = at_index C lc ->
  error (patterns t) = at_index E le ->
  warning (patterns t) = at_index Wn 0 ->
  count_matching Wn lines = 1 ->
  (forall line, In line lines -> matches Wn line = true ->
                matches C line = false /\ matches E line = false) ->
  warningCount (forEach lines index t) = S (warningCount t).
Proof.
  revert index t lc le. induction lines as [| line rest IH];
    intros index t lc le Hc He Hw Hcount Hclean; [discriminate |].
  rewrite count_matching_cons in Hcount. simpl.
  destruct (matches Wn line) eqn:Hm.
  - destruct (Hclean line (or_introl eq_refl) Hm) as [HnoC HnoE].
    destruct (visit_warning t line index lc le Hc He Hw HnoC HnoE Hm)
      as [Hone [lw Hpat]].
    rewrite <- Hone. eapply forEach_no_warning; [exact Hpat |].
    apply count_matching_none. simpl in Hcount. congruence.
  - destruct (visit_no_warning t line index 0 Hw Hm) as [Hsame Hpat].
    destruct (visit_keeps_patterns t line index lc le Hc He)
      as (lc' & le' & Hc' & He').
    rewrite <- Hsame.
    apply (IH (S index) (visit t line index) lc' le'); auto.
    + now destruct Hpat.
    + intros l Hin. apply Hclean. now right.
Qed.
End Counting.

(** With the critical and the warning pattern at index 0, a text with
    exactly one line that holds a critical word and exactly one line that
    holds a warning word, this one without critical or error word, is
    counted as 1 critical and 1 warning. *)
Lemma counts_one_critical_one_warning (lines : list string) (le li : nat) :
  count_matching (critical ERROR_PATTERNS) lines = 1 ->
  count_matching (warning ERROR_PATTERNS) lines = 1 ->
  (forall line, In line lines ->
     matches (warning ERROR_PATTERNS) line = true ->
     matches (critical ERROR_PATTERNS) line = false /\
     matches (error ERROR_PATTERNS) line = false) ->
  criticalCount (forEach lines 0 (start (with_indices 0 le 0 li))) = 1 /\
  warningCount (forEach lines 0 (start (with_indices 0 le 0 li))) = 1.
Proof.
  intros Hcritical Hwarning Hclean. split.
  - rewrite criticalCount_forEach.
    change (critical (patterns (start (with_indices 0 le 0 li))))
      with (at_index (critical ERROR_PATTERNS) 0).
    now rewrite (hits_one (critical ERROR_PATTERNS) eq_refl lines Hcritical).
  - now rewrite (forEach_one_warning
                   (critical ERROR_PATTERNS) (error ERROR_PATTERNS)
                   (warning ERROR_PATTERNS) eq_refl eq_refl eq_refl
                   lines 0 (start (with_indices 0 le 0 li)) 0 le
                   eq_refl eq_refl eq_refl Hwarning Hclean).
Qed.

(** ** The [/analyze] handler *)

Local Arguments split : simpl never.
Local Arguments forEach : simpl never.
Local Arguments analysis_response : simpl never.

(** When the sanitizer did not change the text, the answer is the analysis
    of the lines of the text. *)
Lemma run_analyze_text (SANITIZER_URL : string) (p : ErrorPatterns)
  (text : string) (W : Type) (net : W -> string -> Json -> AxiosResult * W)
  (w : W) :
  text <> "" ->
  keeps_text text
    (fst (net w (SANITIZER_URL ++ "/sanitize") (JObj [ ("data", JStr text) ]))) ->
  exists sanitizationInfo,
    result (run net (analyze SANITIZER_URL (Some (JStr text))) p w) =
      inl (analysis_response SANITIZER_URL (split newline text)
             (forEach (split newline text) 0 (start p)) sanitizationInfo).
Proof.
  intros Hne Hkeeps. apply String.eqb_neq in Hne.
  unfold analyze, truthy. rewrite Hne. simpl. unfold field. simpl.
  destruct (fst (net w _ _)) as [response_data | response message]; simpl.
  - simpl in Hkeeps.
    destruct response_data; try discriminate Hkeeps.
    rewrite Hkeeps. simpl. eauto.
  - now exists None.
Qed.

(** For a text that is not empty the nested call is the one call sent. *)
Lemma calls_analyze_text (SANITIZER_URL : string) (p : ErrorPatterns)
  (text : string) (W : Type) (net : W -> string -> Json -> AxiosResult * W)
  (w : W) :
  text <> "" ->
  calls (run net (analyze SANITIZER_URL (Some (JStr text))) p w)
    = [ (SANITIZER_URL ++ "/sanitize", JObj [ ("data", JStr text) ]) ].
Proof.
  intros Hne. apply String.eqb_neq in Hne.
  unfold analyze, truthy. rewrite Hne. simpl. unfold field. simpl.
  destruct (fst (net w _ _)) as [response_data | response message]; simpl;
    [| reflexivity].
  destruct response_data as [| b | z | s | items | fields]; simpl;
    try reflexivity.
  destruct (lookup "sanitized" fields) as [[| b | z | s | items | fs] |];
    reflexivity.
Qed.

(** C1, as amended: when [/analyze] is sent a string, sends its nested
    call to the sanitizer and the call is rejected, it still answers 200
    with [success] true: the analysis is that of the lines of the text it
    was sent, counted from the patterns' current state; [sanitization] is
    [null] and [agentToAgentCall.success] is false.  The nested call is
    the one call sent; its failure is written to the console as a warning
    and is not the answer. *)
Theorem analyze_survives_sanitizer_failure :
  forall (SANITIZER_URL : string) (p : ErrorPatterns) (text : string)
         (W : Type) (net : W -> string -> Json -> AxiosResult * W) (w : W)
         (response : option Json) (message : string),
    In (SANITIZER_URL ++ "/sanitize", JObj [ ("data", JStr text) ])
       (calls (run net (analyze SANITIZER_URL (Some (JStr text))) p w)) ->
    fst (net w (SANITIZER_URL ++ "/sanitize") (JObj [ ("data", JStr text) ]))
      = Rejected response message ->
    exists answer : HttpResponse,
      result (run net (analyze SANITIZER_URL (Some (JStr text))) p w)
        = inl answer /\
      answer = analysis_response SANITIZER_URL (split newline text)
                 (forEach (split newline text) 0 (start p)) None /\
      calls (run net (analyze SANITIZER_URL (Some (JStr text))) p w)
        = [ (SANITIZER_URL ++ "/sanitize", JObj [ ("data", JStr text) ]) ] /\
      In (WarnSanitizerUnavailable message)
         (console (run net (analyze SANITIZER_URL (Some (JStr text))) p w)) /\
      status answer = 200 /\
      path ["success"] (body answer) = Some (JBool true) /\
      path ["sanitization"] (body answer) = Some JNull /\
      path ["agentToAgentCall"; "called"] (body answer)
        = Some (JStr "sanitizer") /\
      path ["agentToAgentCall"; "success"] (body answer)
        = Some (JBool false) /\
      path ["analysis"; "totalLines"] (body answer)
        = Some (count_json (List.length (split newline text))) /\
      path ["analysis"; "critical"] (body answer)
        = Some (count_json
                  (criticalCount (forEach (split newline text) 0 (start p)))) /\
      path ["analysis"; "errors"] (body answer)
        = Some (count_json
                  (errorCount (forEach (split newline text) 0 (start p)))) /\
      path ["analysis"; "warnings"] (body answer)
        = Some (count_json
                  (warningCount (forEach (split newline text) 0 (start p)))) /\
      path ["analysis"; "info"] (body answer)
        = Some (count_json
                  (infoCount (forEach (split newline text) 0 (start p)))) /\
      path ["message"] (body answer)
        = Some (JStr "Log analysis complete with sanitization").
Proof.
  intros SANITIZER_URL p text W net w response message Hsent Hfails.
  assert (Hne : String.eqb text "" = false).
  { destruct (String.eqb text "") eqn:Hempty; [| reflexivity].
    apply String.eqb_eq in Hempty. subst text. destruct Hsent. }
  clear Hsent.
  exists (analysis_response SANITIZER_URL (split newline text)
            (forEach (split newline text) 0 (start p)) None).
  unfold analyze, truthy. rewrite Hne. simpl. unfold field. simpl.
  rewrite Hfails. simpl.
  repeat split. tauto.
Qed.

Lemma analyze_survives_sanitizer_failure_witness :
  exists answer : HttpResponse,
    result (run System.unreachable
                (analyze "http://localhost:5001"
                   (Some (JStr (text_of ["ERROR: Connection failed";
                                         "WARNING: Timeout"]))))
                ERROR_PATTERNS tt) = inl answer /\
    status answer = 200 /\
    path ["agentToAgentCall"; "success"] (body answer) = Some (JBool false) /\
    path ["analysis"; "errors"] (body answer) = Some (JNum 1) /\
    path ["analysis"; "warnings"] (body answer) = Some (JNum 1).
Proof.
  assert (Hsent :
    In ("http://localhost:5001" ++ "/sanitize",
        JObj [ ("data", JStr (text_of ["ERROR: Connection failed";
                                       "WARNING: Timeout"])) ])
       (calls (run System.unreachable
                   (analyze "http://localhost:5001"
                      (Some (JStr (text_of ["ERROR: Connection failed";
                                            "WARNING: Timeout"]))))
                   ERROR_PATTERNS tt))).
  { simpl. left. reflexivity. }
  destruct (analyze_survives_sanitizer_failure
              "http://localhost:5001" ERROR_PATTERNS
              (text_of ["ERROR: Connection failed"; "WARNING: Timeout"])
              unit System.unreachable tt None "connect ECONNREFUSED"
              Hsent eq_refl) as (answer & Hresult & Hanswer & _).
  exists answer. split; [exact Hresult |].
  rewrite Hanswer. repeat split.
Defined.

(** C1 as stated fails for data that is not a string: the handler takes
    whatever value the body carries, and [/plan-and-run] forwards any.
    For an array the nested call is sent; when it fails the analysis goes
    on with the array, [split] is no function of it, and the answer is
    500. *)
Lemma sanitizer_failure_with_an_array :
  truthy (Some (JArr [ JStr "ERROR: Connection failed" ])) = true /\
  calls (run System.unreachable
             (analyze "http://localhost:5001"
                (Some (JArr [ JStr "ERROR: Connection failed" ])))
             ERROR_PATTERNS tt)
    = [ ("http://localhost:5001/sanitize",
         JObj [ ("data", JArr [ JStr "ERROR: Connection failed" ]) ]) ] /\
  fst (System.unreachable tt "http://localhost:5001/sanitize"
         (JObj [ ("data", JArr [ JStr "ERROR: Connection failed" ]) ]))
    = Rejected None "connect ECONNREFUSED" /\
  result (run System.unreachable
              (analyze "http://localhost:5001"
                 (Some (JArr [ JStr "ERROR: Connection failed" ])))
              ERROR_PATTERNS tt)
    = inl (status_json 500
             (JObj [ ("error",
                      JStr "sanitizedData.split is not a function") ])).
Proof. repeat split. Qed.

(** ** End to end *)

Section EndToEnd.
Context {W : Type}.
Variables SANITIZER_URL ANALYZER_URL : string.
Variable sanitizer : W -> string -> Json -> AxiosResult * W.
Variable took : W -> string -> Json -> nat.
Variable overhead : nat.

Lemma within_timeout_in_time (ms : nat) (r : AxiosResult) :
  ms < System.TIMEOUT -> System.within_timeout ms r = r.
Proof.
  intros Hlt. unfold System.within_timeout.
  apply Nat.ltb_lt in Hlt. now rewrite Hlt.
Qed.

Lemma network_analyzes (p : ErrorPatterns) (ws : W) (text : string) :
  text <> "" ->
  keeps_text text
    (fst (sanitizer ws (SANITIZER_URL ++ "/sanitize")
            (JObj [ ("data", JStr text) ]))) ->
  overhead + took ws (SANITIZER_URL ++ "/sanitize")
                  (JObj [ ("data", JStr text) ]) < System.TIMEOUT ->
  exists sanitizationInfo,
    fst (System.network SANITIZER_URL ANALYZER_URL sanitizer took overhead
           (p, ws) (ANALYZER_URL ++ "/analyze")
           (JObj [ ("data", JStr text) ])) =
      Resolved (body (analysis_response SANITIZER_URL (split newline text)
                        (forEach (split newline text) 0 (start p))
                        sanitizationInfo)).
Proof.
  intros Hne Hkeeps Htime.
  assert (Hnested :
    fst (System.nested sanitizer took ws (SANITIZER_URL ++ "/sanitize")
           (JObj [ ("data", JStr text) ]))
      = fst (sanitizer ws (SANITIZER_URL ++ "/sanitize")
               (JObj [ ("data", JStr text) ]))).
  { unfold System.nested. cbn [fst].
    apply within_timeout_in_time. lia. }
  rewrite <- Hnested in Hkeeps.
  destruct (run_analyze_text SANITIZER_URL p text W
              (System.nested sanitizer took) ws Hne Hkeeps)
    as [sanitizationInfo Hrun].
  pose proof (calls_analyze_text SANITIZER_URL p text W
                (System.nested sanitizer took) ws Hne) as Hcalls.
  exists sanitizationInfo.
  unfold System.network. rewrite String.eqb_refl. cbn [fst snd prop lookup].
  simpl String.eqb. cbn iota. rewrite Hrun, Hcalls.
  cbn [System.waited]. rewrite within_timeout_in_time; [reflexivity |].
  pose proof (Nat.le_min_r System.TIMEOUT
                (took ws (SANITIZER_URL ++ "/sanitize")
                      (JObj [ ("data", JStr text) ]))).
  lia.
Qed.
End EndToEnd.

(** C3, as amended: for the request "Analyze these logs for errors" the
    plan is the log-analyzer step alone; and when log-analyzer is
    registered where the analyzer listens, the analyzer's critical and
    warning patterns are at index 0, the sanitizer leaves the text as it
    is or fails, the answer of the analyzer is there before the 5000 ms of
    the executor's call are over, and the text has exactly one line that
    holds a critical word and exactly one line that holds a warning word,
    this one holding no critical and no error word, then [/plan-and-run]
    answers 200 with that plan and the result of log-analyzer reports
    1 critical and 1 warning. *)
Theorem analyze_request_end_to_end :
  forall (SANITIZER_URL : string) (agentInfo : AgentInfo)
         (registry : AgentRegistry) (W : Type)
         (sanitizer : W -> string -> Json -> AxiosResult * W)
         (took : W -> string -> Json -> nat) (overhead : nat) (ws : W)
         (le li : nat) (text : string),
    lookup "log-analyzer" registry = Some agentInfo ->
    count_matching (critical ERROR_PATTERNS) (split newline text) = 1 ->
    count_matching (warning ERROR_PATTERNS) (split newline text) = 1 ->
    (forall line, In line (split newline text) ->
       matches (warning ERROR_PATTERNS) line = true ->
       matches (critical ERROR_PATTERNS) line = false /\
       matches (error ERROR_PATTERNS) line = false) ->
    keeps_text text
      (fst (sanitizer ws (SANITIZER_URL ++ "/sanitize")
              (JObj [ ("data", JStr text) ]))) ->
    overhead + took ws (SANITIZER_URL ++ "/sanitize")
                    (JObj [ ("data", JStr text) ]) < System.TIMEOUT ->
    planned "Analyze these logs for errors" =
      [ {| agent := "log-analyzer"; task := "analyze";
           inputFrom := "user"; dependsOn := None |} ] /\
    exists answer : HttpResponse,
      result (run (System.network SANITIZER_URL (url agentInfo) sanitizer
                     took overhead)
                  (planAndRun {| request := Some "Analyze these logs for errors";
                                 data := Some (JStr text) |})
                  registry (with_indices 0 le 0 li, ws)) = inl answer /\
      status answer = 200 /\
      path ["plan"] (body answer) = Some (plan_json [log_analyzer_step]) /\
      path ["results"; "log-analyzer"; "analysis"; "critical"] (body answer)
        = Some (JNum 1) /\
      path ["results"; "log-analyzer"; "analysis"; "warnings"] (body answer)
        = Some (JNum 1).
Proof.
  intros SANITIZER_URL agentInfo registry W sanitizer took overhead ws le li
         text Hfound Hcritical Hwarning Hclean Hkeeps Htime.
  assert (Hplan : planned "Analyze these logs for errors" = [log_analyzer_step])
    by reflexivity.
  split; [exact Hplan |].
  assert (Hne : text <> "").
  { intros ->. discriminate Hcritical. }
  destruct (network_analyzes SANITIZER_URL (url agentInfo) sanitizer took
              overhead (with_indices 0 le 0 li) ws text Hne Hkeeps Htime)
    as [sanitizationInfo Hnet].
  destruct (counts_one_critical_one_warning (split newline text) le li
              Hcritical Hwarning Hclean) as [Hone Hone'].
  apply String.eqb_neq in Hne.
  unfold planAndRun. cbn [request data]. cbn [String.eqb Ascii.eqb Bool.eqb].
  rewrite generatePlan_planned, Hplan.
  unfold or_else, truthy. rewrite Hne. cbn [negb].
  unfold log_analyzer_step. simpl. rewrite Hfound. simpl.
  change (getEndpointForTask "log-analyzer" "analyze") with "/analyze".
  unfold field. rewrite Hnet.
  unfold analysis_response. simpl.
  eexists. split; [reflexivity |]. simpl.
  rewrite Hone, Hone'. repeat split.
Qed.

Lemma analyze_request_end_to_end_witness :
  exists answer : HttpResponse,
    result (run (System.network "http://localhost:5001"
                   "http://localhost:5002" System.nothing_to_redact
                   System.at_once 40)
                (planAndRun
                   {| request := Some "Analyze these logs for errors";
                      data := Some (JStr (text_of
                                [ "INFO: Application started";
                                  "CRITICAL: Payment service crashed";
                                  "WARNING: Low disk space" ])) |})
                analyzer_only (ERROR_PATTERNS, tt)) = inl answer /\
    path ["results"; "log-analyzer"; "analysis"; "critical"] (body answer)
      = Some (JNum 1) /\
    path ["results"; "log-analyzer"; "analysis"; "warnings"] (body answer)
      = Some (JNum 1).
Proof.
  assert (Hclean :
    forall line,
      In line (split newline (text_of [ "INFO: Application started";
                                        "CRITICAL: Payment service crashed";
                                        "WARNING: Low disk space" ])) ->
      matches (warning ERROR_PATTERNS) line = true ->
      matches (critical ERROR_PATTERNS) line = false /\
      matches (error ERROR_PATTERNS) line = false).
  { intros line [<- | [<- | [<- | []]]]; vm_compute; intros H;
      split; reflexivity || discriminate H. }
  assert (Htime : 40 + 0 < System.TIMEOUT) by (unfold System.TIMEOUT; lia).
  destruct (analyze_request_end_to_end
              "http://localhost:5001"
              (mkAgentInfo "log-analyzer" "http://localhost:5002" [])
              analyzer_only unit System.nothing_to_redact System.at_once 40
              tt 0 0
              (text_of [ "INFO: Application started";
                         "CRITICAL: Payment service crashed";
                         "WARNING: Low disk space" ])
              eq_refl eq_refl eq_refl Hclean eq_refl Htime)
    as [_ (answer & Hresult & _ & _ & Hcritical & Hwarnings)].
  exists answer. repeat split; assumption.
Defined.

(** C3 as stated fails on a warning line that also holds an error word:
    the text has one line with a critical word and one line with a
    warning word, the analyzer starts with its patterns at index 0, and
    whether the sanitizer returns the text as it is or refuses the
    connection, at once, the line "WARNING: request failed" is counted as
    an error and the result reports no warning. *)
Lemma warning_line_counted_as_error :
  count_matching (critical ERROR_PATTERNS)
    [ "FATAL: out of memory"; "WARNING: request failed" ] = 1 /\
  count_matching (warning ERROR_PATTERNS)
    [ "FATAL: out of memory"; "WARNING: request failed" ] = 1 /\
  split newline (text_of [ "FATAL: out of memory"; "WARNING: request failed" ])
    = [ "FATAL: out of memory"; "WARNING: request failed" ] /\
  answered_at ["results"; "log-analyzer"; "analysis"; "warnings"]
    (run (System.network "http://localhost:5001" "http://localhost:5002"
            System.nothing_to_redact System.at_once 40)
         (planAndRun
            {| request := Some "Analyze these logs for errors";
               data := Some (JStr (text_of [ "FATAL: out of memory";
                                             "WARNING: request failed" ])) |})
         analyzer_only (ERROR_PATTERNS, tt)) = Some (JNum 0) /\
  answered_at ["results"; "log-analyzer"; "analysis"; "errors"]
    (run (System.network "http://localhost:5001" "http://localhost:5002"
            System.nothing_to_redact System.at_once 40)
         (planAndRun
            {| request := Some "Analyze these logs for errors";
               data := Some (JStr (text_of [ "FATAL: out of memory";
                                             "WARNING: request failed" ])) |})
         analyzer_only (ERROR_PATTERNS, tt)) = Some (JNum 1) /\
  answered_at ["results"; "log-analyzer"; "analysis"; "warnings"]
    (run (System.network "http://localhost:5001" "http://localhost:5002"
            System.unreachable System.at_once 40)
         (planAndRun
            {| request := Some "Analyze these logs for errors";
               data := Some (JStr (text_of [ "FATAL: out of memory";
                                             "WARNING: request failed" ])) |})
         analyzer_only (ERROR_PATTERNS, tt)) = Some (JNum 0).
Proof. vm_compute. repeat split. Qed.

(** The patterns keep their [lastIndex] from one request to the next.  The
    same text, sent twice to the analyzer, is counted as 1 critical and
    1 warning the first time, and as 1 critical and no warning the
    second time: the second search for a warning word starts where the
    first one ended. *)
Example second_request_misses_warning :
  answered_at ["analysis"; "warnings"]
    (run System.unreachable
         (analyze "http://localhost:5001"
            (Some (JStr (text_of [ "CRITICAL: Payment service crashed";
                                   "WARNING: Low disk space" ]))))
         ERROR_PATTERNS tt) = Some (JNum 1) /\
  answered_at ["analysis"; "warnings"]
    (run System.unreachable
         (analyze "http://localhost:5001"
            (Some (JStr (text_of [ "CRITICAL: Payment service crashed";
                                   "WARNING: Low disk space" ]))))
         (state (run System.unreachable
                     (analyze "http://localhost:5001"
                        (Some (JStr (text_of
                           [ "CRITICAL: Payment service crashed";
                             "WARNING: Low disk space" ]))))
                     ERROR_PATTERNS tt))
         tt) = Some (JNum 0).
Proof. vm_compute. repeat split. Qed.

(** The sanitizer runs before the analysis, and what it redacts the
    analysis does not see.  For the text below the sanitizer's pattern for
    API keys covers "api_key: FATAL"; with its answer, the line that held
    the critical word is not counted. *)
Example redacted_word_is_not_counted :
  count_matching (critical ERROR_PATTERNS)
    [ "Invalid api_key: FATAL"; "WARNING: Low disk space" ] = 1 /\
  answered_at ["results"; "log-analyzer"; "analysis"; "critical"]
    (run (System.network "http://localhost:5001" "http://localhost:5002"
            (System.answering
               (Resolved (JObj
                  [ ("success", JBool true);
                    ("sanitized",
                     JStr (text_of [ "Invalid [REDACTED_APIKEY]";
                                     "WARNING: Low disk space" ]));
                    ("removed", JArr [ JStr "apiKey: api_key: F..." ]);
                    ("count", JNum 1);
                    ("message", JStr "Sanitized 1 sensitive items") ])))
            System.at_once 40)
         (planAndRun
            {| request := Some "Analyze these logs for errors";
               data := Some (JStr (text_of [ "Invalid api_key: FATAL";
                                             "WARNING: Low disk space" ])) |})
         analyzer_only (ERROR_PATTERNS, tt)) = Some (JNum 0).
Proof. vm_compute. repeat split. Qed.

(** A sanitizer that stays silent costs the whole request: the analyzer
    gives up on it after 5000 ms and counts the text as it was sent, but
    by then the executor has given up on the analyzer, and [/plan-and-run]
    answers 500. *)
Example silent_sanitizer_fails_the_request :
  result
    (run (System.network "http://localhost:5001" "http://localhost:5002"
            System.nothing_to_redact System.silent 40)
         (planAndRun
            {| request := Some "Analyze these logs for errors";
               data := Some (JStr (text_of [ "INFO: Application started";
                                             "CRITICAL: Payment service crashed";
                                             "WARNING: Low disk space" ])) |})
         analyzer_only (ERROR_PATTERNS, tt))
    = inl (status_json 500
             (JObj [ ("error",
                      JStr ("Failed to execute log-analyzer: "
                            ++ "timeout of 5000ms exceeded")) ])).
Proof. vm_compute. reflexivity. Qed.

(** ** The examples of the documentation *)

Example plan_for_full_brief :
  planned ("Analyze system logs for errors, sanitize sensitive data, "
           ++ "and generate a report with visual")
    = [log_analyzer_step; dependent_report_step].
Proof. reflexivity. Qed.

Example plan_for_report_alone :
  planned "Create a report with visual" = [standalone_report_step].
Proof. reflexivity. Qed.

Example plan_for_sanitization_alone :
  planned "Sanitize this sensitive data" = [sanitizer_step].
Proof. reflexivity. Qed.

Example simple_log_analysis :
  answered_at ["executionTrace"]
    (run (System.network "http://localhost:5001" "http://localhost:5002"
            System.nothing_to_redact System.at_once 40)
         (planAndRun
            {| request := Some "Analyze these logs for errors";
               data := Some (JStr (text_of [ "INFO: Application started";
                                             "ERROR: Connection timeout";
                                             "WARNING: Low disk space" ])) |})
         analyzer_only (ERROR_PATTERNS, tt))
    = Some (JArr [ JStr ("log-analyzer: " ++
                         quote ("Analyzed 3 log lines: 0 critical, 1 errors, "
                                ++ "1 warnings")) ]).
Proof. vm_compute. reflexivity. Qed.

(** An agent that is registered but answers nothing ends the plan at its
    step, and the boundary answers 500 with the agent and the cause. *)
Example unreachable_agent_fails_the_plan :
  result (run System.unreachable
              (planAndRun {| request := Some "Analyze these logs";
                             data := some_logs |})
              analyzer_only tt)
    = inl (status_json 500
             (JObj [ ("error",
                      JStr "Failed to execute log-analyzer: connect ECONNREFUSED") ])).
Proof. reflexivity. Qed.

(** The keywords are searched anywhere in the request, in any case; the
    words of the analyzer are whole words. *)
Example planner_keywords :
  needsLogAnalyst "Check the LOGS" = true /\
  needsLogAnalyst "Browse the catalog" = true /\
  needsReport "A Brief, please" = true /\
  needsSanitizer "Personal data" = true /\
  needsSanitizer "Strip the PII" = true /\
  needsLogAnalyst "Hello there" = false.
Proof. repeat split. Qed.

Example analyzer_words :
  matches (critical ERROR_PATTERNS) "kernel PANIC at boot" = true /\
  matches (warning ERROR_PATTERNS) "3 warnings" = false /\
  matches (error ERROR_PATTERNS) "Analyze these logs for errors" = false /\
  matches (error ERROR_PATTERNS) "request failed" = true /\
  matches (info ERROR_PATTERNS) "debug: x=1" = true.
Proof. repeat split. Qed.

(** * Further properties *)

(** ** The registry: lookups, order, clearing *)

Lemma lookup_entry (agents : AgentRegistry) (k : string) (d : AgentInfo) :
  NoDup (map fst agents) -> In (k, d) agents -> lookup k agents = Some d.
Proof.
  induction agents as [| [k' d'] rest IH]; simpl; [tauto |].
  intros Hnodup [Hhead | Hin]; inversion Hnodup as [| ? ? Hnotin Hrest]; subst.
  - injection Hhead as -> ->. now rewrite String.eqb_refl.
  - destruct (String.eqb k k') eqn:E; [| now apply IH].
    apply String.eqb_eq in E. subst k'. exfalso. apply Hnotin.
    apply (in_map fst) in Hin. exact Hin.
Qed.

Lemma lookup_in (agents : AgentRegistry) (k : string) (d : AgentInfo) :
  lookup k agents = Some d -> In (k, d) agents.
Proof.
  induction agents as [| [k' d'] rest IH]; simpl; [discriminate |].
  destruct (String.eqb k k') eqn:E.
  - apply String.eqb_eq in E. intros [= ->]. left. now subst.
  - intros H. right. now apply IH.
Qed.

Lemma get_iff_listed (agents : AgentRegistry) (k : string) (d : AgentInfo) :
  well_formed agents ->
  lookup k agents = Some d <-> In d (map snd agents) /\ name d = k.
Proof.
  intros [Hkeys Hnames]. split.
  - intros Hfound. apply lookup_in in Hfound. split.
    + apply (in_map snd) in Hfound. exact Hfound.
    + rewrite Forall_forall in Hnames. symmetry.
      exact (Hnames (k, d) Hfound).
  - intros [Hin Hname]. apply in_map_iff in Hin.
    destruct Hin as ([k' d'] & Heq & Hin). simpl in Heq. subst d'.
    rewrite Forall_forall in Hnames. pose proof (Hnames _ Hin) as Hk.
    simpl in Hk. apply lookup_entry; [exact Hkeys | congruence].
Qed.

(** X1: after a registration [get] finds the descriptor under its name, and
    finds under every other name what it found before; [has] answers whether
    [get] finds something. *)
Theorem register_then_get :
  forall (agents : AgentRegistry) (agentInfo : AgentInfo) (k : string)
         (W : Type) (net : W -> string -> Json -> AxiosResult * W) (w : W),
    result (run net (_ <- register agentInfo ;; get (name agentInfo)) agents w)
      = inl (Some agentInfo) /\
    (k <> name agentInfo ->
     result (run net (_ <- register agentInfo ;; get k) agents w)
       = result (run net (get k) agents w)) /\
    (result (run net (has k) agents w) = inl true <->
     exists d, result (run net (get k) agents w) = inl (Some d)).
Proof.
  intros agents agentInfo k W net w. simpl. split; [| split].
  - now rewrite lookup_assign_same.
  - intros Hne. now rewrite lookup_assign_other.
  - destruct (lookup k agents) as [d |]; split.
    + intros _. now exists d.
    + reflexivity.
    + discriminate.
    + intros [d Hd]. discriminate.
Qed.

Lemma register_then_get_witness :
  result (run System.unreachable
              (_ <- register (mkAgentInfo "sanitizer" "http://localhost:9001" []) ;;
               get "log-analyzer") analyzer_only tt)
    = inl (Some (mkAgentInfo "log-analyzer" "http://localhost:5002" [])).
Proof.
  assert (Hne : "log-analyzer" <> name (mkAgentInfo "sanitizer" "http://localhost:9001" []))
    by discriminate.
  exact (proj1 (proj2 (register_then_get analyzer_only
                         (mkAgentInfo "sanitizer" "http://localhost:9001" [])
                         "log-analyzer" unit System.unreachable tt)) Hne).
Defined.

(** X2: whatever the history of the registry, [getAll] lists no two
    descriptors of one name, and [get] finds under a name exactly the
    descriptor of that name that [getAll] lists. *)
Theorem get_agrees_with_getAll :
  forall (history : list RegistryCall) (k : string) (d : AgentInfo)
         (W : Type) (net : W -> string -> Json -> AxiosResult * W) (w : W),
    exists all : list AgentInfo,
      result (run net (_ <- replay history ;; getAll) [] w) = inl all /\
      NoDup (map name all) /\
      (result (run net (_ <- replay history ;; get k) [] w) = inl (Some d)
       <-> In d all /\ name d = k).
Proof.
  intros history k d W net w.
  destruct (run_replay W net w history [] well_formed_new)
    as (agents & lines & Hrun & Hwf).
  exists (map snd agents). rewrite !run_bind, Hrun. simpl.
  split; [reflexivity |]. split.
  - destruct Hwf as [Hkeys Hnames]. now rewrite names_are_keys.
  - rewrite <- (get_iff_listed agents k d Hwf).
    split; [now intros [= ->] | now intros ->].
Qed.

Lemma values_assign (agents : AgentRegistry) (agentInfo : AgentInfo) :
  well_formed agents ->
  map snd (assign (name agentInfo) agentInfo agents) =
    if existsb (fun d => String.eqb (name d) (name agentInfo)) (map snd agents)
    then map (fun d => if String.eqb (name d) (name agentInfo)
                       then agentInfo else d) (map snd agents)
    else (map snd agents ++ [agentInfo])%list.
Proof.
  intros [Hkeys Hnames]. revert Hkeys.
  induction Hnames as [| [k d] rest Hk Hrest IH]; intros Hkeys;
    [reflexivity |].
  simpl in Hk. subst k. inversion Hkeys as [| ? ? Hnotin Hkeys']; subst.
  cbn [assign map snd existsb].
  rewrite (String.eqb_sym (name agentInfo) (name d)).
  destruct (String.eqb (name d) (name agentInfo)) eqn:E; cbn [orb map snd].
  - f_equal. apply String.eqb_eq in E.
    rewrite <- (map_id (map snd rest)) at 1. apply map_ext_in.
    intros d' Hin. destruct (String.eqb (name d') (name agentInfo)) eqn:E';
      [| reflexivity].
    apply String.eqb_eq in E'. exfalso. apply Hnotin.
    rewrite <- (names_are_keys rest Hrest), E, <- E'.
    now apply in_map.
  - rewrite (IH Hkeys').
    destruct (existsb _ (map snd rest)); cbn [map app]; now rewrite ?E.
Qed.

(** X3: [getAll] lists the agents in the order of their first registration:
    a registration under a new name adds the descriptor at the end, a
    registration under a name already there replaces the descriptor where it
    stands. *)
Theorem getAll_keeps_registration_order :
  forall (history : list RegistryCall) (agentInfo : AgentInfo)
         (before : list AgentInfo)
         (W : Type) (net : W -> string -> Json -> AxiosResult * W) (w : W),
    result (run net (_ <- replay history ;; getAll) [] w) = inl before ->
    result (run net (_ <- replay history ;; _ <- register agentInfo ;; getAll)
                [] w) =
      inl (if existsb (fun d => String.eqb (name d) (name agentInfo)) before
           then map (fun d => if String.eqb (name d) (name agentInfo)
                              then agentInfo else d) before
           else (before ++ [agentInfo])%list).
Proof.
  intros history agentInfo before W net w.
  destruct (run_replay W net w history [] well_formed_new)
    as (agents & lines & Hrun & Hwf).
  rewrite !run_bind, Hrun. simpl. intros [= <-].
  now rewrite values_assign.
Qed.

Lemma getAll_keeps_registration_order_witness :
  result (run System.unreachable
              (_ <- replay [ CallRegister (mkAgentInfo "a" "http://a:1" []);
                             CallRegister (mkAgentInfo "b" "http://b:1" []) ] ;;
               _ <- register (mkAgentInfo "a" "http://a:2" []) ;; getAll)
              [] tt) =
    inl [ mkAgentInfo "a" "http://a:2" []; mkAgentInfo "b" "http://b:1" [] ].
Proof.
  exact (getAll_keeps_registration_order
           [ CallRegister (mkAgentInfo "a" "http://a:1" []);
             CallRegister (mkAgentInfo "b" "http://b:1" []) ]
           (mkAgentInfo "a" "http://a:2" [])
           [ mkAgentInfo "a" "http://a:1" []; mkAgentInfo "b" "http://b:1" [] ]
           unit System.unreachable tt eq_refl).
Defined.

Lemma state_replay_app (W : Type)
  (net : W -> string -> Json -> AxiosResult * W) (w : W)
  (earlier later : list RegistryCall) (agents : AgentRegistry) :
  state (run net (replay (earlier ++ later)) agents w) =
    state (run net (replay later)
               (state (run net (replay earlier) agents w)) w).
Proof.
  revert agents. induction earlier as [| c earlier IH]; intros agents;
    [reflexivity |].
  destruct c as [agentInfo |]; simpl; apply IH.
Qed.

(** X4: [clear] forgets everything: what is registered after it is what
    would be registered had the registry been new. *)
Theorem clear_forgets_earlier_registrations :
  forall (earlier later : list RegistryCall) (k : string)
         (W : Type) (net : W -> string -> Json -> AxiosResult * W) (w : W),
    state (run net (replay (earlier ++ CallClear :: later)) [] w) =
      state (run net (replay later) [] w) /\
    result (run net (_ <- replay (earlier ++ [CallClear]) ;; getAll) [] w)
      = inl [] /\
    result (run net (_ <- replay (earlier ++ [CallClear]) ;; get k) [] w)
      = inl None.
Proof.
  intros earlier later k W net w.
  assert (Hcleared : forall agents,
             state (run net (replay [CallClear]) agents w) = []) by reflexivity.
  split; [| split].
  - now rewrite state_replay_app.
  - destruct (run_replay W net w (earlier ++ [CallClear]) [] well_formed_new)
      as (agents & lines & Hrun & _).
    pose proof (state_replay_app W net w earlier [CallClear] []) as Hstate.
    rewrite Hrun, Hcleared in Hstate. simpl in Hstate. subst agents.
    now rewrite run_bind, Hrun.
  - destruct (run_replay W net w (earlier ++ [CallClear]) [] well_formed_new)
      as (agents & lines & Hrun & _).
    pose proof (state_replay_app W net w earlier [CallClear] []) as Hstate.
    rewrite Hrun, Hcleared in Hstate. simpl in Hstate. subst agents.
    now rewrite run_bind, Hrun.
Qed.

(** ** The [/register] and [/agents] routes *)

(** X5: a body that lacks [name], [url] or [tools], or whose [name] or [url]
    is the empty string, is answered 400; the registry is left as it was and
    nothing is written or sent. *)
Theorem registerRoute_rejects_incomplete_body :
  forall (body : RegisterRequest) (agents : AgentRegistry)
         (W : Type) (net : W -> string -> Json -> AxiosResult * W) (w : W),
    register_name body = None \/ register_name body = Some "" \/
    register_url body = None \/ register_url body = Some "" \/
    register_tools body = None ->
    run net (registerRoute body) agents w =
      mkOutcome
        (inl (status_json 400
                (JObj [ ("error",
                         JStr "Missing required fields: name, url, tools") ])))
        agents w [] [].
Proof.
  intros [n u ts] agents W net w. unfold registerRoute. simpl.
  intros [-> | [-> | [-> | [-> | ->]]]]; try reflexivity.
  - now destruct u, ts.
  - destruct n as [n |]; [| reflexivity]. now destruct ts.
  - destruct n as [n |]; [| reflexivity]. destruct ts; [| reflexivity].
    now rewrite orb_true_r.
  - destruct n as [n |]; [| reflexivity]. now destruct u.
Qed.

Lemma registerRoute_rejects_incomplete_body_witness :
  run System.unreachable
      (registerRoute {| register_name := Some "sanitizer";
                        register_url := Some "";
                        register_tools := Some [] |})
      analyzer_only tt =
    mkOutcome (inl missing_fields) analyzer_only tt [] [].
Proof.
  apply (registerRoute_rejects_incomplete_body
           {| register_name := Some "sanitizer"; register_url := Some "";
              register_tools := Some [] |}
           analyzer_only unit System.unreachable tt).
  right. right. right. left. reflexivity.
Defined.

Lemma in_values_assign (agents : AgentRegistry) (agentInfo : AgentInfo) :
  In agentInfo (map snd (assign (name agentInfo) agentInfo agents)).
Proof.
  induction agents as [| [k d] rest IH]; simpl; [now left |].
  destruct (String.eqb (name agentInfo) k); simpl; [now left | now right].
Qed.

(** X6: a complete body is answered 200 with the descriptor; the agent is
    then registered under its name with the [url] and [tools] of the body:
    [get] finds it and [/agents] lists it. *)
Theorem registerRoute_registers :
  forall (n u : string) (ts : list Tool) (agents : AgentRegistry)
         (W : Type) (net : W -> string -> Json -> AxiosResult * W) (w : W),
    n <> "" ->
    u <> "" ->
    result (run net (registerRoute {| register_name := Some n;
                                      register_url := Some u;
                                      register_tools := Some ts |})
                agents w) =
      inl (json (JObj
        [ ("success", JBool true);
          ("message", JStr ("Agent " ++ n ++ " registered successfully"));
          ("agent", agent_json {| name := n; url := u; tools := ts |}) ])) /\
    result (run net (_ <- registerRoute {| register_name := Some n;
                                           register_url := Some u;
                                           register_tools := Some ts |} ;;
                     get n) agents w) =
      inl (Some {| name := n; url := u; tools := ts |}) /\
    exists listed,
      answered_at ["agents"]
        (run net (_ <- registerRoute {| register_name := Some n;
                                        register_url := Some u;
                                        register_tools := Some ts |} ;;
                  agentsRoute) agents w) = Some (JArr listed) /\
      In (agent_json {| name := n; url := u; tools := ts |}) listed.
Proof.
  intros n u ts agents W net w Hn Hu.
  apply String.eqb_neq in Hn, Hu.
  unfold registerRoute, agentsRoute, answered_at. simpl. rewrite Hn, Hu. simpl.
  split; [reflexivity |]. split.
  - now rewrite lookup_assign_same.
  - eexists. split; [reflexivity |]. apply in_map.
    apply (in_values_assign agents {| name := n; url := u; tools := ts |}).
Qed.

Lemma registerRoute_registers_witness :
  result (run System.unreachable
              (_ <- registerRoute
                      {| register_name := Some "sanitizer";
                         register_url := Some "http://localhost:5001";
                         register_tools := Some [] |} ;;
               get "sanitizer") analyzer_only tt) =
    inl (Some (mkAgentInfo "sanitizer" "http://localhost:5001" [])).
Proof.
  assert (Hn : "sanitizer" <> "") by discriminate.
  assert (Hu : "http://localhost:5001" <> "") by discriminate.
  exact (proj1 (proj2 (registerRoute_registers
                         "sanitizer" "http://localhost:5001" []
                         analyzer_only unit System.unreachable tt Hn Hu))).
Defined.

Lemma state_replay_registrations (W : Type)
  (net : W -> string -> Json -> AxiosResult * W) (w : W)
  (infos : list AgentInfo) (agents : AgentRegistry) :
  state (run net (replay (map CallRegister infos)) agents w) =
    fold_left (fun m a => assign (name a) a m) infos agents.
Proof.
  revert agents. induction infos as [| a infos IH]; intros agents;
    [reflexivity |].
  simpl. apply IH.
Qed.

Lemma keys_after_registrations (infos : list AgentInfo)
  (agents : AgentRegistry) (k : string) :
  In k (map fst (fold_left (fun m a => assign (name a) a m) infos agents))
  <-> In k (map fst agents) \/ In k (map name infos).
Proof.
  revert agents. induction infos as [| a infos IH]; intros agents; simpl.
  - tauto.
  - rewrite IH, keys_assign.
    destruct (lookup (name a) agents) as [d |] eqn:Hfound.
    + apply lookup_Some_key in Hfound. intuition (subst; auto).
    + rewrite in_app_iff. simpl. intuition (subst; auto).
Qed.

(** X7: [/agents] counts every name once, however often it registered: after
    any registrations the count is the number of distinct names, the list
    has that many descriptors, and the registry is left as it was. *)
Theorem agentsRoute_counts_names_once :
  forall (infos : list AgentInfo)
         (W : Type) (net : W -> string -> Json -> AxiosResult * W) (w : W),
    exists listed,
      result (run net (_ <- replay (map CallRegister infos) ;; agentsRoute)
                  [] w) =
        inl (json (JObj
          [ ("count",
             JNum (Z.of_nat
                     (List.length (nodup string_dec (map name infos)))));
            ("agents", JArr listed) ])) /\
      List.length listed = List.length (nodup string_dec (map name infos)) /\
      state (run net (_ <- replay (map CallRegister infos) ;; agentsRoute)
                 [] w) =
        state (run net (replay (map CallRegister infos)) [] w).
Proof.
  intros infos W net w.
  destruct (run_replay W net w (map CallRegister infos) [] well_formed_new)
    as (agents & lines & Hrun & Hwf).
  pose proof (state_replay_registrations W net w infos []) as Hstate.
  rewrite Hrun in Hstate. simpl in Hstate.
  assert (Hcount : List.length agents =
                   List.length (nodup string_dec (map name infos))).
  { rewrite <- (length_map fst agents).
    destruct Hwf as [Hkeys _].
    apply Nat.le_antisymm; apply NoDup_incl_length;
      try exact Hkeys; try apply NoDup_nodup;
      intros k Hk.
    - apply nodup_In. rewrite Hstate in Hk.
      apply keys_after_registrations in Hk. now destruct Hk.
    - apply nodup_In in Hk. rewrite Hstate.
      apply keys_after_registrations. now right. }
  exists (map agent_json (map snd agents)).
  unfold agentsRoute. rewrite !run_bind, Hrun. simpl.
  rewrite !length_map, Hcount. repeat split.
Qed.

(** ** The planner: the shape of its plans *)

Lemma planned_shapes (request : string) :
  planned request = [log_analyzer_step; dependent_report_step] \/
  planned request = [log_analyzer_step] \/
  planned request = [standalone_report_step] \/
  planned request = [sanitizer_step] \/
  planned request = [].
Proof.
  rewrite planned_cases.
  destruct (needsLogAnalyst request), (needsReport request),
    (needsSanitizer request); tauto.
Qed.

Lemma planned_well_ordered (request : string) :
  well_ordered [] (planned request).
Proof.
  destruct (planned_shapes request) as [-> | [-> | [-> | [-> | ->]]]];
    simpl; tauto.
Qed.

(** X8: every plan is well ordered and short: at most two steps, no agent
    twice; a step draws on the user and depends on nothing, or draws on the
    agent of an earlier step and depends on that agent; and the sanitizer is
    planned only alone. *)
Theorem planned_is_well_ordered :
  forall request : string,
    well_ordered [] (planned request) /\
    List.length (planned request) <= 2 /\
    NoDup (map agent (planned request)) /\
    (forall step, In step (planned request) ->
       (inputFrom step = "user" /\ dependsOn step = None) \/
       (inputFrom step <> "user" /\ dependsOn step = Some (inputFrom step))) /\
    (In "sanitizer" (map agent (planned request)) ->
     planned request = [sanitizer_step]).
Proof.
  intros request. split; [apply planned_well_ordered |].
  destruct (planned_shapes request) as [-> | [-> | [-> | [-> | ->]]]];
    simpl; (split; [lia |]);
    (split; [repeat constructor; simpl; intuition discriminate |]);
    (split; [| intuition discriminate]);
    intros step Hin; simpl in Hin;
    repeat match goal with
    | H : _ \/ _ |- _ => destruct H as [<- | H]
    | H : False |- _ => destruct H
    end;
    (now left) || (right; split; [discriminate | reflexivity]).
Qed.

Lemma planned_is_well_ordered_witness :
  planned "Sanitize this, please" = [sanitizer_step].
Proof.
  apply (proj2 (proj2 (proj2 (proj2
           (planned_is_well_ordered "Sanitize this, please"))))).
  simpl. now left.
Defined.

(** ** The executor: one step *)

Section StepFacts.
Context {W : Type}.
Variable net : W -> string -> Json -> AxiosResult * W.
Variable registry : AgentRegistry.
Variable initialData : option Json.

Lemma has_input_guard results step :
  has_input results step = true ->
  negb (inputFrom step =? "user") &&
  negb (truthy (if inputFrom step =? "user" then initialData
                else lookup (inputFrom step) results)) = false.
Proof.
  unfold has_input. destruct (inputFrom step =? "user"); simpl;
    [reflexivity |].
  now intros ->.
Qed.



Lemma run_step_resolved step rest i results executionTrace w agentInfo
  response_data :
  lookup (agent step) registry = Some agentInfo ->
  has_input results step = true ->
  fst (net w (url agentInfo ++ getEndpointForTask (agent step) (task step))
           (JObj (field "data" (input_for initialData results step))))
    = Resolved response_data ->
  response_data <> JNull ->
  run net (executeSteps initialData (step :: rest) i results executionTrace)
      registry w =
    logged (LogStep (i + 1) (agent step) (task step))
      (logged (LogCalling (url agentInfo
                           ++ getEndpointForTask (agent step) (task step)))
         (called (url agentInfo ++ getEndpointForTask (agent step) (task step),
                  JObj (field "data" (input_for initialData results step)))
            (logged LogStepSuccess
               (run net
                  (executeSteps initialData rest (S i)
                     (assign (agent step) response_data results)
                     (executionTrace ++ [trace_line step response_data])%list)
                  registry
                  (snd (net w (url agentInfo
                               ++ getEndpointForTask (agent step) (task step))
                            (JObj (field "data"
                                     (input_for initialData results step))))))))).
Proof.
  intros Hfound Hinput Hnet Hnonnull. unfold input_for, trace_line in *. simpl.
  rewrite Hfound. simpl. rewrite (has_input_guard _ _ Hinput). simpl.
  rewrite Hnet. destruct response_data; try reflexivity. congruence.
Qed.

Lemma run_step_no_input step rest i results executionTrace w agentInfo :
  lookup (agent step) registry = Some agentInfo ->
  has_input results step = false ->
  run net (executeSteps initialData (step :: rest) i results executionTrace)
      registry w =
    mkOutcome (inr (dependency_not_met (inputFrom step))) registry w
      [ LogStep (i + 1) (agent step) (task step) ] [].
Proof.
  intros Hfound Hinput. unfold has_input in Hinput.
  apply orb_false_iff in Hinput. destruct Hinput as [Huser Hfalsy].
  simpl. rewrite Hfound. simpl. now rewrite Huser, Hfalsy.
Qed.
End StepFacts.

(** ** The executor: whole plans *)

(** X9: the executor and the [/plan-and-run] handler only read the registry:
    whatever the plan, the request and the network, the registry is
    afterwards what it was. *)
Theorem execution_leaves_registry :
  forall (plan : list PlanStep) (initialData : option Json)
         (body : PlanAndRunRequest) (registry : AgentRegistry)
         (W : Type) (net : W -> string -> Json -> AxiosResult * W) (w : W),
    state (run net (executePlan plan initialData) registry w) = registry /\
    state (run net (planAndRun body) registry w) = registry.
Proof.
  intros plan initialData body registry W net w. split.
  - unfold executePlan. simpl. apply state_executeSteps.
  - unfold planAndRun. rewrite run_catch.
    assert (Hbody :
      state (run net
        match request body with
        | Some text =>
            if String.eqb text "" then Ret missing_request
            else
              Log (LogReceivedRequest text)
              (plan <- generatePlan text ;;
               if Nat.eqb (List.length plan) 0 then Ret no_agents_matched
               else
                 Log (LogGeneratedPlan plan)
                 (executionResult <-
                    executePlan plan (or_else (data body) (Some (JStr text))) ;;
                  Log LogExecutionComplete
                  (Ret (json (JObj
                     [ ("request", JStr text);
                       ("plan", plan_json plan);
                       ("success", JBool (success executionResult));
                       ("results", JObj (results executionResult));
                       ("executionTrace",
                        JArr (map JStr (executionTrace executionResult))) ])))))
        | None => Ret missing_request
        end registry w) = registry).
    { destruct (request body) as [text |]; [| reflexivity].
      destruct (String.eqb text ""); [reflexivity |].
      rewrite generatePlan_planned. simpl.
      destruct (planned text) as [| step rest]; [reflexivity |].
      cbn [List.length Nat.eqb]. simpl. rewrite run_bind.
      pose proof (state_executeSteps net registry
                    (or_else (data body) (Some (JStr text)))
                    (step :: rest) 0 [] [] w) as Hstate.
      unfold executePlan. simpl in *.
      destruct (result _); simpl; exact Hstate. }
    destruct (result _); simpl; exact Hbody.
Qed.

(** What [/plan-and-run] does with a request that has a plan, in terms of
    the run of the executor's loop over that plan. *)
Lemma run_planAndRun_planned (text : string) (payload : option Json)
  (W : Type) (net : W -> string -> Json -> AxiosResult * W)
  (registry : AgentRegistry) (w : W) :
  text <> "" ->
  planned text <> [] ->
  run net (planAndRun {| request := Some text; data := payload |}) registry w =
    relayed text
      (run net (executeSteps (or_else payload (Some (JStr text)))
                  (planned text) 0 [] []) registry w).
Proof.
  intros Hne Hplan. apply String.eqb_neq in Hne.
  assert (Hlen : Nat.eqb (List.length (planned text)) 0 = false)
    by (destruct (planned text); [congruence | reflexivity]).
  unfold planAndRun. cbn [request data]. rewrite Hne.
  rewrite run_catch, generatePlan_planned.
  cbn [bind]. rewrite Hlen. unfold executePlan. cbn [bind run].
  rewrite run_bind. unfold relayed.
  generalize (run net (executeSteps (or_else payload (Some (JStr text)))
                         (planned text) 0 [] []) registry w).
  intros [[done | message] st wd con cls];
    cbv [logged followed_by failed_with run result state world console calls];
    cbn [app]; rewrite ?app_nil_r; reflexivity.
Qed.

Section PlanFacts.
Context {W : Type}.
Variable net : W -> string -> Json -> AxiosResult * W.
Variable registry : AgentRegistry.
Variable initialData : option Json.

Lemma served_app before rest :
  served (before ++ rest) <-> served before /\ served rest.
Proof. apply Forall_app. Qed.

Lemma served_not_user step :
  In (agent step) endpoint_agents -> agent step <> "user".
Proof.
  intros Hin Huser. rewrite Huser in Hin. simpl in Hin.
  intuition discriminate.
Qed.

Lemma in_keys_assign {V : Type} (m : list (string * V)) k v k' :
  In k' (map fst (assign k v m)) <-> k' = k \/ In k' (map fst m).
Proof.
  rewrite keys_assign. destruct (lookup k m) eqn:E.
  - apply lookup_Some_key in E. split; [tauto |].
    intros [-> | H]; assumption.
  - rewrite in_app_iff. simpl. intuition congruence.
Qed.

(** The first call of a step that is registered and has its input. *)
Lemma calls_step step rest i results executionTrace w agentInfo :
  lookup (agent step) registry = Some agentInfo ->
  has_input results step = true ->
  exists later,
    calls (run net (executeSteps initialData (step :: rest) i results
                      executionTrace) registry w) =
      call_for agentInfo step (input_for initialData results step) :: later.
Proof.
  intros Hfound Hinput. unfold call_for, input_for. simpl.
  rewrite Hfound. simpl. rewrite (has_input_guard _ _ _ Hinput). simpl.
  eexists. reflexivity.
Qed.

(** No more calls than steps. *)
Lemma calls_at_most_steps steps i results executionTrace w :
  List.length
    (calls (run net (executeSteps initialData steps i results executionTrace)
                registry w)) <= List.length steps.
Proof.
  revert i results executionTrace w.
  induction steps as [| step rest IH]; intros i rs tr w; simpl; [lia |].
  destruct (lookup (agent step) registry) as [agentInfo |]; simpl; [| lia].
  destruct (negb (inputFrom step =? "user") && negb (truthy _)); simpl;
    [lia |].
  destruct (fst (net w _ _)) as [response_data | response message]; simpl;
    [| lia].
  destruct response_data; simpl; try lia; apply le_n_S, IH.
Qed.

(** What a completed run of the loop leaves in its two accumulators. *)
Lemma completed_executeSteps steps i results executionTrace w done :
  result (run net (executeSteps initialData steps i results executionTrace)
              registry w) = inl done ->
  success done = true /\
  List.length (Orchestrator.executionTrace done) =
    List.length executionTrace + List.length steps /\
  (forall k, In k (map fst (Orchestrator.results done)) <->
             In k (map fst results) \/ In k (map agent steps)) /\
  (NoDup (map fst results) -> NoDup (map fst (Orchestrator.results done))) /\
  (forall k, ~ In k (map agent steps) ->
             lookup k (Orchestrator.results done) = lookup k results).
Proof.
  revert i results executionTrace w.
  induction steps as [| step rest IH]; intros i rs tr w; simpl.
  - intros [= <-]. simpl. rewrite Nat.add_0_r. intuition.
  - destruct (lookup (agent step) registry) as [agentInfo |]; simpl;
      [| discriminate].
    destruct (negb (inputFrom step =? "user") && negb (truthy _)); simpl;
      [discriminate |].
    destruct (fst (net w _ _)) as [response_data | response message]; simpl;
      [| discriminate].
    destruct response_data; simpl; try discriminate;
      intros H; apply IH in H;
      destruct H as (Hsuccess & Htrace & Hkeys & Hnodup & Hkept);
      (split; [exact Hsuccess |]);
      (split; [rewrite Htrace, length_app; simpl; lia |]);
      (split; [intros k; rewrite Hkeys, in_keys_assign;
               intuition (subst; auto) |]);
      (split; [intros Hnd; apply Hnodup, NoDup_keys_assign, Hnd |]);
      intros k Hnotin;
      assert (Hother : k <> agent step) by (intros ->; tauto);
      (rewrite Hkept; [now apply lookup_assign_other | tauto]).
Qed.
End PlanFacts.

(** X10: what a plan that completes leaves behind, for a plan over the
    agents of the endpoint table: [success] is true, one call was sent and
    one line was traced per step, and the results hold one entry per agent
    of the plan and no other. *)
Theorem completed_plan_has_a_result_per_agent :
  forall (plan : list PlanStep) (initialData : option Json)
         (registry : AgentRegistry) (W : Type)
         (net : W -> string -> Json -> AxiosResult * W) (w : W)
         (done : ExecutionResult),
    served plan ->
    result (run net (executePlan plan initialData) registry w) = inl done ->
    success done = true /\
    List.length (calls (run net (executePlan plan initialData) registry w))
      = List.length plan /\
    List.length (executionTrace done) = List.length plan /\
    NoDup (map fst (results done)) /\
    (forall k, In k (map fst (results done)) <-> In k (map agent plan)).
Proof.
  intros plan initialData registry W net w done _ Hdone.
  unfold executePlan in *. cbn [run logged result calls] in *.
  pose proof (success_executeSteps _ _ _ _ _ _ _ _ _ Hdone) as Hcalls.
  apply completed_executeSteps in Hdone.
  destruct Hdone as (Hsuccess & Htrace & Hkeys & Hnodup & _).
  repeat split; try assumption.
  - apply Hnodup. constructor.
  - intros Hin. apply Hkeys in Hin. simpl in Hin. tauto.
  - intros Hin. apply Hkeys. now right.
Qed.

Lemma completed_plan_has_a_result_per_agent_witness :
  List.length
    (calls (run (System.answering (Resolved a_summary))
                (executePlan [log_analyzer_step] some_logs)
                analyzer_only tt)) = 1.
Proof.
  assert (Hserved : served [log_analyzer_step]).
  { constructor; [simpl; auto | constructor]. }
  exact (proj1 (proj2
           (completed_plan_has_a_result_per_agent
              [log_analyzer_step] some_logs analyzer_only unit
              (System.answering (Resolved a_summary)) tt
              (mkExecutionResult true [ ("log-analyzer", a_summary) ]
                 [ "log-analyzer: " ++ stringify (JStr "done") ])
              Hserved eq_refl))).
Defined.

(** X11: the hand-off between two steps of a plan over the agents of the
    endpoint table: when the first step takes the user's data, the second
    takes its input from the agent of the first, both agents are registered
    and the first agent answers with a truthy body, the second call goes to
    the second agent and carries that body as its [data]. *)
Theorem answer_is_handed_to_dependent_step :
  forall (first second : PlanStep) (after : list PlanStep)
         (initialData : option Json) (registry : AgentRegistry) (W : Type)
         (net : W -> string -> Json -> AxiosResult * W) (w : W)
         (firstInfo secondInfo : AgentInfo) (answer : Json),
    served (first :: second :: after) ->
    inputFrom first = "user" ->
    inputFrom second = agent first ->
    lookup (agent first) registry = Some firstInfo ->
    lookup (agent second) registry = Some secondInfo ->
    fst (net w (fst (call_for firstInfo first initialData))
               (snd (call_for firstInfo first initialData)))
      = Resolved answer ->
    truthy (Some answer) = true ->
    nth_error
      (calls (run net (executePlan (first :: second :: after) initialData)
                  registry w)) 0
      = Some (call_for firstInfo first initialData) /\
    nth_error
      (calls (run net (executePlan (first :: second :: after) initialData)
                  registry w)) 1
      = Some (url secondInfo
                ++ getEndpointForTask (agent second) (task second),
              JObj [ ("data", answer) ]).
Proof.
  intros first second after initialData registry W net w firstInfo secondInfo
         answer Hserved Huser Hfrom Hfirst Hsecond Hnet Htruthy.
  assert (Hnonnull : answer <> JNull) by (intros ->; discriminate).
  assert (Hnot_user : agent first <> "user").
  { apply served_not_user. now inversion Hserved as [| ? ? [? _] _]. }
  assert (Hinput1 : has_input [] first = true).
  { unfold has_input. now rewrite Huser. }
  assert (Hdata1 : input_for initialData [] first = initialData).
  { unfold input_for. now rewrite Huser. }
  assert (Hlookup : lookup (inputFrom second) [(agent first, answer)]
                    = Some answer).
  { rewrite Hfrom. simpl. now rewrite String.eqb_refl. }
  assert (Hinput2 : has_input [(agent first, answer)] second = true).
  { unfold has_input. rewrite Hlookup, Htruthy. apply orb_true_r. }
  assert (Hdata2 : input_for initialData [(agent first, answer)] second
                   = Some answer).
  { unfold input_for. rewrite Hlookup, Hfrom.
    apply String.eqb_neq in Hnot_user. now rewrite Hnot_user. }
  unfold call_for in *. cbn [fst snd] in Hnet.
  unfold executePlan. cbn [run logged calls].
  rewrite (run_step_resolved net registry initialData first _ 0 [] [] w
             firstInfo answer Hfirst Hinput1)
    by (rewrite ?Hdata1; assumption).
  rewrite Hdata1. unfold logged, called. cbn [calls nth_error].
  split; [reflexivity |].
  destruct (calls_step net registry initialData second after 1
              (assign (agent first) answer [])
              ([] ++ [trace_line first answer])%list
              (snd (net w (url firstInfo
                           ++ getEndpointForTask (agent first) (task first))
                        (JObj (field "data" initialData))))
              secondInfo Hsecond Hinput2) as [later Hlater].
  rewrite Hlater. unfold call_for. cbn [assign] in Hdata2 |- *.
  now rewrite Hdata2.
Qed.

Lemma answer_is_handed_to_dependent_step_witness :
  nth_error
    (calls (run (System.answering (Resolved a_summary))
                (executePlan [log_analyzer_step; dependent_report_step]
                   some_logs)
                analyzer_and_reporter tt)) 1
    = Some ("http://localhost:5003/generate-report",
            JObj [ ("data", a_summary) ]).
Proof.
  assert (Hserved : served [log_analyzer_step; dependent_report_step]).
  { repeat (constructor; [simpl; auto 6 |]). constructor. }
  exact (proj2
           (answer_is_handed_to_dependent_step
              log_analyzer_step dependent_report_step [] some_logs
              analyzer_and_reporter unit
              (System.answering (Resolved a_summary)) tt
              (mkAgentInfo "log-analyzer" "http://localhost:5002" [])
              (mkAgentInfo "report-generator" "http://localhost:5003" [])
              a_summary Hserved eq_refl eq_refl eq_refl eq_refl eq_refl
              eq_refl)).
Defined.

(** X12: a falsy answer counts as no answer, in a plan over the agents of
    the endpoint table: when the first step takes the user's data, the
    second takes its input from the agent of the first, both agents are
    registered and the first agent answers with [false], [0] or the empty
    string, the second step is not run; the plan fails with "Dependency not
    met: <agent of the first step> has no results" and the call to the
    first agent is the only one sent. *)
Theorem falsy_answer_is_no_result :
  forall (first second : PlanStep) (after : list PlanStep)
         (initialData : option Json) (registry : AgentRegistry) (W : Type)
         (net : W -> string -> Json -> AxiosResult * W) (w : W)
         (firstInfo secondInfo : AgentInfo) (answer : Json),
    served (first :: second :: after) ->
    inputFrom first = "user" ->
    inputFrom second = agent first ->
    lookup (agent first) registry = Some firstInfo ->
    lookup (agent second) registry = Some secondInfo ->
    fst (net w (fst (call_for firstInfo first initialData))
               (snd (call_for firstInfo first initialData)))
      = Resolved answer ->
    answer <> JNull ->
    truthy (Some answer) = false ->
    result (run net (executePlan (first :: second :: after) initialData)
                registry w)
      = inr ("Dependency not met: " ++ agent first ++ " has no results") /\
    calls (run net (executePlan (first :: second :: after) initialData)
               registry w)
      = [ call_for firstInfo first initialData ].
Proof.
  intros first second after initialData registry W net w firstInfo secondInfo
         answer Hserved Huser Hfrom Hfirst Hsecond Hnet Hnonnull Hfalsy.
  assert (Hnot_user : agent first <> "user").
  { apply served_not_user. now inversion Hserved as [| ? ? [? _] _]. }
  assert (Hinput1 : has_input [] first = true).
  { unfold has_input. now rewrite Huser. }
  assert (Hdata1 : input_for initialData [] first = initialData).
  { unfold input_for. now rewrite Huser. }
  assert (Hinput2 : has_input [(agent first, answer)] second = false).
  { unfold has_input. rewrite Hfrom. simpl. rewrite String.eqb_refl, Hfalsy.
    apply String.eqb_neq in Hnot_user. now rewrite Hnot_user. }
  unfold call_for in *. cbn [fst snd] in Hnet.
  unfold executePlan. cbn [run logged calls result].
  rewrite (run_step_resolved net registry initialData first _ 0 [] [] w
             firstInfo answer Hfirst Hinput1)
    by (rewrite ?Hdata1; assumption).
  rewrite Hdata1. cbn [assign].
  rewrite (run_step_no_input net registry initialData second after 1 _ _ _
             secondInfo Hsecond Hinput2).
  unfold logged, called. cbn [calls result]. rewrite Hfrom.
  split; reflexivity.
Qed.

Lemma falsy_answer_is_no_result_witness :
  result (run (System.answering (Resolved (JBool false)))
              (executePlan [log_analyzer_step; dependent_report_step]
                 some_logs)
              analyzer_and_reporter tt)
    = inr "Dependency not met: log-analyzer has no results".
Proof.
  assert (Hserved : served [log_analyzer_step; dependent_report_step]).
  { repeat (constructor; [simpl; auto 6 |]). constructor. }
  assert (Hnonnull : JBool false <> JNull) by discriminate.
  exact (proj1
           (falsy_answer_is_no_result
              log_analyzer_step dependent_report_step [] some_logs
              analyzer_and_reporter unit
              (System.answering (Resolved (JBool false))) tt
              (mkAgentInfo "log-analyzer" "http://localhost:5002" [])
              (mkAgentInfo "report-generator" "http://localhost:5003" [])
              (JBool false) Hserved eq_refl eq_refl eq_refl eq_refl eq_refl
              Hnonnull eq_refl)).
Defined.



Section Liveness.
Context {W : Type}.
Variable net : W -> string -> Json -> AxiosResult * W.
Variable registry : AgentRegistry.
Variable initialData : option Json.
Hypothesis Hanswers : answers_truthy net.

Lemma live_executeSteps steps known i results executionTrace w :
  well_ordered known steps ->
  (forall step, In step steps -> lookup (agent step) registry <> None) ->
  (forall k, In k known -> truthy (lookup k results) = true) ->
  exists done,
    result (run net (executeSteps initialData steps i results executionTrace)
                registry w) = inl done /\
    (forall k, In k known \/ In k (map agent steps) ->
               truthy (lookup k (Orchestrator.results done)) = true).
Proof.
  revert known i results executionTrace w.
  induction steps as [| step rest IH];
    intros known i rs tr w Hordered Hregistered Hknown.
  - eexists. split; [reflexivity |]. simpl. intros k [Hk | []]. now apply Hknown.
  - destruct Hordered as [Hsource Hordered].
    destruct (lookup (agent step) registry) as [agentInfo |] eqn:Hfound;
      [| now destruct (Hregistered step (or_introl eq_refl))].
    assert (Hinput : has_input rs step = true).
    { unfold has_input. destruct Hsource as [-> | Hin]; [reflexivity |].
      rewrite (Hknown _ Hin). apply orb_true_r. }
    destruct (Hanswers w
                (url agentInfo ++ getEndpointForTask (agent step) (task step))
                (JObj (field "data" (input_for initialData rs step))))
      as (response_data & Hnet & Htruthy).
    assert (Hnonnull : response_data <> JNull) by (intros ->; discriminate).
    rewrite (run_step_resolved net registry initialData step rest i rs tr w
               agentInfo response_data Hfound Hinput Hnet Hnonnull).
    unfold logged, called. cbn [result].
    destruct (IH (agent step :: known) (S i)
                (assign (agent step) response_data rs)
                (tr ++ [trace_line step response_data])%list
                (snd (net w (url agentInfo
                             ++ getEndpointForTask (agent step) (task step))
                          (JObj (field "data" (input_for initialData rs step)))))
                Hordered)
      as (done & Hdone & Hresults).
    + intros step' Hin. apply Hregistered. now right.
    + intros k Hin. destruct (string_dec k (agent step)) as [-> | Hne].
      * now rewrite lookup_assign_same.
      * rewrite lookup_assign_other by exact Hne.
        destruct Hin as [Heq | Hin]; [congruence | now apply Hknown].
    + exists done. split; [exact Hdone |].
      intros k Hin. apply Hresults. simpl in *. tauto.
Qed.
End Liveness.

(** X14: when the network answers: a plan over the agents of the endpoint
    table, in which every step takes its input from the user or from the
    agent of an earlier step, completes when all its agents are registered
    and every call is answered with a truthy body; every agent of the plan
    then has a truthy result. *)
Theorem answered_plan_completes :
  forall (plan : list PlanStep) (initialData : option Json)
         (registry : AgentRegistry) (W : Type)
         (net : W -> string -> Json -> AxiosResult * W) (w : W),
    served plan ->
    well_ordered [] plan ->
    (forall step, In step plan -> lookup (agent step) registry <> None) ->
    answers_truthy net ->
    exists done,
      result (run net (executePlan plan initialData) registry w) = inl done /\
      success done = true /\
      (forall step, In step plan ->
                    truthy (lookup (agent step) (results done)) = true).
Proof.
  intros plan initialData registry W net w _ Hordered Hregistered Hanswers.
  unfold executePlan. cbn [run logged result].
  destruct (live_executeSteps net registry initialData Hanswers plan [] 0 [] []
              w Hordered Hregistered) as (done & Hdone & Hresults).
  - intros k [].
  - exists done. split; [exact Hdone |]. split.
    + now apply completed_executeSteps in Hdone.
    + intros step Hin. apply Hresults. right. now apply in_map.
Qed.

Lemma answered_plan_completes_witness :
  exists done,
    result (run (System.answering (Resolved a_summary))
                (executePlan [log_analyzer_step; dependent_report_step]
                   some_logs)
                analyzer_and_reporter tt) = inl done /\
    success done = true /\
    (forall step, In step [log_analyzer_step; dependent_report_step] ->
                  truthy (lookup (agent step) (results done)) = true).
Proof.
  apply (answered_plan_completes
           [log_analyzer_step; dependent_report_step] some_logs
           analyzer_and_reporter unit
           (System.answering (Resolved a_summary)) tt).
  - repeat (constructor; [simpl; auto 6 |]). constructor.
  - simpl. auto.
  - intros step [<- | [<- | []]]; discriminate.
  - intros w u b. exists a_summary. split; reflexivity.
Defined.

(** ** The [/plan-and-run] route *)

Lemma served_planned (request : string) : served (planned request).
Proof.
  destruct (planned_shapes request) as [-> | [-> | [-> | [-> | ->]]]];
    repeat (constructor; [simpl; auto 6 |]); constructor.
Qed.

Lemma planned_at_most_two (request : string) :
  List.length (planned request) <= 2.
Proof.
  destruct (planned_shapes request) as [-> | [-> | [-> | [-> | ->]]]];
    simpl; lia.
Qed.

(** X15: the handler relays the executor: for a request with a plan, it
    answers 200 with the request, the plan and the executor's result when
    the executor completes, and 500 with the executor's error message when
    the executor fails. *)
Theorem planAndRun_relays_the_executor :
  forall (text : string) (payload : option Json) (registry : AgentRegistry)
         (W : Type) (net : W -> string -> Json -> AxiosResult * W) (w : W),
    text <> "" ->
    planned text <> [] ->
    (forall done,
        result (run net (executePlan (planned text)
                           (or_else payload (Some (JStr text)))) registry w)
          = inl done ->
        result (run net (planAndRun {| request := Some text; data := payload |})
                    registry w)
          = inl (json (JObj
               [ ("request", JStr text);
                 ("plan", plan_json (planned text));
                 ("success", JBool (success done));
                 ("results", JObj (results done));
                 ("executionTrace",
                  JArr (map JStr (executionTrace done))) ]))) /\
    (forall message,
        result (run net (executePlan (planned text)
                           (or_else payload (Some (JStr text)))) registry w)
          = inr message ->
        result (run net (planAndRun {| request := Some text; data := payload |})
                    registry w)
          = inl (status_json 500 (JObj [ ("error", JStr message) ])) /\
        In (ErrExecution message)
           (console (run net (planAndRun {| request := Some text;
                                            data := payload |})
                         registry w))).
Proof.
  intros text payload registry W net w Hne Hplan.
  rewrite (run_planAndRun_planned text payload W net registry w Hne Hplan).
  unfold executePlan, relayed. cbn [run logged result].
  split.
  - intros done ->. reflexivity.
  - intros message ->. cbn [result console]. split; [reflexivity |].
    apply in_or_app. right. apply in_or_app. right. now left.
Qed.

Lemma planAndRun_relays_the_executor_witness :
  result (run System.unreachable
              (planAndRun {| request := Some "analyze the logs";
                             data := None |})
              analyzer_only tt)
    = inl (status_json 500
             (JObj [ ("error",
                      JStr "Failed to execute log-analyzer: connect ECONNREFUSED")
                   ])).
Proof.
  assert (Hne : "analyze the logs" <> "") by discriminate.
  assert (Hplan : planned "analyze the logs" <> []) by discriminate.
  exact (proj1 (proj2 (planAndRun_relays_the_executor
                         "analyze the logs" None analyzer_only unit
                         System.unreachable tt Hne Hplan)
                      "Failed to execute log-analyzer: connect ECONNREFUSED"
                      eq_refl)).
Defined.

(** X16: the handler always answers: whatever the body, the registry and the
    network, it returns a response and throws nothing; the status is 200,
    400 or 500; [success] is never false in the body, a failed plan being a
    500; and at most two calls are sent. *)
Theorem planAndRun_always_answers :
  forall (req : PlanAndRunRequest) (registry : AgentRegistry)
         (W : Type) (net : W -> string -> Json -> AxiosResult * W) (w : W),
    exists answer,
      result (run net (planAndRun req) registry w) = inl answer /\
      (status answer = 200 \/ status answer = 400 \/ status answer = 500) /\
      prop (body answer) "success" <> Some (JBool false) /\
      List.length (calls (run net (planAndRun req) registry w)) <= 2.
Proof.
  intros [[text |] payload] registry W net w.
  - destruct (String.eqb text "") eqn:Hempty.
    + exists missing_request. unfold planAndRun. cbn [request data].
      rewrite Hempty. simpl. repeat split; auto; try discriminate; try lia.
    + apply String.eqb_neq in Hempty.
      destruct (planned text) as [| step rest] eqn:Hplan.
      * exists no_agents_matched. unfold planAndRun. cbn [request data].
        apply String.eqb_neq in Hempty. rewrite Hempty.
        rewrite run_catch, generatePlan_planned. cbn [bind]. rewrite Hplan.
        simpl. repeat split; auto; try discriminate; try lia.
      * assert (Hsome : planned text <> []) by (rewrite Hplan; discriminate).
        rewrite (run_planAndRun_planned text payload W net registry w
                   Hempty Hsome).
        unfold relayed.
        pose proof (calls_at_most_steps net registry
                      (or_else payload (Some (JStr text))) (planned text)
                      0 [] [] w) as Hcalls.
        pose proof (planned_at_most_two text) as Htwo.
        destruct (result (run net (executeSteps _ (planned text) 0 [] [])
                              registry w)) as [done | message] eqn:Hdone.
        -- apply completed_executeSteps in Hdone.
           destruct Hdone as (Hsuccess & _).
           eexists. cbn [result calls]. split; [reflexivity |].
           simpl. rewrite Hsuccess.
           repeat split; auto; try discriminate; try lia.
        -- eexists. cbn [result calls]. split; [reflexivity |].
           simpl. repeat split; auto; try discriminate; try lia.
  - exists missing_request. simpl. repeat split; auto; try discriminate; try lia.
Qed.

(** X17: the happy path of the route: for a request with a plan, when every
    agent of the plan is registered and every call is answered with a truthy
    body, the handler answers 200 with [success] true, and the [results]
    hold a truthy result for every agent of the plan. *)
Theorem planAndRun_succeeds_when_agents_answer :
  forall (text : string) (payload : option Json) (registry : AgentRegistry)
         (W : Type) (net : W -> string -> Json -> AxiosResult * W) (w : W),
    text <> "" ->
    planned text <> [] ->
    (forall step, In step (planned text) ->
                  lookup (agent step) registry <> None) ->
    answers_truthy net ->
    exists done,
      result (run net (planAndRun {| request := Some text; data := payload |})
                  registry w)
        = inl (json (JObj
             [ ("request", JStr text);
               ("plan", plan_json (planned text));
               ("success", JBool true);
               ("results", JObj (results done));
               ("executionTrace", JArr (map JStr (executionTrace done))) ])) /\
      (forall step, In step (planned text) ->
                    truthy (lookup (agent step) (results done)) = true).
Proof.
  intros text payload registry W net w Hne Hplan Hregistered Hanswers.
  rewrite (run_planAndRun_planned text payload W net registry w Hne Hplan).
  unfold relayed.
  destruct (live_executeSteps net registry (or_else payload (Some (JStr text)))
              Hanswers (planned text) [] 0 [] [] w
              (planned_well_ordered text) Hregistered)
    as (done & Hdone & Hresults).
  - intros k [].
  - exists done. rewrite Hdone. cbn [result].
    apply completed_executeSteps in Hdone. destruct Hdone as (-> & _).
    split; [reflexivity |].
    intros step Hin. apply Hresults. right. now apply in_map.
Qed.

Lemma planAndRun_succeeds_when_agents_answer_witness :
  exists done,
    result (run (System.answering (Resolved a_summary))
                (planAndRun {| request := Some "analyze the logs";
                               data := None |})
                analyzer_only tt)
      = inl (json (JObj
           [ ("request", JStr "analyze the logs");
             ("plan", plan_json (planned "analyze the logs"));
             ("success", JBool true);
             ("results", JObj (results done));
             ("executionTrace", JArr (map JStr (executionTrace done))) ])) /\
    (forall step, In step (planned "analyze the logs") ->
                  truthy (lookup (agent step) (results done)) = true).
Proof.
  apply (planAndRun_succeeds_when_agents_answer
           "analyze the logs" None analyzer_only unit
           (System.answering (Resolved a_summary)) tt).
  - discriminate.
  - discriminate.
  - intros step [<- | []]. discriminate.
  - intros w u b. exists a_summary. split; reflexivity.
Defined.

(** X18: where the orchestrator calls: every call of [/plan-and-run] goes to
    the registered address of the sanitizer, the log-analyzer or the
    report-generator, at that agent's endpoint of the endpoint table. *)
Theorem planAndRun_calls_registered_agents :
  forall (req : PlanAndRunRequest) (registry : AgentRegistry)
         (W : Type) (net : W -> string -> Json -> AxiosResult * W) (w : W)
         (call : string * Json),
    In call (calls (run net (planAndRun req) registry w)) ->
    exists agentInfo name endpoint,
      In (name, endpoint) [ ("sanitizer", "/sanitize");
                            ("log-analyzer", "/analyze");
                            ("report-generator", "/generate-report") ] /\
      lookup name registry = Some agentInfo /\
      fst call = url agentInfo ++ endpoint.
Proof.
  intros [[text |] payload] registry W net w call Hin;
    [| destruct Hin].
  destruct (String.eqb text "") eqn:Hempty.
  - unfold planAndRun in Hin. cbn [request data] in Hin.
    rewrite Hempty in Hin. destruct Hin.
  - apply String.eqb_neq in Hempty.
    rewrite calls_planAndRun in Hin by exact Hempty.
    apply In_nth_error in Hin. destruct Hin as [n Hnth].
    apply calls_executeSteps in Hnth.
    destruct Hnth as (step & agentInfo & Hstep & Hfound & Hurl & _).
    apply nth_error_In in Hstep.
    exists agentInfo, (agent step),
           (getEndpointForTask (agent step) (task step)).
    split; [| split; assumption].
    destruct (planned_shapes text) as [H | [H | [H | [H | H]]]];
      rewrite H in Hstep; simpl in Hstep;
      repeat match goal with
      | H : _ \/ _ |- _ => destruct H as [<- | H]
      | H : False |- _ => destruct H
      end;
      unfold getEndpointForTask; simpl; auto.
Qed.

Lemma planAndRun_calls_registered_agents_witness :
  exists agentInfo name endpoint,
    In (name, endpoint) [ ("sanitizer", "/sanitize");
                          ("log-analyzer", "/analyze");
                          ("report-generator", "/generate-report") ] /\
    lookup name analyzer_only = Some agentInfo /\
    fst ("http://localhost:5002/analyze",
         JObj [ ("data", JStr "analyze the logs") ])
      = url agentInfo ++ endpoint.
Proof.
  apply (planAndRun_calls_registered_agents
           {| request := Some "analyze the logs"; data := None |}
           analyzer_only unit System.unreachable tt
           ("http://localhost:5002/analyze",
            JObj [ ("data", JStr "analyze the logs") ])).
  simpl. now left.
Defined.

(** ** The analyzer: what the counts can be *)

Lemma matches_at_index (R : RegExp) (n : nat) (s : string) :
  matches (at_index R n) s = matches R s.
Proof. reflexivity. Qed.

Lemma count_matching_app (R : RegExp) (lines more : list string) :
  count_matching R (lines ++ more)
    = count_matching R lines + count_matching R more.
Proof.
  unfold count_matching. now rewrite filter_app, length_app.
Qed.

Lemma points_at_more (R : RegExp) (lines more : list string) (f : Finding) :
  points_at R lines f -> points_at R (lines ++ more) f.
Proof.
  intros (l & Hone & Hnth & Htext & Hm). exists l. repeat split; auto.
  rewrite nth_error_app1; [exact Hnth |].
  apply nth_error_Some. congruence.
Qed.

Lemma points_at_last (R : RegExp) (seen : list string) (l : string) :
  matches R l = true ->
  points_at R (seen ++ [l])
    {| line := List.length seen + 1; text := substring 0 100 l |}.
Proof.
  intros Hm. exists l. cbn [line text]. repeat split; auto; [lia |].
  rewrite nth_error_app2 by lia.
  replace (List.length seen + 1 - 1 - List.length seen) with 0 by lia.
  reflexivity.
Qed.

Lemma test_at_index (R : RegExp) (s : string) (n : nat) :
  global R = true ->
  exists n',
    snd (test (at_index R n) s) = at_index R n' /\
    (fst (test (at_index R n) s) = true -> matches R s = true) /\
    (matches R s = false -> n' = 0).
Proof.
  intros Hglobal. destruct (matches R s) eqn:Hm.
  - destruct (test_keeps_pattern R Hglobal s n) as [n' Hn'].
    exists n'. repeat split; auto; discriminate.
  - exists 0. rewrite (test_miss R Hglobal s n Hm).
    repeat split; auto; discriminate.
Qed.

Lemma tallied_start (lc le lw li : nat) :
  tallied [] (start (with_indices lc le lw li)).
Proof.
  constructor; simpl; try lia; try constructor.
  now exists lc, le, lw, li.
Qed.

Lemma tallied_visit (seen : list string) (t : Tally) (l : string) :
  tallied seen t ->
  tallied (seen ++ [l]) (visit t l (List.length seen)).
Proof.
  intros [(lc & le & lw & li & Hp) Htotal Hc He Hw Hcle Hele Hwle Hile
          Hcat Heat Hwat].
  destruct (test_at_index (critical ERROR_PATTERNS) l lc eq_refl)
    as (lc' & Hc' & Hchit & _).
  destruct (test_at_index (error ERROR_PATTERNS) l le eq_refl)
    as (le' & He' & Hehit & _).
  destruct (test_at_index (warning ERROR_PATTERNS) l lw eq_refl)
    as (lw' & Hw' & Hwhit & _).
  destruct (test_at_index (info ERROR_PATTERNS) l li eq_refl)
    as (li' & Hi' & Hihit & _).
  assert (Hmore : forall R fs,
             Forall (points_at R seen) fs ->
             Forall (points_at R (seen ++ [l])) fs).
  { intros R fs H. eapply Forall_impl; [| exact H].
    intros f. apply points_at_more. }
  assert (Hcount : forall R,
             count_matching R (seen ++ [l])
               = count_matching R seen + (if matches R l then 1 else 0)).
  { intros R. rewrite count_matching_app, count_matching_cons.
    change (count_matching R []) with 0. lia. }
  unfold visit. rewrite Hp.
  change (critical (with_indices lc le lw li))
    with (at_index (critical ERROR_PATTERNS) lc).
  change (error (with_indices lc le lw li))
    with (at_index (error ERROR_PATTERNS) le).
  change (warning (with_indices lc le lw li))
    with (at_index (warning ERROR_PATTERNS) lw).
  change (info (with_indices lc le lw li))
    with (at_index (info ERROR_PATTERNS) li).
  cbv zeta. rewrite Hc', He', Hw', Hi'.
  destruct (fst (test (at_index (critical ERROR_PATTERNS) lc) l)) eqn:Hch.
  { specialize (Hchit eq_refl).
    constructor; cbn [patterns criticalCount errorCount warningCount infoCount
                      findings_critical findings_errors findings_warnings];
      rewrite ?length_app, ?Hcount, ?Hchit; cbn [List.length];
      try lia; try (now apply Hmore);
      try (repeat match goal with
                  | |- context [matches ?R l] => destruct (matches R l)
                  end; lia).
    - now exists lc', le, lw, li.
    - apply Forall_app. split; [now apply Hmore |].
      constructor; [| constructor]. now apply points_at_last. }
  destruct (fst (test (at_index (error ERROR_PATTERNS) le) l)) eqn:Heh.
  { specialize (Hehit eq_refl).
    constructor; cbn [patterns criticalCount errorCount warningCount infoCount
                      findings_critical findings_errors findings_warnings];
      rewrite ?length_app, ?Hcount, ?Hehit; cbn [List.length];
      try lia; try (now apply Hmore);
      try (repeat match goal with
                  | |- context [matches ?R l] => destruct (matches R l)
                  end; lia).
    - now exists lc', le', lw, li.
    - apply Forall_app. split; [now apply Hmore |].
      constructor; [| constructor]. now apply points_at_last. }
  destruct (fst (test (at_index (warning ERROR_PATTERNS) lw) l)) eqn:Hwh.
  { specialize (Hwhit eq_refl).
    constructor; cbn [patterns criticalCount errorCount warningCount infoCount
                      findings_critical findings_errors findings_warnings];
      rewrite ?length_app, ?Hcount, ?Hwhit; cbn [List.length];
      try lia; try (now apply Hmore);
      try (repeat match goal with
                  | |- context [matches ?R l] => destruct (matches R l)
                  end; lia).
    - now exists lc', le', lw', li.
    - apply Forall_app. split; [now apply Hmore |].
      constructor; [| constructor]. now apply points_at_last. }
  destruct (fst (test (at_index (info ERROR_PATTERNS) li) l)) eqn:Hih.
  { specialize (Hihit eq_refl).
    constructor; cbn [patterns criticalCount errorCount warningCount infoCount
                      findings_critical findings_errors findings_warnings];
      rewrite ?length_app, ?Hcount, ?Hihit; cbn [List.length];
      try lia; try (now apply Hmore);
      try (repeat match goal with
                  | |- context [matches ?R l] => destruct (matches R l)
                  end; lia).
    now exists lc', le', lw', li'. }
  constructor; cbn [patterns criticalCount errorCount warningCount infoCount
                    findings_critical findings_errors findings_warnings];
    rewrite ?length_app, ?Hcount; cbn [List.length];
    try lia; try (now apply Hmore);
    try (repeat match goal with
                | |- context [matches ?R l] => destruct (matches R l)
                end; lia).
  now exists lc', le', lw', li'.
Qed.

Lemma forEach_cons (l : string) (rest : list string) (index : nat)
  (t : Tally) :
  forEach (l :: rest) index t = forEach rest (S index) (visit t l index).
Proof. reflexivity. Qed.

Lemma tallied_forEach (lines seen : list string) (t : Tally) :
  tallied seen t ->
  tallied (seen ++ lines) (forEach lines (List.length seen) t).
Proof.
  revert seen t. induction lines as [| l rest IH]; intros seen t Ht.
  - now rewrite app_nil_r.
  - rewrite forEach_cons.
    replace (S (List.length seen)) with (List.length (seen ++ [l]))
      by (rewrite length_app; simpl; lia).
    replace (seen ++ l :: rest)%list with ((seen ++ [l]) ++ rest)%list
      by now rewrite <- app_assoc.
    apply IH, tallied_visit, Ht.
Qed.

(** X19: the counts never exceed what the text holds, in whatever state
    earlier requests left the patterns: the four counts together are at most
    the number of lines, and each count is at most the number of lines that
    hold a match of its pattern. *)
Theorem counts_never_exceed_the_matching_lines :
  forall (lines : list string) (lc le lw li : nat),
    criticalCount (forEach lines 0 (start (with_indices lc le lw li)))
    + errorCount (forEach lines 0 (start (with_indices lc le lw li)))
    + warningCount (forEach lines 0 (start (with_indices lc le lw li)))
    + infoCount (forEach lines 0 (start (with_indices lc le lw li)))
      <= List.length lines /\
    criticalCount (forEach lines 0 (start (with_indices lc le lw li)))
      <= count_matching (critical ERROR_PATTERNS) lines /\
    errorCount (forEach lines 0 (start (with_indices lc le lw li)))
      <= count_matching (error ERROR_PATTERNS) lines /\
    warningCount (forEach lines 0 (start (with_indices lc le lw li)))
      <= count_matching (warning ERROR_PATTERNS) lines /\
    infoCount (forEach lines 0 (start (with_indices lc le lw li)))
      <= count_matching (info ERROR_PATTERNS) lines.
Proof.
  intros lines lc le lw li.
  destruct (tallied_forEach lines [] _ (tallied_start lc le lw li)).
  cbn [List.length app] in *. repeat split; assumption.
Qed.

(** X20: every finding is backed by the text, in whatever state earlier
    requests left the patterns: there is one finding per counted critical,
    error and warning line, and each finding carries the number of a line
    that holds a match of its pattern and the first 100 code units of that
    line. *)
Theorem findings_point_at_matching_lines :
  forall (lines : list string) (lc le lw li : nat),
    List.length
      (findings_critical (forEach lines 0 (start (with_indices lc le lw li))))
      = criticalCount (forEach lines 0 (start (with_indices lc le lw li))) /\
    List.length
      (findings_errors (forEach lines 0 (start (with_indices lc le lw li))))
      = errorCount (forEach lines 0 (start (with_indices lc le lw li))) /\
    List.length
      (findings_warnings (forEach lines 0 (start (with_indices lc le lw li))))
      = warningCount (forEach lines 0 (start (with_indices lc le lw li))) /\
    Forall (points_at (critical ERROR_PATTERNS) lines)
      (findings_critical (forEach lines 0 (start (with_indices lc le lw li)))) /\
    Forall (points_at (error ERROR_PATTERNS) lines)
      (findings_errors (forEach lines 0 (start (with_indices lc le lw li)))) /\
    Forall (points_at (warning ERROR_PATTERNS) lines)
      (findings_warnings (forEach lines 0 (start (with_indices lc le lw li)))).
Proof.
  intros lines lc le lw li.
  destruct (tallied_forEach lines [] _ (tallied_start lc le lw li)).
  cbn [List.length app] in *. repeat split; assumption.
Qed.

(** ** The analyzer: the patterns between requests *)

Lemma forEach_app (lines more : list string) (index : nat) (t : Tally) :
  forEach (lines ++ more) index t
    = forEach more (index + List.length lines) (forEach lines index t).
Proof.
  revert index t. induction lines as [| l rest IH]; intros index t.
  - cbn [app List.length]. now rewrite Nat.add_0_r.
  - cbn [app List.length]. rewrite !forEach_cons, IH. f_equal. lia.
Qed.

Lemma visit_quiet (t : Tally) (l : string) (index lc le lw li : nat) :
  patterns t = with_indices lc le lw li ->
  quiet l = true ->
  patterns (visit t l index) = ERROR_PATTERNS.
Proof.
  intros Hp Hquiet. unfold quiet in Hquiet.
  repeat (apply andb_true_iff in Hquiet; destruct Hquiet as [Hquiet ?]).
  repeat match goal with
         | H : negb _ = true |- _ => apply negb_true_iff in H
         end.
  unfold visit. rewrite Hp.
  change (critical (with_indices lc le lw li))
    with (at_index (critical ERROR_PATTERNS) lc).
  change (error (with_indices lc le lw li))
    with (at_index (error ERROR_PATTERNS) le).
  change (warning (with_indices lc le lw li))
    with (at_index (warning ERROR_PATTERNS) lw).
  change (info (with_indices lc le lw li))
    with (at_index (info ERROR_PATTERNS) li).
  cbv zeta.
  rewrite (test_miss (critical ERROR_PATTERNS) eq_refl l lc) by assumption.
  rewrite (test_miss (error ERROR_PATTERNS) eq_refl l le) by assumption.
  rewrite (test_miss (warning ERROR_PATTERNS) eq_refl l lw) by assumption.
  rewrite (test_miss (info ERROR_PATTERNS) eq_refl l li) by assumption.
  reflexivity.
Qed.

Lemma split_cons (sep c : ascii) (rest : string) :
  split sep (String c rest) =
    if Ascii.eqb c sep then "" :: split sep rest
    else match split sep rest with
         | piece :: pieces => String c piece :: pieces
         | [] => [String c ""]
         end.
Proof. reflexivity. Qed.

Lemma split_nonempty (sep : ascii) (s : string) : split sep s <> [].
Proof.
  destruct s as [| c s]; [discriminate |].
  rewrite split_cons. destruct (Ascii.eqb c sep); [discriminate |].
  destruct (split sep s); discriminate.
Qed.

Lemma split_trailing (sep : ascii) (s : string) :
  split sep (s ++ String sep "") = (split sep s ++ [""])%list.
Proof.
  induction s as [| c s IH]; cbn [append].
  - rewrite split_cons, Ascii.eqb_refl. reflexivity.
  - rewrite !split_cons.
    destruct (Ascii.eqb c sep); rewrite IH; [reflexivity |].
    pose proof (split_nonempty sep s) as Hsome.
    destruct (split sep s); [congruence | reflexivity].
Qed.

(** ** The [/analyze] handler: every answer *)

Section AnalyzeFacts.
Context {W : Type}.
Variable SANITIZER_URL : string.
Variable net : W -> string -> Json -> AxiosResult * W.

(** The run of the handler when the sanitizer's answer carries a string
    as [sanitized]. *)
Lemma run_analyze_sanitized (p : ErrorPatterns) (data : option Json) (w : W)
  (response_data : Json) (sanitized : string) :
  truthy data = true ->
  fst (net w (SANITIZER_URL ++ "/sanitize") (JObj (field "data" data)))
    = Resolved response_data ->
  prop response_data "sanitized" = Some (JStr sanitized) ->
  result (run net (analyze SANITIZER_URL data) p w)
    = inl (analysis_response SANITIZER_URL (split newline sanitized)
             (forEach (split newline sanitized) 0 (start p))
             (Some (JObj (field "count" (prop response_data "count")
                          ++ field "message"
                               (prop response_data "message"))%list))) /\
  state (run net (analyze SANITIZER_URL data) p w)
    = patterns (forEach (split newline sanitized) 0 (start p)) /\
  calls (run net (analyze SANITIZER_URL data) p w)
    = [ (SANITIZER_URL ++ "/sanitize", JObj (field "data" data)) ].
Proof.
  intros Htruthy Hnet Hsanitized. unfold analyze. rewrite Htruthy. simpl.
  rewrite Hnet.
  destruct response_data; try discriminate Hsanitized.
  rewrite Hsanitized. simpl. repeat split.
Qed.

(** The run of the handler when the sanitizer's call is rejected. *)
Lemma run_analyze_rejected (p : ErrorPatterns) (text : string) (w : W)
  (response : option Json) (message : string) :
  text <> "" ->
  fst (net w (SANITIZER_URL ++ "/sanitize") (JObj [ ("data", JStr text) ]))
    = Rejected response message ->
  result (run net (analyze SANITIZER_URL (Some (JStr text))) p w)
    = inl (analysis_response SANITIZER_URL (split newline text)
             (forEach (split newline text) 0 (start p)) None) /\
  state (run net (analyze SANITIZER_URL (Some (JStr text))) p w)
    = patterns (forEach (split newline text) 0 (start p)).
Proof.
  intros Hne Hnet. apply String.eqb_neq in Hne.
  unfold analyze, truthy. rewrite Hne. simpl. unfold field. simpl.
  rewrite Hnet. simpl. split; reflexivity.
Qed.

Lemma state_analyze_kept (p : ErrorPatterns) (text : string) (w : W) :
  text <> "" ->
  keeps_text text
    (fst (net w (SANITIZER_URL ++ "/sanitize") (JObj [ ("data", JStr text) ]))) ->
  state (run net (analyze SANITIZER_URL (Some (JStr text))) p w)
    = patterns (forEach (split newline text) 0 (start p)).
Proof.
  intros Hne Hkeeps.
  destruct (fst (net w (SANITIZER_URL ++ "/sanitize")
                   (JObj [ ("data", JStr text) ])))
    as [response_data | response message] eqn:Hnet.
  - apply (run_analyze_sanitized p (Some (JStr text)) w response_data text).
    + unfold truthy. apply String.eqb_neq in Hne. now rewrite Hne.
    + exact Hnet.
    + exact Hkeeps.
  - now apply (run_analyze_rejected p text w response message).
Qed.
End AnalyzeFacts.



(** X22: a sanitizer that answers without a text breaks the analysis: when
    the nested call succeeds and the body, not [null], carries no string as
    [sanitized], [/analyze] answers 500 with an error message; nothing is
    counted and the patterns are left as they were. Only a call that fails
    is survived. *)
Theorem answer_without_sanitized_text_is_an_error :
  forall (SANITIZER_URL : string) (p : ErrorPatterns) (data : option Json)
         (W : Type) (net : W -> string -> Json -> AxiosResult * W) (w : W)
         (response_data : Json),
    truthy data = true ->
    fst (net w (SANITIZER_URL ++ "/sanitize") (JObj (field "data" data)))
      = Resolved response_data ->
    response_data <> JNull ->
    (forall sanitized,
        prop response_data "sanitized" <> Some (JStr sanitized)) ->
    exists message,
      result (run net (analyze SANITIZER_URL data) p w)
        = inl (status_json 500 (JObj [ ("error", JStr message) ])) /\
      In (ErrAnalysis message)
         (console (run net (analyze SANITIZER_URL data) p w)) /\
      state (run net (analyze SANITIZER_URL data) p w) = p.
Proof.
  intros SANITIZER_URL p data W net w response_data
         Htruthy Hnet Hnonnull Hnone.
  exists (split_type_error (prop response_data "sanitized")).
  unfold analyze. rewrite Htruthy. simpl. rewrite Hnet.
  destruct response_data as [| b | z | s | items | fields];
    try congruence; simpl; try (repeat split; tauto).
  destruct (lookup "sanitized" fields) as [[| b | z | s | items | fs] |] eqn:Hs;
    simpl; try (repeat split; tauto).
  now destruct (Hnone s).
Qed.

Lemma answer_without_sanitized_text_is_an_error_witness :
  exists message,
    result (run (System.answering (Resolved empty_answer))
                (analyze "http://localhost:5001"
                   (Some (JStr "ERROR: Connection failed")))
                ERROR_PATTERNS tt)
      = inl (status_json 500 (JObj [ ("error", JStr message) ])) /\
    In (ErrAnalysis message)
       (console (run (System.answering (Resolved empty_answer))
                     (analyze "http://localhost:5001"
                        (Some (JStr "ERROR: Connection failed")))
                     ERROR_PATTERNS tt)) /\
    state (run (System.answering (Resolved empty_answer))
               (analyze "http://localhost:5001"
                  (Some (JStr "ERROR: Connection failed")))
               ERROR_PATTERNS tt) = ERROR_PATTERNS.
Proof.
  apply (answer_without_sanitized_text_is_an_error
           "http://localhost:5001" ERROR_PATTERNS
           (Some (JStr "ERROR: Connection failed")) unit
           (System.answering (Resolved empty_answer)) tt empty_answer).
  - reflexivity.
  - reflexivity.
  - discriminate.
  - discriminate.
Defined.


(** X24: a quiet last line resets the patterns: when the text that is
    analysed, the data as the sanitizer left it unchanged, ends in a line
    that holds none of the keywords, the four patterns are back at index 0
    after the request, in whatever state they were before it; the next
    request is then counted as by a process just started. *)
Theorem quiet_last_line_leaves_patterns_fresh :
  forall (SANITIZER_URL : string) (lc le lw li : nat) (text : string)
         (W : Type) (net : W -> string -> Json -> AxiosResult * W) (w : W),
    text <> "" ->
    keeps_text text
      (fst (net w (SANITIZER_URL ++ "/sanitize")
              (JObj [ ("data", JStr text) ]))) ->
    quiet (last (split newline text) "") = true ->
    state (run net (analyze SANITIZER_URL (Some (JStr text)))
               (with_indices lc le lw li) w) = ERROR_PATTERNS.
Proof.
  intros SANITIZER_URL lc le lw li text W net w Hne Hkeeps Hquiet.
  rewrite (state_analyze_kept SANITIZER_URL net _ text w Hne Hkeeps).
  rewrite (app_removelast_last "" (split_nonempty newline text)).
  rewrite forEach_app, forEach_cons.
  destruct (tallied_forEach (removelast (split newline text)) [] _
              (tallied_start lc le lw li))
    as [(lc' & le' & lw' & li' & Hp) _ _ _ _ _ _ _ _ _ _ _].
  cbn [app List.length] in Hp.
  change (forEach [] ?i ?t) with t.
  now apply (visit_quiet _ _ _ lc' le' lw' li').
Qed.

Lemma quiet_last_line_leaves_patterns_fresh_witness :
  state (run System.unreachable
             (analyze "http://localhost:5001"
                (Some (JStr (text_of ["WARNING: Timeout"; ""]))))
             (with_indices 0 5 7 0) tt) = ERROR_PATTERNS.
Proof.
  assert (Hne : text_of ["WARNING: Timeout"; ""] <> "") by discriminate.
  exact (quiet_last_line_leaves_patterns_fresh
           "http://localhost:5001" 0 5 7 0
           (text_of ["WARNING: Timeout"; ""])
           unit System.unreachable tt Hne I eq_refl).
Defined.

(** ** The sanitizer *)

Lemma redact_cases (acc : Sanitizer.Pass) (entry : string * Sanitizer.RegExp) :
  (Sanitizer.match_all (snd entry) (Sanitizer.sanitized acc) = [] /\
   Sanitizer.redact acc entry = acc) \/
  (Sanitizer.match_all (snd entry) (Sanitizer.sanitized acc) <> [] /\
   Sanitizer.sanitized (Sanitizer.redact acc entry)
     = Sanitizer.replace (snd entry) (Sanitizer.sanitized acc)
         (token (fst entry)) /\
   Sanitizer.totalCount (Sanitizer.redact acc entry)
     = Sanitizer.totalCount acc
       + List.length (Sanitizer.match_all (snd entry)
                        (Sanitizer.sanitized acc)) /\
   List.length (Sanitizer.removed (Sanitizer.redact acc entry))
     = List.length (Sanitizer.removed acc)
       + List.length (Sanitizer.match_all (snd entry)
                        (Sanitizer.sanitized acc))).
Proof.
  unfold Sanitizer.redact.
  destruct (Sanitizer.match_all (snd entry) (Sanitizer.sanitized acc))
    as [| m rest]; [now left |].
  right. cbn [Sanitizer.sanitized Sanitizer.totalCount Sanitizer.removed].
  rewrite length_app, length_map. repeat split. discriminate.
Qed.

(** What holds after any number of rounds of the loop that started on
    [text]. *)
Lemma redact_rounds (text : string)
  (entries : list (string * Sanitizer.RegExp)) (acc : Sanitizer.Pass) :
  List.length (Sanitizer.removed acc) = Sanitizer.totalCount acc ->
  (Sanitizer.totalCount acc = 0 -> Sanitizer.sanitized acc = text) ->
  List.length (Sanitizer.removed (fold_left Sanitizer.redact entries acc))
    = Sanitizer.totalCount (fold_left Sanitizer.redact entries acc) /\
  (Sanitizer.totalCount (fold_left Sanitizer.redact entries acc) = 0 ->
   Sanitizer.sanitized (fold_left Sanitizer.redact entries acc) = text).
Proof.
  revert acc. induction entries as [| entry rest IH]; intros acc Hlen Hzero;
    [now split |].
  cbn [fold_left]. apply IH.
  - destruct (redact_cases acc entry) as [[_ ->] | (_ & _ & -> & ->)]; lia.
  - destruct (redact_cases acc entry) as [[_ ->] | (Hsome & _ & Hcount & _)];
      [exact Hzero |].
    intros H. rewrite Hcount in H.
    destruct (Sanitizer.match_all (snd entry) (Sanitizer.sanitized acc));
      [congruence | simpl in H; lia].
Qed.

Lemma redact_clean (text : string)
  (entries : list (string * Sanitizer.RegExp)) (acc : Sanitizer.Pass) :
  Forall (fun entry => Sanitizer.match_all (snd entry) text = []) entries ->
  Sanitizer.sanitized acc = text ->
  fold_left Sanitizer.redact entries acc = acc.
Proof.
  revert acc. induction entries as [| entry rest IH]; intros acc Hclean Htext;
    [reflexivity |].
  inversion Hclean as [| ? ? Hnone Hrest]; subst.
  cbn [fold_left].
  assert (Hsame : Sanitizer.redact acc entry = acc).
  { unfold Sanitizer.redact. now rewrite Hnone. }
  rewrite Hsame. now apply IH.
Qed.

Lemma status_sanitize (data : option Json) :
  status (fst (Sanitizer.sanitize data)) =
    if negb (truthy data) then 400
    else match data with
         | Some (JStr _) => 200
         | _ => 500
         end.
Proof.
  unfold Sanitizer.sanitize.
  destruct data as [[| b | z | s | items | fields] |]; [.. | reflexivity];
    now destruct (truthy _).
Qed.

(** X25: the handler always answers, and the status tells the data: 400 for
    data that is missing or falsy, 200 for a string that is not empty, 500
    for any other value. *)
Theorem sanitize_always_answers :
  forall data : option Json,
    (status (fst (Sanitizer.sanitize data)) = 200 \/
     status (fst (Sanitizer.sanitize data)) = 400 \/
     status (fst (Sanitizer.sanitize data)) = 500) /\
    (status (fst (Sanitizer.sanitize data)) = 400 <-> truthy data = false) /\
    (status (fst (Sanitizer.sanitize data)) = 200 <->
     exists text, data = Some (JStr text) /\ text <> "").
Proof.
  intros data. rewrite status_sanitize.
  destruct data as [[| b | z | s | items | fields] |]; unfold truthy;
    try destruct b; try destruct (Z.eqb z 0);
    try destruct (String.eqb_spec s ""); cbn [negb];
    (split; [auto |]); (split; [split; (discriminate || auto) |]);
    (split; [try discriminate | try (intros (text & [=] & Hne))]).
  - congruence.
  - intros _. now exists s.
  - reflexivity.
Qed.

Lemma sanitize_string (text : string) :
  text <> "" ->
  fst (Sanitizer.sanitize (Some (JStr text))) =
    json (JObj
      [ ("success", JBool true);
        ("sanitized",
         JStr (Sanitizer.sanitized
                 (fold_left Sanitizer.redact Sanitizer.PATTERNS
                            (unsanitized text))));
        ("removed",
         JArr (map JStr
                 (firstn 10
                    (Sanitizer.removed
                       (fold_left Sanitizer.redact Sanitizer.PATTERNS
                                  (unsanitized text))))));
        ("count",
         JNum (Z.of_nat
                 (Sanitizer.totalCount
                    (fold_left Sanitizer.redact Sanitizer.PATTERNS
                               (unsanitized text)))));
        ("message",
         JStr ("Sanitized "
               ++ string_of_nat
                    (Sanitizer.totalCount
                       (fold_left Sanitizer.redact Sanitizer.PATTERNS
                                  (unsanitized text)))
               ++ " sensitive items")) ]).
Proof.
  intros Hne. apply String.eqb_neq in Hne.
  unfold Sanitizer.sanitize, truthy. rewrite Hne. reflexivity.
Qed.

(** X26: what the sanitizer reports: for a string that is not empty the
    answer carries the sanitized text, the number of matches replaced and,
    of their descriptions, the first ten; a count of 0 comes with the text
    unchanged, and a text that holds no match of the six patterns comes back
    unchanged with the count 0. *)
Theorem sanitize_reports_what_it_replaced :
  forall text : string,
    text <> "" ->
    exists (cleaned : string) (listed : list string) (n : nat),
      fst (Sanitizer.sanitize (Some (JStr text))) =
        json (JObj
          [ ("success", JBool true);
            ("sanitized", JStr cleaned);
            ("removed", JArr (map JStr listed));
            ("count", JNum (Z.of_nat n));
            ("message",
             JStr ("Sanitized " ++ string_of_nat n ++ " sensitive items")) ]) /\
      List.length listed = Nat.min 10 n /\
      (n = 0 -> cleaned = text) /\
      (clean text -> cleaned = text /\ n = 0).
Proof.
  intros text Hne.
  destruct (redact_rounds text Sanitizer.PATTERNS (unsanitized text)
              eq_refl (fun _ => eq_refl)) as [Hlen Hzero].
  eexists _, _, _. split; [apply (sanitize_string text Hne) |].
  rewrite length_firstn, Hlen. split; [reflexivity |]. split.
  - exact Hzero.
  - intros Hclean.
    rewrite (redact_clean text Sanitizer.PATTERNS (unsanitized text) Hclean
               eq_refl).
    split; reflexivity.
Qed.

Lemma sanitize_reports_what_it_replaced_witness :
  exists (cleaned : string) (listed : list string) (n : nat),
    fst (Sanitizer.sanitize
           (Some (JStr "Email: test@example.com, IP: 192.168.1.1"))) =
      json (JObj
        [ ("success", JBool true);
          ("sanitized", JStr cleaned);
          ("removed", JArr (map JStr listed));
          ("count", JNum (Z.of_nat n));
          ("message",
           JStr ("Sanitized " ++ string_of_nat n ++ " sensitive items")) ]) /\
    List.length listed = Nat.min 10 n /\
    (n = 0 -> cleaned = "Email: test@example.com, IP: 192.168.1.1") /\
    (clean "Email: test@example.com, IP: 192.168.1.1" ->
     cleaned = "Email: test@example.com, IP: 192.168.1.1" /\ n = 0).
Proof.
  apply (sanitize_reports_what_it_replaced
           "Email: test@example.com, IP: 192.168.1.1").
  discriminate.
Defined.

(** ** The log-analyzer in front of the sanitizer *)

(** X27: the two agents together: when the nested call of [/analyze] is
    answered by the [/sanitize] handler, every string that is not empty is
    analysed.  With [sanitized] and [count] those of the handler's answer
    to that string, the answer of [/analyze] is the analysis of the lines
    of [sanitized], with [count] and the handler's message as
    [sanitization] and [agentToAgentCall.success] true; when [count] is 0,
    and so when the text holds no match of the sanitizer's patterns,
    [sanitized] is the text as it was sent. *)
Theorem analysis_behind_the_sanitizer :
  forall (SANITIZER_URL : string) (p : ErrorPatterns) (text : string)
         (W : Type) (w : W),
    text <> "" ->
    exists (cleaned : string) (listed : list string) (n : nat),
      fst (Sanitizer.sanitize (Some (JStr text))) =
        json (JObj
          [ ("success", JBool true);
            ("sanitized", JStr cleaned);
            ("removed", JArr (map JStr listed));
            ("count", JNum (Z.of_nat n));
            ("message",
             JStr ("Sanitized " ++ string_of_nat n ++ " sensitive items")) ]) /\
      result (run (sanitizer_agent SANITIZER_URL)
                  (analyze SANITIZER_URL (Some (JStr text))) p w)
        = inl (analysis_response SANITIZER_URL (split newline cleaned)
                 (forEach (split newline cleaned) 0 (start p))
                 (Some (JObj
                    [ ("count", JNum (Z.of_nat n));
                      ("message",
                       JStr ("Sanitized " ++ string_of_nat n
                             ++ " sensitive items")) ]))) /\
      path ["agentToAgentCall"; "success"]
           (body (analysis_response SANITIZER_URL (split newline cleaned)
                    (forEach (split newline cleaned) 0 (start p))
                    (Some (JObj
                       [ ("count", JNum (Z.of_nat n));
                         ("message",
                          JStr ("Sanitized " ++ string_of_nat n
                                ++ " sensitive items")) ]))))
        = Some (JBool true) /\
      (n = 0 -> cleaned = text) /\
      (clean text -> cleaned = text /\ n = 0).
Proof.
  intros SANITIZER_URL p text W w Hne.
  destruct (redact_rounds text Sanitizer.PATTERNS (unsanitized text)
              eq_refl (fun _ => eq_refl)) as [_ Hzero].
  assert (Htruthy : truthy (Some (JStr text)) = true).
  { unfold truthy. apply String.eqb_neq in Hne. now rewrite Hne. }
  assert (Hnet :
    fst (sanitizer_agent SANITIZER_URL w (SANITIZER_URL ++ "/sanitize")
           (JObj (field "data" (Some (JStr text)))))
      = Resolved (body (fst (Sanitizer.sanitize (Some (JStr text)))))).
  { unfold sanitizer_agent. rewrite String.eqb_refl.
    cbn [fst prop].
    change (lookup "data" (field "data" (Some (JStr text))))
      with (Some (JStr text)).
    now rewrite (sanitize_string text Hne). }
  rewrite (sanitize_string text Hne) in Hnet. cbn [body json] in Hnet.
  destruct (run_analyze_sanitized SANITIZER_URL (sanitizer_agent SANITIZER_URL)
              p (Some (JStr text)) w _ _ Htruthy Hnet eq_refl)
    as (Hresult & _).
  exists (Sanitizer.sanitized
            (fold_left Sanitizer.redact Sanitizer.PATTERNS (unsanitized text))),
         (firstn 10
            (Sanitizer.removed
               (fold_left Sanitizer.redact Sanitizer.PATTERNS
                          (unsanitized text)))),
         (Sanitizer.totalCount
            (fold_left Sanitizer.redact Sanitizer.PATTERNS (unsanitized text))).
  split; [exact (sanitize_string text Hne) |].
  split; [exact Hresult |]. split; [reflexivity |]. split.
  - exact Hzero.
  - intros Hclean.
    rewrite (redact_clean text Sanitizer.PATTERNS (unsanitized text) Hclean
               eq_refl).
    split; reflexivity.
Qed.

Lemma analysis_behind_the_sanitizer_witness :
  exists (cleaned : string) (listed : list string) (n : nat),
    fst (Sanitizer.sanitize (Some (JStr "ERROR: Connection failed"))) =
      json (JObj
        [ ("success", JBool true);
          ("sanitized", JStr cleaned);
          ("removed", JArr (map JStr listed));
          ("count", JNum (Z.of_nat n));
          ("message",
           JStr ("Sanitized " ++ string_of_nat n ++ " sensitive items")) ]) /\
    result (run (sanitizer_agent "http://localhost:5001")
                (analyze "http://localhost:5001"
                   (Some (JStr "ERROR: Connection failed")))
                ERROR_PATTERNS tt)
      = inl (analysis_response "http://localhost:5001" (split newline cleaned)
               (forEach (split newline cleaned) 0 (start ERROR_PATTERNS))
               (Some (JObj
                  [ ("count", JNum (Z.of_nat n));
                    ("message",
                     JStr ("Sanitized " ++ string_of_nat n
                           ++ " sensitive items")) ]))) /\
    path ["agentToAgentCall"; "success"]
         (body (analysis_response "http://localhost:5001"
                  (split newline cleaned)
                  (forEach (split newline cleaned) 0 (start ERROR_PATTERNS))
                  (Some (JObj
                     [ ("count", JNum (Z.of_nat n));
                       ("message",
                        JStr ("Sanitized " ++ string_of_nat n
                              ++ " sensitive items")) ]))))
      = Some (JBool true) /\
    (n = 0 -> cleaned = "ERROR: Connection failed") /\
    (clean "ERROR: Connection failed" ->
     cleaned = "ERROR: Connection failed" /\ n = 0).
Proof.
  apply (analysis_behind_the_sanitizer
           "http://localhost:5001" ERROR_PATTERNS "ERROR: Connection failed"
           unit tt).
  discriminate.
Defined.

(** ** The sanitizer: what a round replaces *)

Lemma get_lt (s : string) (i : nat) (c : ascii) :
  String.get i s = Some c -> i < String.length s.
Proof.
  revert i. induction s as [| d s IH]; intros i; [discriminate |].
  destruct i as [| i]; simpl; [lia |].
  intros H. apply IH in H. lia.
Qed.

Lemma lit_at_range (ic : bool) (p s : string) (i j : nat) :
  i <= String.length s ->
  lit_at ic p s i = Some j ->
  i <= j <= String.length s.
Proof.
  revert i. induction p as [| c p IH]; intros i Hi; simpl.
  - intros [= <-]. lia.
  - destruct (String.get i s) as [d |] eqn:Hget; [| discriminate].
    apply get_lt in Hget.
    destruct (Ascii.eqb _ _); [| discriminate].
    intros H. apply IH in H; lia.
Qed.

(** A match ends where its continuation was entered, at an index of the
    text that is not before its start. *)
Lemma matcher_range (r : Sanitizer.Pattern) :
  forall (ic : bool) (s : string) (i : nat) (k : nat -> option nat) (e : nat),
    i <= String.length s ->
    Sanitizer.matcher ic r s i k = Some e ->
    exists j, i <= j <= String.length s /\ k j = Some e.
Proof.
  induction r as [p | ranges | a IHa b IHb | a IHa b IHb | a IHa min max |];
    intros ic s i k e Hi H; cbn [Sanitizer.matcher] in H.
  - destruct (lit_at ic p s i) as [j |] eqn:Hlit; [| discriminate].
    apply lit_at_range in Hlit; [| exact Hi]. now exists j.
  - destruct (String.get i s) as [c |] eqn:Hget; [| discriminate].
    apply get_lt in Hget.
    destruct (Sanitizer.class_has ic ranges c); [| discriminate].
    exists (S i). split; [lia | exact H].
  - apply IHa in H; [| exact Hi]. destruct H as (j & Hj & H).
    apply IHb in H; [| lia]. destruct H as (j' & Hj' & H).
    exists j'. split; [lia | exact H].
  - destruct (Sanitizer.matcher ic a s i k) as [e' |] eqn:Ha.
    + injection H as <-. now apply IHa in Ha.
    + now apply IHb in H.
  - revert H. generalize (String.length s + min + 1). intros fuel.
    generalize 0. intros count. revert count i Hi.
    induction fuel as [| fuel IHfuel]; intros count i Hi H.
    + destruct (Nat.leb min count); [| discriminate]. now exists i.
    + destruct (Sanitizer.below max count);
        [| destruct (Nat.leb min count); [now exists i | discriminate]].
      match type of H with
      | match ?m with _ => _ end = _ => destruct m as [e' |] eqn:Hround
      end.
      * injection H as <-. apply IHa in Hround; [| exact Hi].
        destruct Hround as (j & Hj & Hround).
        destruct (Nat.leb min count && Nat.eqb j i); [discriminate |].
        apply IHfuel in Hround; [| lia].
        destruct Hround as (j' & Hj' & Hround).
        exists j'. split; [lia | exact Hround].
      * destruct (Nat.leb min count); [now exists i | discriminate].
  - destruct (xorb _ _); [| discriminate]. now exists i.
Qed.

Lemma scan_range (ic : bool) (r : Sanitizer.Pattern) (s : string)
  (i fuel b e : nat) :
  i + fuel <= String.length s ->
  Sanitizer.scan ic r s i fuel = Some (b, e) ->
  i <= b /\ b <= e /\ e <= String.length s.
Proof.
  revert i. induction fuel as [| fuel IH]; intros i Hi; cbn [Sanitizer.scan];
    destruct (Sanitizer.matcher ic r s i Some) as [e' |] eqn:Hm;
    try discriminate.
  - intros [= <- <-]. apply matcher_range in Hm; [| lia].
    destruct Hm as (j & Hj & [= <-]). lia.
  - intros [= <- <-]. apply matcher_range in Hm; [| lia].
    destruct Hm as (j & Hj & [= <-]). lia.
  - intros H. apply IH in H; lia.
Qed.

Lemma in_order_from (s : string) (found : list (nat * nat)) (next next' : nat) :
  next' <= next -> in_order s next found -> in_order s next' found.
Proof.
  destruct found as [| [b e] rest]; [trivial |].
  simpl. intros Hle (Hb & He & Hlen & Hrest). repeat split; auto. lia.
Qed.

Lemma spans_in_order (R : Sanitizer.RegExp) (s : string)
  (fuel lastIndex : nat) :
  in_order s lastIndex (Sanitizer.spans R s lastIndex fuel).
Proof.
  revert lastIndex. induction fuel as [| fuel IH]; intros lastIndex;
    cbn [Sanitizer.spans]; [exact I |].
  destruct (Nat.ltb (String.length s) lastIndex) eqn:Hlt; [exact I |].
  apply Nat.ltb_ge in Hlt.
  destruct (Sanitizer.scan _ _ s lastIndex _) as [[b e] |] eqn:Hscan;
    [| exact I].
  apply scan_range in Hscan; [| lia].
  cbn [in_order]. repeat split; try lia.
  apply (in_order_from s _ (if Nat.eqb e b then S e else e)); [| apply IH].
  destruct (Nat.eqb e b); lia.
Qed.

Lemma substring_add (s : string) (n a b : nat) :
  substring n (a + b) s = substring n a s ++ substring (n + a) b s.
Proof.
  revert n a. induction s as [| c s IH]; intros n a.
  - destruct n, a, b; reflexivity.
  - destruct n as [| n].
    + destruct a as [| a]; [reflexivity |].
      cbn [Nat.add substring append]. now rewrite (IH 0 a).
    + cbn [Nat.add substring]. apply IH.
Qed.

Lemma substring_all (s : string) : substring 0 (String.length s) s = s.
Proof.
  induction s as [| c s IH]; [reflexivity |].
  cbn [String.length substring]. now rewrite IH.
Qed.

(** The spans cut the text from [next] on into pieces, and [rebuild] puts
    the replacement between the same pieces. *)
Lemma rebuild_weaves (s replacement : string) (found : list (nat * nat)) :
  forall next,
    next <= String.length s ->
    in_order s next found ->
    exists pieces,
      List.length pieces = S (List.length found) /\
      weave pieces
            (map (fun span => substring (fst span) (snd span - fst span) s)
                 found)
        = substring next (String.length s - next) s /\
      weave pieces (map (fun _ => replacement) found)
        = Sanitizer.rebuild s found next replacement.
Proof.
  induction found as [| [b e] rest IH]; intros next Hnext Hordered.
  - exists [ substring next (String.length s - next) s ]. repeat split.
  - destruct Hordered as (Hb & He & Hlen & Hrest).
    destruct (IH e Hlen Hrest) as (pieces & Hcount & Hcut & Hput).
    exists (substring next (b - next) s :: pieces).
    cbn [List.length map weave Sanitizer.rebuild fst snd].
    apply Nat.leb_le in Hb as Hleb. rewrite Hleb.
    split; [now rewrite Hcount |]. split.
    + destruct pieces as [| piece pieces']; [discriminate |].
      rewrite Hcut.
      replace (String.length s - next)
        with ((b - next) + ((e - b) + (String.length s - e))) by lia.
      rewrite !substring_add.
      replace (next + (b - next)) with b by lia.
      replace (b + (e - b)) with e by lia.
      reflexivity.
    + destruct pieces as [| piece pieces']; [discriminate |].
      now rewrite Hput.
Qed.

(** X28: a round of the sanitizer's loop cuts the text at the matches of its
    pattern and puts the token of the pattern in the place of each match:
    the text is the pieces with the matches between them, and the round
    leaves the same pieces with the token between them. What lies between
    the matches is kept, and without a match the text is kept. *)
Theorem redact_replaces_the_matches :
  forall (acc : Sanitizer.Pass) (entry : string * Sanitizer.RegExp),
    exists pieces : list string,
      List.length pieces
        = S (List.length (Sanitizer.match_all (snd entry)
                            (Sanitizer.sanitized acc))) /\
      weave pieces (Sanitizer.match_all (snd entry) (Sanitizer.sanitized acc))
        = Sanitizer.sanitized acc /\
      weave pieces
            (map (fun _ => token (fst entry))
                 (Sanitizer.match_all (snd entry) (Sanitizer.sanitized acc)))
        = Sanitizer.sanitized (Sanitizer.redact acc entry).
Proof.
  intros acc entry.
  destruct (rebuild_weaves (Sanitizer.sanitized acc) (token (fst entry))
              (Sanitizer.all_spans (snd entry) (Sanitizer.sanitized acc))
              0 (Nat.le_0_l _) (spans_in_order _ _ _ _))
    as (pieces & Hcount & Hcut & Hput).
  rewrite Nat.sub_0_r, substring_all in Hcut.
  exists pieces. unfold Sanitizer.match_all.
  rewrite length_map, map_map. split; [exact Hcount |].
  split; [exact Hcut |].
  rewrite Hput.
  destruct (redact_cases acc entry) as [[Hnone ->] | (_ & -> & _)];
    [| reflexivity].
  unfold Sanitizer.match_all in Hnone. apply map_eq_nil in Hnone.
  unfold Sanitizer.replace in *. rewrite Hnone. cbn [Sanitizer.rebuild].
  now rewrite Nat.sub_0_r, substring_all.
Qed.

(** ** End to end: a sanitization request *)

(** X29: once the sanitizer has registered itself, a request whose plan is
    the sanitizer alone and whose payload is a string is served by it.  The
    payload is the [data] of the body when that is truthy, the request text
    otherwise.  The one call goes to [/sanitize] at the sanitizer's address
    with the payload; when the [/sanitize] handler answers it, the answer
    is 200 with the handler's answer as the result and its message in the
    trace. *)
Theorem sanitization_request_end_to_end :
  forall (PORT text : string) (payload : option Json) (sent : string)
         (registry : AgentRegistry) (W : Type) (w : W),
    planned text = [sanitizer_step] ->
    or_else payload (Some (JStr text)) = Some (JStr sent) ->
    exists (cleaned : string) (listed : list string) (n : nat),
      fst (Sanitizer.sanitize (Some (JStr sent))) =
        json (JObj
          [ ("success", JBool true);
            ("sanitized", JStr cleaned);
            ("removed", JArr (map JStr listed));
            ("count", JNum (Z.of_nat n));
            ("message",
             JStr ("Sanitized " ++ string_of_nat n ++ " sensitive items")) ]) /\
      result
        (run (sanitizer_agent (Sanitizer.AGENT_URL PORT))
             (planAndRun {| request := Some text; data := payload |})
             (state (run (sanitizer_agent (Sanitizer.AGENT_URL PORT))
                         (registerRoute (Sanitizer.registration PORT))
                         registry w))
             w)
        = inl (json (JObj
            [ ("request", JStr text);
              ("plan", plan_json [sanitizer_step]);
              ("success", JBool true);
              ("results",
               JObj [ ("sanitizer",
                       body (fst (Sanitizer.sanitize (Some (JStr sent))))) ]);
              ("executionTrace",
               JArr [ JStr ("sanitizer: "
                            ++ stringify
                                 (JStr ("Sanitized " ++ string_of_nat n
                                        ++ " sensitive items"))) ]) ])) /\
      calls
        (run (sanitizer_agent (Sanitizer.AGENT_URL PORT))
             (planAndRun {| request := Some text; data := payload |})
             (state (run (sanitizer_agent (Sanitizer.AGENT_URL PORT))
                         (registerRoute (Sanitizer.registration PORT))
                         registry w))
             w)
        = [ (Sanitizer.AGENT_URL PORT ++ "/sanitize",
             JObj [ ("data", JStr sent) ]) ].
Proof.
  intros PORT text payload sent registry W w Hplan Hsent.
  assert (Hne : text <> "") by (intros ->; discriminate Hplan).
  assert (Hsent_ne : sent <> "").
  { intros ->. unfold or_else in Hsent.
    destruct (truthy payload) eqn:Htruthy.
    - rewrite Hsent in Htruthy. discriminate Htruthy.
    - injection Hsent as ->. contradiction. }
  assert (Hsome : planned text <> []) by (rewrite Hplan; discriminate).
  pose proof (sanitize_string sent Hsent_ne) as Hanswer.
  revert Hanswer.
  generalize (fold_left Sanitizer.redact Sanitizer.PATTERNS (unsanitized sent)).
  intros done Hanswer.
  exists (Sanitizer.sanitized done), (firstn 10 (Sanitizer.removed done)),
         (Sanitizer.totalCount done).
  split; [exact Hanswer |].
  set (net := sanitizer_agent (W := W) (Sanitizer.AGENT_URL PORT)).
  set (info := {| name := "sanitizer"; url := Sanitizer.AGENT_URL PORT;
                  tools := [ {| tool_name := "sanitize";
                                description :=
                                  "Removes PII and sensitive information from text "
                                  ++ "(emails, IPs, SSNs, phone numbers, etc.)";
                                input := "{ data: string }" |} ] |}).
  assert (Hstate :
    state (run net (registerRoute (Sanitizer.registration PORT)) registry w)
      = assign "sanitizer" info registry) by reflexivity.
  rewrite Hstate.
  assert (Hfound : lookup (agent sanitizer_step)
                     (assign "sanitizer" info registry) = Some info)
    by apply lookup_assign_same.
  assert (Hnet :
    fst (net w (url info ++ getEndpointForTask (agent sanitizer_step)
                                               (task sanitizer_step))
               (JObj (field "data"
                        (input_for (Some (JStr sent)) [] sanitizer_step))))
      = Resolved (body (fst (Sanitizer.sanitize (Some (JStr sent)))))).
  { unfold net, sanitizer_agent.
    change (url info ++ getEndpointForTask (agent sanitizer_step)
                                           (task sanitizer_step))
      with (Sanitizer.AGENT_URL PORT ++ "/sanitize").
    rewrite String.eqb_refl. cbn [fst].
    change (prop (JObj (field "data"
                          (input_for (Some (JStr sent)) [] sanitizer_step)))
                 "data")
      with (Some (JStr sent)).
    now rewrite Hanswer. }
  rewrite (run_planAndRun_planned text payload W net _ w Hne Hsome).
  rewrite Hplan, Hsent.
  rewrite (run_step_resolved net _ (Some (JStr sent)) sanitizer_step [] 0 [] []
             w info _ Hfound eq_refl Hnet)
    by (rewrite Hanswer; discriminate).
  unfold relayed. cbn [executeSteps run logged called result calls].
  rewrite Hplan. unfold trace_line. rewrite Hanswer.
  split; reflexivity.
Qed.

Lemma sanitization_request_end_to_end_witness :
  exists (cleaned : string) (listed : list string) (n : nat),
    fst (Sanitizer.sanitize
           (Some (JStr contact_line))) =
      json (JObj
        [ ("success", JBool true);
          ("sanitized", JStr cleaned);
          ("removed", JArr (map JStr listed));
          ("count", JNum (Z.of_nat n));
          ("message",
           JStr ("Sanitized " ++ string_of_nat n ++ " sensitive items")) ]) /\
    result
      (run (sanitizer_agent (Sanitizer.AGENT_URL "5001"))
           (planAndRun
              {| request := Some "Sanitize this sensitive data";
                 data := Some (JStr contact_line) |})
           (state (run (sanitizer_agent (Sanitizer.AGENT_URL "5001"))
                       (registerRoute (Sanitizer.registration "5001"))
                       [] tt))
           tt)
      = inl (json (JObj
          [ ("request", JStr "Sanitize this sensitive data");
            ("plan", plan_json [sanitizer_step]);
            ("success", JBool true);
            ("results",
             JObj [ ("sanitizer",
                     body (fst (Sanitizer.sanitize
                                  (Some (JStr contact_line))))) ]);
            ("executionTrace",
             JArr [ JStr ("sanitizer: "
                          ++ stringify
                               (JStr ("Sanitized " ++ string_of_nat n
                                      ++ " sensitive items"))) ]) ])) /\
    calls
      (run (sanitizer_agent (Sanitizer.AGENT_URL "5001"))
           (planAndRun
              {| request := Some "Sanitize this sensitive data";
                 data := Some (JStr contact_line) |})
           (state (run (sanitizer_agent (Sanitizer.AGENT_URL "5001"))
                       (registerRoute (Sanitizer.registration "5001"))
                       [] tt))
           tt)
      = [ (Sanitizer.AGENT_URL "5001" ++ "/sanitize",
           JObj [ ("data", JStr contact_line) ]) ].
Proof.
  apply (sanitization_request_end_to_end
           "5001" "Sanitize this sensitive data"
           (Some (JStr contact_line))
           contact_line [] unit tt);
    reflexivity.
Defined.

(** ** The examples of the documentation: the sanitizer *)

Example sanitizer_test :
  path ["sanitized"]
       (body (fst (Sanitizer.sanitize
                     (Some (JStr "Email: test@example.com, IP: 192.168.1.1")))))
    = Some (JStr "Email: [REDACTED_EMAIL], IP: [REDACTED_IPV4]").
Proof. vm_compute. reflexivity. Qed.

Example sanitization_only :
  fst (Sanitizer.sanitize
         (Some (JStr ("Contact: john@example.com, Phone: 555-123-4567, "
                      ++ "IP: 10.0.0.1"))))
    = json (JObj
        [ ("success", JBool true);
          ("sanitized",
           JStr ("Contact: [REDACTED_EMAIL], Phone: [REDACTED_PHONE], "
                 ++ "IP: [REDACTED_IPV4]"));
          ("removed", JArr [ JStr "email: john@examp...";
                             JStr "ipv4: 10.0.0.1...";
                             JStr "phone: 555-123-45..." ]);
          ("count", JNum 3);
          ("message", JStr "Sanitized 3 sensitive items") ]).
Proof. vm_compute. reflexivity. Qed.

Example full_brief_is_sanitized :
  path ["count"]
       (body (fst (Sanitizer.sanitize
          (Some (JStr (text_of
             [ "2024-01-15 ERROR: Database connection failed for user "
               ++ "john.doe@company.com from IP 192.168.1.100";
               "2024-01-15 WARNING: High memory usage detected";
               "2024-01-15 CRITICAL: Payment service crashed, API key: "
               ++ "sk_live_abc123xyz456";
               "2024-01-15 WARNING: Deprecated function called";
               "2024-01-15 ERROR: Authentication failed for user "
               ++ "jane.smith@company.com" ]))))))
    = Some (JNum 4).
Proof. vm_compute. reflexivity. Qed.
